(** * Server management bot: power monitor, shutdown sweep, reminder cycle

    A shallow embedding of the parts of [bot.py] that detect a loss of mains
    power, shut the registered servers down over SSH and remind the operator
    while the outage lasts:

    - [SSHManager.test_connection], [SSHManager.shutdown_server];
    - [ServerBot.handle_power_loss];
    - [PowerMonitor.__init__], [_get_charging_status], [_monitor_power],
      [_notification_cycle].

    Calls that leave the process (paramiko, the Fernet cipher, the file
    system, subprocesses, the Telegram client, the clock) are answered by an
    explicit world; what the code does to the outside is recorded as a
    chronological list of [Event]s.  Python exceptions are values of [Exn],
    and a computation is a pair of its outcome and of the events it caused. *)

From Stdlib Require Import String Ascii List ZArith Lia Bool Arith.
From Stdlib Require Import Decimal DecimalString.
Import ListNotations.
Open Scope string_scope.

(** ** Exceptions, outcomes and the effect monad *)

(** An instance of a subclass of Python's [Exception]; [str e] is what
    [str(e)] and an f-string print.  [BaseException]s that are not
    [Exception]s (KeyboardInterrupt, SystemExit) are outside the model. *)
Inductive Exn : Type :=
| Exception (class_name : string) (message : string).

Definition str (e : Exn) : string :=
  match e with Exception _ m => m end.

Inductive Res (A : Type) : Type :=
| Ok (a : A)
| Raise (e : Exn).
Arguments Ok {A} a.
Arguments Raise {A} e.

Inductive PowerEventKind : Type := Lost | Restored.

(** Keyword arguments handed to [paramiko.SSHClient.connect]. *)
Record AuthKwargs : Type := mkKwargs {
  hostname : string;
  port : Z;
  username : string;
  timeout : Z;
  password : option string;
  key_filename : option string
}.

(** One line of the shutdown report: [f"{status_icon} {name}: {message}"]. *)
Record ResultLine : Type := mkLine {
  status_icon : bool;
  line_name : string;
  line_message : string
}.

(** The three texts [handle_power_loss] sends to the operator. *)
Inductive Message : Type :=
| PowerLossAnnouncement
| NoServersFound
| ShutdownReport (shutdown_results : list ResultLine).

Inductive Event : Type :=
| LoggerError (msg : string)
| LoggerWarning (msg : string)
| LoggerInfo (msg : string)
| Sleep (seconds : Z)
| NewClient
| Connect (auth_kwargs : AuthKwargs)
| ExecCommand (command : string)
| RecvExitStatus
| Close
| ReadStderr
| SendMessage (m : Message)
| LogEvent (event_type message : string) (server_name status : option string)
| Dispatch (kind : PowerEventKind)
| StartNotificationCycle
| StopNotificationCycle
| Reminder (elapsed : Z).

(** A computation: its outcome and the events it caused, oldest first. *)
Definition M (A : Type) : Type := (Res A * list Event)%type.

Definition ret {A} (a : A) : M A := (Ok a, []).

Definition bind {A B} (m : M A) (f : A -> M B) : M B :=
  match m with
  | (Ok a, t1) => let (r, t2) := f a in (r, (t1 ++ t2)%list)
  | (Raise e, t1) => (Raise e, t1)
  end.

(** [emit ev]: an effect that cannot fail. *)
Definition emit (ev : Event) : M unit := (Ok tt, [ev]).

(** [call ev r]: an outside call, recorded as [ev], answered by [r]. *)
Definition call {A} (ev : Event) (r : Res A) : M A := (r, [ev]).

(** [lift r]: an outside call that leaves no event of its own. *)
Definition lift {A} (r : Res A) : M A := (r, []).

(** [try: m except Exception as e: h e]. *)
Definition try_except {A} (m : M A) (h : Exn -> M A) : M A :=
  match m with
  | (Ok a, t1) => (Ok a, t1)
  | (Raise e, t1) => let (r, t2) := h e in (r, (t1 ++ t2)%list)
  end.

Declare Scope py_scope.
Delimit Scope py_scope with py.
Notation "x <- m ;; k" := (bind m (fun x => k))
  (at level 61, m at next level, right associativity) : py_scope.
Notation "m ;; k" := (bind m (fun _ => k))
  (at level 61, right associativity) : py_scope.
Open Scope py_scope.

Definition outcome {A} (m : M A) : Res A := fst m.
Definition trace {A} (m : M A) : list Event := snd m.

(** Python's [str(n)] for a natural number. *)
Definition str_nat (n : nat) : string :=
  NilEmpty.string_of_uint (Nat.to_uint n).

(** Truth value of an [Optional[str]] column: [None] and [''] are falsy. *)
Definition truthy (o : option string) : bool :=
  match o with
  | Some s => negb (s =? "")
  | None => false
  end.

(** The string held by a column that passed the truth test. *)
Definition text (o : option string) : string :=
  match o with
  | Some s => s
  | None => ""
  end.

(** ** Observations on traces *)

Definition is_new_client (ev : Event) : bool :=
  match ev with NewClient => true | _ => false end.
Definition is_connect (ev : Event) : bool :=
  match ev with Connect _ => true | _ => false end.
Definition is_exec (ev : Event) : bool :=
  match ev with ExecCommand _ => true | _ => false end.
Definition is_sleep (ev : Event) : bool :=
  match ev with Sleep _ => true | _ => false end.

(** Attempts started, remote sessions requested, commands run, pauses. *)
Definition attempts (t : list Event) : nat := length (filter is_new_client t).
Definition sessions (t : list Event) : nat := length (filter is_connect t).
Definition commands (t : list Event) : nat := length (filter is_exec t).
Definition pauses (t : list Event) : nat := length (filter is_sleep t).

Fixpoint connect_args (t : list Event) : list AuthKwargs :=
  match t with
  | [] => []
  | Connect kw :: t' => kw :: connect_args t'
  | _ :: t' => connect_args t'
  end.

(** ** SSHManager *)

(** A row of the [servers] table as [get_servers] returns it. *)
Record Server : Type := mkServer {
  name : string;
  ip_address : string;
  server_port : Z;
  server_username : string;
  password_encrypted : option string;
  key_path : option string;
  shutdown_command : string
}.

(** What the outside answers during one attempt. *)
Record SshWorld : Type := mkSshWorld {
  crypto_decrypt : string -> Res string;
  os_path_exists : string -> bool;
  client_connect : AuthKwargs -> Res unit;
  client_exec_command : string -> Res unit;
  recv_exit_status : Res Z;
  client_close : Res unit;
  stderr_read : Res string
}.

Definition no_auth_message : string := "No authentication method available".

(** [server['key_path'] and os.path.exists(server['key_path'])]. *)
Definition key_usable (w : SshWorld) (server : Server) : bool :=
  match key_path server with
  | Some p => negb (p =? "") && os_path_exists w p
  | None => false
  end.

Module SSHManager.

(** Body of the [try] of [test_connection]. *)
Definition test_connection_body (w : SshWorld) (server : Server)
  : M (bool * string) :=
  emit NewClient ;;
  let auth_kwargs :=
    mkKwargs (ip_address server) (server_port server) (server_username server)
             10 None None in
  resolved <-
    (if truthy (password_encrypted server) then
       pw <- lift (crypto_decrypt w (text (password_encrypted server))) ;;
       ret (Some (mkKwargs (hostname auth_kwargs) (port auth_kwargs)
                           (username auth_kwargs) (timeout auth_kwargs)
                           (Some pw) None))
     else if key_usable w server then
       ret (Some (mkKwargs (hostname auth_kwargs) (port auth_kwargs)
                           (username auth_kwargs) (timeout auth_kwargs)
                           None (key_path server)))
     else ret None) ;;
  match resolved with
  | None => ret (false, no_auth_message)
  | Some kw =>
      call (Connect kw) (client_connect w kw) ;;
      call Close (client_close w) ;;
      ret (true, "Connection successful")
  end.

Definition test_connection (w : SshWorld) (server : Server)
  : M (bool * string) :=
  try_except (test_connection_body w server)
             (fun e => ret (false, str e)).

Definition max_retries : nat := 3.

(** Body of the [try] of one iteration of [shutdown_server]: [Some r] is
    [return r], [None] falls through to the next iteration. *)
Definition shutdown_attempt (w : SshWorld) (server : Server) (attempt : nat)
  : M (option (bool * string)) :=
  emit NewClient ;;
  let auth_kwargs :=
    mkKwargs (ip_address server) (server_port server) (server_username server)
             10 None None in
  resolved <-
    (if truthy (password_encrypted server) then
       pw <- lift (crypto_decrypt w (text (password_encrypted server))) ;;
       ret (Some (mkKwargs (hostname auth_kwargs) (port auth_kwargs)
                           (username auth_kwargs) (timeout auth_kwargs)
                           (Some pw) None))
     else if key_usable w server then
       ret (Some (mkKwargs (hostname auth_kwargs) (port auth_kwargs)
                           (username auth_kwargs) (timeout auth_kwargs)
                           None (key_path server)))
     else ret None) ;;
  match resolved with
  | None => ret (Some (false, no_auth_message))
  | Some kw =>
      call (Connect kw) (client_connect w kw) ;;
      call (ExecCommand (shutdown_command server))
           (client_exec_command w (shutdown_command server)) ;;
      exit_status <- call RecvExitStatus (recv_exit_status w) ;;
      call Close (client_close w) ;;
      if (exit_status =? 0)%Z then
        ret (Some (true,
                   "Shutdown successful (attempt " ++ str_nat (attempt + 1)
                   ++ ")"))
      else
        error_output <- call ReadStderr (stderr_read w) ;;
        if (attempt =? max_retries - 1)%nat then
          ret (Some (false, "Shutdown failed: " ++ error_output))
        else ret None
  end.

(** The [except Exception as e] clause of the same iteration. *)
Definition shutdown_except (attempt : nat) (e : Exn)
  : M (option (bool * string)) :=
  if (attempt =? max_retries - 1)%nat then
    ret (Some (false,
               "Connection failed after " ++ str_nat max_retries
               ++ " attempts: " ++ str e))
  else
    emit (Sleep 2) ;; ret None.

(** [for attempt in attempts: ...], then the statement after the loop.
    [world attempt] answers the outside calls of that iteration. *)
Fixpoint shutdown_loop (world : nat -> SshWorld) (server : Server)
                       (todo : list nat) : M (bool * string) :=
  match todo with
  | [] => ret (false, "Max retries exceeded")
  | attempt :: rest =>
      r <- try_except (shutdown_attempt (world attempt) server attempt)
                      (shutdown_except attempt) ;;
      match r with
      | Some result => ret result
      | None => shutdown_loop world server rest
      end
  end.

Definition shutdown_server (world : nat -> SshWorld) (server : Server)
  : M (bool * string) :=
  shutdown_loop world server (seq 0 max_retries).

End SSHManager.

(** ** ServerBot.handle_power_loss *)

Definition is_shutdown_log (ev : Event) : bool :=
  match ev with
  | LogEvent ty _ _ _ => ty =? "server_shutdown"
  | _ => false
  end.

(** The finalized outcomes written to [event_logs], oldest first: target
    name and status of every ["server_shutdown"] row. *)
Fixpoint finalized (t : list Event) : list (option string * option string) :=
  match t with
  | [] => []
  | LogEvent ty _ srv st :: t' =>
      if ty =? "server_shutdown" then (srv, st) :: finalized t'
      else finalized t'
  | _ :: t' => finalized t'
  end.

(** What the outside answers while [handle_power_loss] runs: the Telegram
    client, once per [send_message] call in call order; the registry; and,
    for the target at each position of the snapshot, the SSH world of each
    of its attempts. *)
Record BotWorld : Type := mkBotWorld {
  send_message : nat -> Res unit;
  get_servers : Res (list Server);
  ssh : nat -> nat -> SshWorld
}.

Module ServerBot.

(** [DatabaseManager.log_event]: its own [try]/[except] keeps every
    exception inside, so the caller sees a call that cannot fail. *)
Definition log_event (event_type message : string)
                     (server_name status : option string) : M unit :=
  emit (LogEvent event_type message server_name status).

(** One iteration of [for server in servers], for the target at position
    [i] of the snapshot. *)
Definition sweep_one (w : BotWorld) (i : nat) (server : Server)
  : M ResultLine :=
  r <- SSHManager.shutdown_server (ssh w i) server ;;
  let '(success, message) := r in
  let result_text := mkLine success (name server) message in
  log_event "server_shutdown"
            ("Shutdown " ++ name server ++ ": " ++ message)
            (Some (name server))
            (Some (if success then "success" else "failed")) ;;
  ret result_text.

(** The per-target loop; the result is [shutdown_results] after it. *)
Fixpoint sweep (w : BotWorld) (i : nat) (servers : list Server)
  : M (list ResultLine) :=
  match servers with
  | [] => ret []
  | server :: rest =>
      result_text <- sweep_one w i server ;;
      shutdown_results <- sweep w (S i) rest ;;
      ret (result_text :: shutdown_results)
  end.

Definition handle_power_loss_body (w : BotWorld) : M unit :=
  call (SendMessage PowerLossAnnouncement) (send_message w 0) ;;
  log_event "power_loss"
            "Power loss detected, starting server shutdown sequence"
            None None ;;
  servers <- lift (get_servers w) ;;
  match servers with
  | [] => call (SendMessage NoServersFound) (send_message w 1)
  | _ :: _ =>
      shutdown_results <- sweep w 0 servers ;;
      call (SendMessage (ShutdownReport shutdown_results)) (send_message w 1)
  end.

Definition handle_power_loss (w : BotWorld) : M unit :=
  try_except (handle_power_loss_body w)
    (fun e =>
       emit (LoggerError ("Error in handle_power_loss: " ++ str e)) ;;
       log_event "error" ("Error in power loss handling: " ++ str e)
                 None None).

End ServerBot.

(** ** PowerMonitor *)

(** A value returned by [json.loads]. *)
#[warnings="-register-all"]
Inductive Json : Type :=
| JNull
| JBool (b : bool)
| JNumber (n : Z)
| JString (s : string)
| JArray (items : list Json)
| JObject (members : list (string * Json)).

(** What the platform answers during one call of [_get_charging_status]:
    [subprocess.run] gives a return code and the captured stdout or raises
    (time-out after 5 s, missing binary); [json.loads] parses or raises;
    opening and reading the sysfs status file gives its content or raises. *)
Record PowerSource : Type := mkSource {
  subprocess_run : Res (Z * string);
  json_loads : string -> Res Json;
  sysfs_read : Res string
}.

(** The monitor's fields that the loops read and write. *)
Record PowerMonitor : Type := mkMonitor {
  is_monitoring : bool;
  is_charging : bool;
  last_power_loss_time : option Z
}.

Definition with_monitoring (self : PowerMonitor) (b : bool) : PowerMonitor :=
  mkMonitor b (is_charging self) (last_power_loss_time self).
Definition with_charging (self : PowerMonitor) (b : bool) : PowerMonitor :=
  mkMonitor (is_monitoring self) b (last_power_loss_time self).
Definition with_loss_time (self : PowerMonitor) (t : Z) : PowerMonitor :=
  mkMonitor (is_monitoring self) (is_charging self) (Some t).

(** What happens around one pass of the monitoring loop: whether
    [stop_monitoring] was called since the previous loop test, the power
    source, the clock, and the answer of [asyncio.run_coroutine_threadsafe]
    should the pass hand an event to the bot's event loop.  Starting the
    reminder thread and writing to the logger are taken not to raise. *)
Record Iteration : Type := mkIteration {
  stop_requested : bool;
  source : PowerSource;
  now : Z;
  run_coroutine_threadsafe : Res unit
}.

(** What the reminder thread reads, and is answered, during one turn of
    its [while]: the two fields at the loop test, the held state again after
    the sleep, and, for a reminder, the clock, the loss time and the answer
    of [asyncio.run_coroutine_threadsafe].  The thread shares the fields
    with the monitoring loop and takes no lock: each read is a read of its
    own, and nothing fixes what the loop has written by then. *)
Record CycleTurn : Type := mkTurn {
  test_is_charging : bool;
  test_is_monitoring : bool;
  recheck_is_charging : bool;
  read_clock : Z;
  read_loss_time : option Z;
  reminder_handoff : Res unit
}.

(** [str.strip()] on text in the ASCII range: tab to carriage return, the
    four separators 28 to 31, and space. *)
Definition is_space (c : ascii) : bool :=
  let n := nat_of_ascii c in
  ((9 <=? n)%nat && (n <=? 13)%nat) || ((28 <=? n)%nat && (n <=? 32)%nat).

Fixpoint lstrip (s : string) : string :=
  match s with
  | EmptyString => EmptyString
  | String c r => if is_space c then lstrip r else s
  end.

Fixpoint rstrip (s : string) : string :=
  match s with
  | EmptyString => EmptyString
  | String c r =>
      let r' := rstrip r in
      if is_space c && (r' =? "") then EmptyString else String c r'
  end.

Definition strip (s : string) : string := rstrip (lstrip s).

Fixpoint dict_lookup (key : string) (members : list (string * Json))
  : option Json :=
  match members with
  | [] => None
  | (k, v) :: rest => if k =? key then Some v else dict_lookup key rest
  end.

(** [battery_info.get(key, default)]; only a dict has [get]. *)
Definition dict_get (battery_info : Json) (key : string) (default : Json)
  : Res Json :=
  match battery_info with
  | JObject members =>
      Ok (match dict_lookup key members with
          | Some v => v
          | None => default
          end)
  | _ => Raise (Exception "AttributeError" "object has no attribute 'get'")
  end.

(** [v != 'UNPLUGGED']. *)
Definition not_unplugged (v : Json) : bool :=
  match v with
  | JString s => negb (s =? "UNPLUGGED")
  | _ => true
  end.

Fixpoint power_events (t : list Event) : list PowerEventKind :=
  match t with
  | [] => []
  | Dispatch k :: t' => k :: power_events t'
  | _ :: t' => power_events t'
  end.

Fixpoint reminders (t : list Event) : list Z :=
  match t with
  | [] => []
  | Reminder elapsed :: t' => elapsed :: reminders t'
  | _ :: t' => reminders t'
  end.

Fixpoint sleeps (t : list Event) : list Z :=
  match t with
  | [] => []
  | Sleep s :: t' => s :: sleeps t'
  | _ :: t' => sleeps t'
  end.

Definition other_kind (k : PowerEventKind) : PowerEventKind :=
  match k with Lost => Restored | Restored => Lost end.

Definition same_kind (a b : PowerEventKind) : bool :=
  match a, b with
  | Lost, Lost | Restored, Restored => true
  | _, _ => false
  end.

(** The event that leaves the held state [charging]. *)
Definition next_kind (charging : bool) : PowerEventKind :=
  if charging then Lost else Restored.

(** [alternates k evs]: [evs] is [k], the other kind, [k], ... *)
Fixpoint alternates (k : PowerEventKind) (evs : list PowerEventKind) : bool :=
  match evs with
  | [] => true
  | e :: rest => same_kind e k && alternates (other_kind k) rest
  end.

(** No two neighbours of [evs] are of the same kind. *)
Fixpoint no_repeat (evs : list PowerEventKind) : bool :=
  match evs with
  | a :: (b :: _) as rest => negb (same_kind a b) && no_repeat rest
  | _ => true
  end.

Module PowerMonitor.

(** Body of the [try] of [_get_charging_status]. *)
Definition charging_status_try (src : PowerSource) : M bool :=
  result <- lift (subprocess_run src) ;;
  let '(returncode, stdout) := result in
  if (returncode =? 0)%Z then
    battery_info <- lift (json_loads src stdout) ;;
    plugged <- lift (dict_get battery_info "plugged" (JString "UNPLUGGED")) ;;
    ret (not_unplugged plugged)
  else
    content <- lift (sysfs_read src) ;;
    let status := strip content in
    ret (status =? "Charging").

Definition _get_charging_status (src : PowerSource) : bool * list Event :=
  match charging_status_try src with
  | (Ok charging, t) => (charging, t)
  | (Raise e, t) =>
      (true,
       (t ++ [LoggerError ("Error getting charging status: " ++ str e)])%list)
  end.

(** [__init__]: the held state starts as the sample taken there. *)
Definition init (src : PowerSource) : PowerMonitor * list Event :=
  let (charging, t) := _get_charging_status src in
  (mkMonitor false charging None, t).

(** End of the [try] body of one pass: if the branch [m] raised, the fields
    stay as the branch left them; otherwise the held state becomes the
    reading and the loop sleeps two seconds. *)
Definition finish (self : PowerMonitor) (current_charging : bool)
                  (m : M unit) : PowerMonitor * M unit :=
  match outcome m with
  | Ok _ => (with_charging self current_charging, m ;; emit (Sleep 2))
  | Raise _ => (self, m)
  end.

(** Body of the [try] of one pass of [_monitor_power]. *)
Definition monitor_try (self : PowerMonitor) (it : Iteration)
  : PowerMonitor * M unit :=
  let (current_charging, t0) := _get_charging_status (source it) in
  if is_charging self && negb current_charging then
    finish (with_loss_time self (now it)) current_charging
      ((Ok tt, t0) ;;
       emit (LoggerWarning "Power loss detected!") ;;
       lift (run_coroutine_threadsafe it) ;;
       emit (Dispatch Lost) ;;
       emit StartNotificationCycle)
  else if negb (is_charging self) && current_charging then
    finish self current_charging
      ((Ok tt, t0) ;;
       emit (LoggerInfo "Power restored!") ;;
       lift (run_coroutine_threadsafe it) ;;
       emit (Dispatch Restored) ;;
       emit StopNotificationCycle)
  else
    finish self current_charging (Ok tt, t0).

(** One pass with its [except Exception as e]. *)
Definition monitor_pass (self : PowerMonitor) (it : Iteration)
  : PowerMonitor * M unit :=
  let (self', m) := monitor_try self it in
  (self',
   try_except m
     (fun e =>
        emit (LoggerError ("Error in power monitoring: " ++ str e)) ;;
        emit (Sleep 5))).

(** [while self.is_monitoring: ...] over the passes the observer watches. *)
Fixpoint _monitor_power (self : PowerMonitor) (its : list Iteration)
  : PowerMonitor * list Event :=
  match its with
  | [] => (self, [])
  | it :: rest =>
      let self := if stop_requested it then with_monitoring self false
                  else self in
      if is_monitoring self then
        let (self1, m) := monitor_pass self it in
        let (self2, t) := _monitor_power self1 rest in
        (self2, (trace m ++ t)%list)
      else (self, [])
  end.

(** [start_monitoring], with the run of the thread it starts. *)
Definition start_monitoring (self : PowerMonitor) (its : list Iteration)
  : PowerMonitor * list Event :=
  if is_monitoring self then (self, [])
  else
    let (self', t) := _monitor_power (with_monitoring self true) its in
    (self', LoggerInfo "Power monitoring started" :: t).

(** The fields after each pass, oldest first. *)
Fixpoint held_states (self : PowerMonitor) (its : list Iteration)
  : list PowerMonitor :=
  match its with
  | [] => []
  | it :: rest =>
      let self := if stop_requested it then with_monitoring self false
                  else self in
      if is_monitoring self then
        let self1 := fst (monitor_pass self it) in
        self1 :: held_states self1 rest
      else []
  end.

(** [_notification_cycle] over the turns of its [while] that the observer
    watches.  [and] reads [is_monitoring] only when the held state is
    OnBattery.  A reminder whose hand-off raises, or whose loss time is
    [None], ends the thread with the exception. *)
Fixpoint _notification_cycle (turns : list CycleTurn) : list Event :=
  match turns with
  | [] => []
  | turn :: rest =>
      if negb (test_is_charging turn) && test_is_monitoring turn then
        Sleep 300 ::
        (if negb (recheck_is_charging turn) then
           match read_loss_time turn with
           | None => []
           | Some lost_at =>
               match reminder_handoff turn with
               | Raise _ => []
               | Ok _ =>
                   Reminder (read_clock turn - lost_at)
                   :: _notification_cycle rest
               end
           end
         else _notification_cycle rest)
      else []
  end.

End PowerMonitor.

(** * Specification-side definitions and concrete inputs *)

(** ** For the SSH manager *)

(** The record with every credential column empty. *)
Definition unconfigured (server : Server) : Server :=
  mkServer (name server) (ip_address server) (server_port server)
           (server_username server) None None (shutdown_command server).

(** Every session [test_connection] requests has a connect timeout below
    that of every session [shutdown_server] requests. *)
Definition test_timeout_shorter (w : SshWorld) (server : Server) : Prop :=
  forall kw kw',
    In kw (connect_args (trace (SSHManager.test_connection w server))) ->
    In kw' (connect_args
              (trace (SSHManager.shutdown_server (fun _ => w) server))) ->
    (timeout kw < timeout kw')%Z.

Definition reachable : SshWorld :=
  mkSshWorld (fun c => Ok c) (fun _ => true) (fun _ => Ok tt)
             (fun _ => Ok tt) (Ok 0%Z) (Ok tt) (Ok "").

(** A host whose shutdown command first exits with status 1. *)
Definition refusing : SshWorld :=
  mkSshWorld (fun c => Ok c) (fun _ => true) (fun _ => Ok tt)
             (fun _ => Ok tt) (Ok 1%Z) (Ok tt) (Ok "sudo: a password is required").

Definition refusing_once (attempt : nat) : SshWorld :=
  match attempt with
  | O => refusing
  | S _ => reachable
  end.

(** A reachable host on a controller whose key files are gone. *)
Definition reachable_without_key : SshWorld :=
  mkSshWorld (fun c => Ok c) (fun _ => false) (fun _ => Ok tt)
             (fun _ => Ok tt) (Ok 0%Z) (Ok tt) (Ok "").

Definition nas : Server :=
  mkServer "nas" "192.168.1.20" 22 "admin" (Some "gAAAAAB") None
           "sudo shutdown -h now".

Definition keyed : Server :=
  mkServer "backup" "192.168.1.21" 22 "root" None (Some "/data/id_rsa")
           "poweroff".

(** A host that refuses every connection. *)
Definition unreachable : SshWorld :=
  mkSshWorld (fun c => Ok c) (fun _ => true)
             (fun _ => Raise (Exception "NoValidConnectionsError"
                                        "Unable to connect to port 22"))
             (fun _ => Ok tt) (Ok 0%Z) (Ok tt) (Ok "").

(** An outage during which the operator is reached and no target is. *)
Definition blackout : BotWorld :=
  mkBotWorld (fun _ => Ok tt) (Ok [nas; keyed]) (fun _ _ => unreachable).

Definition nas_kwargs : AuthKwargs :=
  mkKwargs "192.168.1.20" 22 "admin" 10 (Some "gAAAAAB") None.

(** The spec's rule for choosing the session's credentials: the stored
    password if there is one (the session is tried only if it decrypts),
    else the key file if it is usable, else nothing. *)
Definition resolved_auth (w : SshWorld) (server : Server)
  : option AuthKwargs :=
  if truthy (password_encrypted server) then
    match crypto_decrypt w (text (password_encrypted server)) with
    | Ok pw =>
        Some (mkKwargs (ip_address server) (server_port server)
                       (server_username server) 10 (Some pw) None)
    | Raise _ => None
    end
  else if key_usable w server then
    Some (mkKwargs (ip_address server) (server_port server)
                   (server_username server) 10 None (key_path server))
  else None.

Definition timeout_is (seconds : Z) (kw : AuthKwargs) : bool :=
  (timeout kw =? seconds)%Z.

(** ** For the power monitor *)

Definition plugged_in : PowerSource :=
  mkSource (Ok (0%Z, "{plugged: PLUGGED_AC}"))
           (fun _ => Ok (JObject [("plugged", JString "PLUGGED_AC")]))
           (Ok "Charging").

Definition on_battery : PowerSource :=
  mkSource (Ok (0%Z, "{plugged: UNPLUGGED}"))
           (fun _ => Ok (JObject [("plugged", JString "UNPLUGGED")]))
           (Ok "Discharging").

(** The Termux API call times out. *)
Definition unreadable : PowerSource :=
  mkSource (Raise (Exception "TimeoutExpired" "timed out after 5 seconds"))
           (fun _ => Ok JNull)
           (Ok "Discharging").

Definition loop_closed : Exn :=
  Exception "RuntimeError" "Event loop is closed".

(** Mains power is off for the first hundred seconds, back for the next
    hundred, and off again afterwards; one pass every two seconds. *)
Definition flapping_passes : list Iteration :=
  map (fun i =>
         mkIteration false
                     (if (i <? 50)%nat || (100 <=? i)%nat then on_battery
                      else plugged_in)
                     (2 * Z.of_nat i) (Ok tt))
      (seq 0 200).

(** Started on battery: two readings without mains, then mains comes back
    and goes again. *)
Definition late_start_passes : list Iteration :=
  [mkIteration false on_battery 0 (Ok tt);
   mkIteration false on_battery 2 (Ok tt);
   mkIteration false plugged_in 4 (Ok tt);
   mkIteration false on_battery 6 (Ok tt)].

Definition on_mains_monitoring : PowerMonitor := mkMonitor true true None.

(** The fields once pass [n] of a run has made all its writes. *)
Definition fields_after (self : PowerMonitor) (its : list Iteration)
                        (n : nat) : PowerMonitor :=
  nth n (PowerMonitor.held_states self its) self.

(** The reminder thread that the first pass of the flapping outage starts,
    when its first test reads the fields as they stand at the call of
    [_start_notification_cycle], before that pass stores the new state. *)
Definition first_test_at_start : list CycleTurn :=
  [mkTurn (is_charging on_mains_monitoring)
          (is_monitoring on_mains_monitoring)
          (is_charging
             (fields_after on_mains_monitoring flapping_passes 150))
          300
          (last_power_loss_time
             (fields_after on_mains_monitoring flapping_passes 150))
          (Ok tt)].

(** The same thread when its first test comes only after that pass has
    stored the new state; it wakes at second 300, after the pass of that
    second. *)
Definition first_test_after_store : list CycleTurn :=
  [mkTurn (is_charging
             (fields_after on_mains_monitoring flapping_passes 0))
          (is_monitoring
             (fields_after on_mains_monitoring flapping_passes 0))
          (is_charging
             (fields_after on_mains_monitoring flapping_passes 150))
          300
          (last_power_loss_time
             (fields_after on_mains_monitoring flapping_passes 150))
          (Ok tt)].

(** A pass that finds the power gone while the bot's event loop is closed. *)
Definition orphaned_pass : Iteration :=
  mkIteration false on_battery 0 (Raise loop_closed).

Definition unreadable_pass : Iteration :=
  mkIteration false unreadable 2 (Ok tt).

Definition is_lost (k : PowerEventKind) : bool := same_kind k Lost.

Definition keeps_running (it : Iteration) : bool := negb (stop_requested it).

Definition reads_on_battery (it : Iteration) : bool :=
  negb (fst (PowerMonitor._get_charging_status (source it))).

(** The read of the source made in a pass raises. *)
Definition read_fails (it : Iteration) : bool :=
  match outcome (PowerMonitor.charging_status_try (source it)) with
  | Ok _ => false
  | Raise _ => true
  end.

(** Nothing happens to the mains during a pass: its read of the source
    finds the state [held], or raises. *)
Definition mains_unchanged (held : bool) (it : Iteration) : bool :=
  match outcome (PowerMonitor.charging_status_try (source it)) with
  | Ok charging => Bool.eqb charging held
  | Raise _ => true
  end.

(** A read failure alone never triggers a Lost event: in a run during
    which nothing happens to the mains, no Lost event is handed off. *)
Definition failed_read_triggers_nothing (self : PowerMonitor)
                                        (its : list Iteration) : Prop :=
  forallb (mains_unchanged (is_charging self)) its = true ->
  existsb is_lost (power_events (snd (PowerMonitor._monitor_power self its)))
  = false.

(** A pass whose read of the source raised backs off five seconds. *)
Definition failed_read_backs_off (self : PowerMonitor) (it : Iteration)
  : Prop :=
  read_fails it = true ->
  sleeps (trace (snd (PowerMonitor.monitor_pass self it))) = [5%Z].

(** An outage that was signalled at second 0 and is still going on. *)
Definition on_battery_monitoring : PowerMonitor :=
  mkMonitor true false (Some 0%Z).

(** The outage goes on; one read of the source times out. *)
Definition flaky_outage_passes : list Iteration :=
  [mkIteration false unreadable 2 (Ok tt);
   mkIteration false on_battery 4 (Ok tt)].

(** Started while mains power is lost, the loop hands off no Lost event
    for as long as that outage lasts, that is, as long as no read of the
    source finds the power back. *)
Definition old_outage_claim (src0 : PowerSource) (its : list Iteration)
  : Prop :=
  fst (PowerMonitor._get_charging_status src0) = false ->
  forallb (mains_unchanged false) its = true ->
  existsb is_lost
    (power_events
       (snd (PowerMonitor.start_monitoring (fst (PowerMonitor.init src0))
                                           its)))
  = false.

(** * Further definitions *)

(** ** For the retry loop *)

Definition is_close (ev : Event) : bool :=
  match ev with Close => true | _ => false end.

(** Clients closed. *)
Definition closes (t : list Event) : nat := length (filter is_close t).

(** The session asked for with [kw] is the one [server] is registered
    with: its address, port and user, a ten-second connect timeout, and the
    stored password when the password column is filled and the key file
    otherwise, never both. *)
Definition session_of (server : Server) (kw : AuthKwargs) : Prop :=
  hostname kw = ip_address server
  /\ port kw = server_port server
  /\ username kw = server_username server
  /\ timeout kw = 10%Z
  /\ (if truthy (password_encrypted server)
      then password kw <> None /\ key_filename kw = None
      else password kw = None /\ key_filename kw = key_path server).

(** A host that accepts the session but whose controller cannot decrypt
    any stored password. *)
Definition keyless_controller : SshWorld :=
  mkSshWorld (fun _ => Raise (Exception "InvalidToken" ""))
             (fun _ => true) (fun _ => Ok tt)
             (fun _ => Ok tt) (Ok 0%Z) (Ok tt) (Ok "").

(** A record with both a stored password and a key file. *)
Definition both_credentials : Server :=
  mkServer "db" "192.168.1.30" 2222 "ops" (Some "gAAAAAC")
           (Some "/data/id_ed25519") "sudo poweroff".

(** ** For the sweep *)



(** ** For the monitoring loop *)

(** The reading a pass takes. *)
Definition reading (it : Iteration) : bool :=
  fst (PowerMonitor._get_charging_status (source it)).

(** The event loop accepts what the pass hands off. *)
Definition delivers (it : Iteration) : bool :=
  match run_coroutine_threadsafe it with
  | Ok _ => true
  | Raise _ => false
  end.

(** A pass that finds the power gone and cannot hand the event off. *)
Definition loses_undelivered (it : Iteration) : bool :=
  negb (stop_requested it) && negb (reading it) && negb (delivers it).

(** The transitions in a sequence of readings, seen from the held state:
    one event for every reading that differs from the one before it. *)
Fixpoint changes (held : bool) (readings : list bool)
  : list PowerEventKind :=
  match readings with
  | [] => []
  | r :: rest =>
      ((if Bool.eqb held r then [] else [next_kind held])
       ++ changes r rest)%list
  end.

Definition is_start_cycle (ev : Event) : bool :=
  match ev with StartNotificationCycle => true | _ => false end.

(** A string of whitespace only. *)
Definition blank (s : string) : bool :=
  forallb is_space (list_ascii_of_string s).

(** A Termux answer whose JSON object lacks the [plugged] member. *)
Definition termux_without_plugged : PowerSource :=
  mkSource (Ok (0%Z, "{percentage: 80}"))
           (fun _ => Ok (JObject [("percentage", JNumber 80)]))
           (Ok "Charging").

(** The power is gone and the bot's event loop is closed, twice; then the
    loop is open again. *)
Definition orphaned_then_delivered : list Iteration :=
  [mkIteration false on_battery 0 (Raise loop_closed);
   mkIteration false on_battery 5 (Raise loop_closed);
   mkIteration false on_battery 10 (Ok tt)].

Definition newline : string := String (ascii_of_nat 10) EmptyString.

(** No Termux API; the battery is plugged in and full. *)
Definition full_battery : PowerSource :=
  mkSource (Ok (1%Z, ""))
           (fun _ => Ok JNull)
           (Ok ("Full" ++ newline)).

(** ** DatabaseManager: the servers table *)

(** A row of [servers]. *)
Record ServerRow : Type := mkRow {
  row_id : Z;
  row_server : Server;
  created_at : string;
  updated_at : string
}.

(** The table in rowid order, and the largest rowid ever handed out, which
    AUTOINCREMENT keeps in [sqlite_sequence]. *)
Record Database : Type := mkDatabase {
  servers : list ServerRow;
  sqlite_sequence : Z
}.

(** What the outside answers during one operation on the database:
    [sqlite3.connect] and the statements themselves (disk, locks), the
    cipher used for a password on its way in, and CURRENT_TIMESTAMP. *)
Record DbWorld : Type := mkDbWorld {
  sqlite_connect : Res unit;
  crypto_encrypt : string -> Res string;
  current_timestamp : string
}.

Definition class_of (e : Exn) : string :=
  match e with Exception c _ => c end.

Definition row_name (r : ServerRow) : string := name (row_server r).

Definition has_name (n : string) (r : ServerRow) : bool := row_name r =? n.

(** [name TEXT UNIQUE NOT NULL] holds of the table. *)
Definition unique_names (db : Database) : Prop :=
  NoDup (map row_name (servers db)).

Module DatabaseManager.

(** [INSERT INTO servers (...) VALUES (...)] under [name TEXT UNIQUE]. *)
Definition insert_server (w : DbWorld) (db : Database) (server : Server)
  : Res Database :=
  if existsb (has_name (name server)) (servers db) then
    Raise (Exception "IntegrityError" "UNIQUE constraint failed: servers.name")
  else
    let id := (sqlite_sequence db + 1)%Z in
    Ok (mkDatabase
          (servers db
           ++ [mkRow id server (current_timestamp w) (current_timestamp w)])
          id).

(** Body of the [try] of [add_server]; nothing is committed when it
    raises. *)
Definition add_server_try (w : DbWorld) (db : Database)
           (name ip : string) (port : Z) (username : string)
           (password key_path : option string) (shutdown_command : string)
  : Res Database :=
  match sqlite_connect w with
  | Raise e => Raise e
  | Ok _ =>
      match (if truthy password then
               match crypto_encrypt w (text password) with
               | Ok c => Ok (Some c)
               | Raise e => Raise e
               end
             else Ok None) with
      | Raise e => Raise e
      | Ok encrypted_password =>
          insert_server w db
            (mkServer name ip port username encrypted_password key_path
                      shutdown_command)
      end
  end.

Definition add_server (w : DbWorld) (db : Database)
           (name ip : string) (port : Z) (username : string)
           (password key_path : option string) (shutdown_command : string)
  : bool * list Event * Database :=
  match add_server_try w db name ip port username password key_path
                       shutdown_command with
  | Ok db' => (true, [], db')
  | Raise e =>
      if class_of e =? "IntegrityError" then (false, [], db)
      else (false, [LoggerError ("Error adding server: " ++ str e)], db)
  end.

(** [SELECT * FROM servers], in rowid order. *)
Definition get_servers (w : DbWorld) (db : Database)
  : Res (list ServerRow) :=
  match sqlite_connect w with
  | Raise e => Raise e
  | Ok _ => Ok (servers db)
  end.

(** [DELETE FROM servers WHERE name = ?]; True when a row went. *)
Definition remove_server (w : DbWorld) (db : Database) (server_name : string)
  : bool * list Event * Database :=
  match sqlite_connect w with
  | Raise e => (false, [LoggerError ("Error removing server: " ++ str e)], db)
  | Ok _ =>
      let kept := filter (fun r => negb (has_name server_name r))
                         (servers db) in
      let affected_rows := (length (servers db) - length kept)%nat in
      ((0 <? affected_rows)%nat, [], mkDatabase kept (sqlite_sequence db))
  end.

End DatabaseManager.

(** A database file that opens, with a cipher that marks what it
    encrypts. *)
Definition disk_ok : DbWorld :=
  mkDbWorld (Ok tt) (fun p => Ok ("enc:" ++ p)) "2024-05-01 10:00:00".

Definition empty_database : Database := mkDatabase [] 0.

(** ** The conversational front-end *)

(** [update.effective_user]. *)
Record User : Type := mkUser {
  user_id : Z;
  user_username : option string
}.

(** A dict keyed by user id, in insertion order. *)
Definition Dict (V : Type) : Type := list (Z * V).

Fixpoint users_find {V} (k : Z) (d : Dict V) : option V :=
  match d with
  | [] => None
  | (k', v) :: rest => if (k' =? k)%Z then Some v else users_find k rest
  end.

(** [d[k] = v]. *)
Fixpoint users_set {V} (k : Z) (v : V) (d : Dict V) : Dict V :=
  match d with
  | [] => [(k, v)]
  | (k', v') :: rest =>
      if (k' =? k)%Z then (k, v) :: rest else (k', v') :: users_set k v rest
  end.

(** [del d[k]]; [None] is the KeyError. *)
Fixpoint users_del {V} (k : Z) (d : Dict V) : option (Dict V) :=
  match d with
  | [] => None
  | (k', v') :: rest =>
      if (k' =? k)%Z then Some rest
      else match users_del k rest with
           | Some rest' => Some ((k', v') :: rest')
           | None => None
           end
  end.

(** The dict [temp_server_data[user_id]]; a key not yet set is [None]. *)
Record ServerData : Type := mkData {
  d_name : option string;
  d_ip : option string;
  d_port : option Z;
  d_username : option string;
  d_password : option string;
  d_key_path : option string;
  d_shutdown_command : option string
}.

Definition no_data : ServerData :=
  mkData None None None None None None None.

(** The bot's own fields. *)
Record Bot : Type := mkBot {
  allowed_username : string;
  user_states : Dict string;
  temp_server_data : Dict ServerData;
  database : Database;
  monitor : PowerMonitor
}.

Definition with_states (self : Bot) (d : Dict string) : Bot :=
  mkBot (allowed_username self) d (temp_server_data self) (database self)
        (monitor self).
Definition with_data (self : Bot) (d : Dict ServerData) : Bot :=
  mkBot (allowed_username self) (user_states self) d (database self)
        (monitor self).
Definition with_database (self : Bot) (db : Database) : Bot :=
  mkBot (allowed_username self) (user_states self) (temp_server_data self)
        db (monitor self).
Definition with_monitor (self : Bot) (pm : PowerMonitor) : Bot :=
  mkBot (allowed_username self) (user_states self) (temp_server_data self)
        (database self) pm.

(** A row of [event_logs] as [get_recent_logs] returns it. *)
Record LogRow : Type := mkLogRow {
  log_event_type : string;
  log_message : string;
  log_timestamp : string
}.

(** The texts the front-end sends, by what they say. *)
Inductive Reply : Type :=
| AccessDenied
| Welcome
| StatusReport (charging : bool) (server_count : nat)
               (lines : list (bool * string * string)) (more : option nat)
               (online offline : nat) (monitoring : bool)
| ServersMenu
| LogsEmpty
| LogsList (entries : list (string * string * string))
| NoServersToTest
| TestWarning
| SettingsReport (monitoring charging db_file key_file : bool) (count : nat)
| AskIp
| AskPort
| AskUsername
| PortOutOfRange
| PortInvalid
| AskPassword
| AskKeyPath
| AskCommand
| ConnectionFailed (message : string)
| ServerAdded (name ip : string) (port : Z) (username : string)
| ServerNotSaved (name : string)
| TestStarting
| TestReport (shutdown_results : list ResultLine)
| TestCancelled
| AddServerPrompt
| ServerListEmpty
| ServerList (lines : list (bool * ServerRow * string))
| NothingToRemove
| RemoveMenu (buttons : list (string * string))
| Removed (server_name : string)
| NotRemoved (server_name : string).

Inductive UiEvent : Type :=
| ReplyText (r : Reply)
| EditMessageText (r : Reply)
| QueryAnswer
| MonitorThreadStarted
| Core (ev : Event).

(** What the outside answers while one update is handled: Telegram, per
    text sent; the database file; the hosts, per position in the list of
    servers (and per attempt for a shutdown); the cipher used for the
    record under test; the log table; the file system; and the builtins
    [int], [str.lower] and [str.strip] on the text received. *)
Record UiWorld : Type := mkUiWorld {
  reply_text : Reply -> Res unit;
  edit_message_text : Reply -> Res unit;
  query_answer : Res unit;
  disk : DbWorld;
  probe : nat -> SshWorld;
  hosts : nat -> nat -> SshWorld;
  test_encrypt : string -> Res string;
  get_recent_logs : Res (list LogRow);
  fromisoformat : string -> Res string;
  path_exists : string -> bool;
  py_int : string -> option Z;
  py_lower : string -> string;
  py_strip : string -> string
}.

(** A computation of the front-end that leaves the bot's fields alone. *)
Definition V (A : Type) : Type := (Res A * list UiEvent)%type.

Definition vret {A} (a : A) : V A := (Ok a, []).

Definition vbind {A B} (m : V A) (f : A -> V B) : V B :=
  match m with
  | (Ok a, t1) => let (r, t2) := f a in (r, (t1 ++ t2)%list)
  | (Raise e, t1) => (Raise e, t1)
  end.

Definition vraise {A} (e : Exn) : V A := (Raise e, []).

(** A computation of the core, its events tagged. *)
Definition core {A} (m : M A) : V A := (fst m, map Core (snd m)).

(** A computation of the front-end that reads and writes the bot's
    fields; what was written before an exception stays written. *)
Definition U (A : Type) : Type := Bot -> V A * Bot.

Definition uret {A} (a : A) : U A := fun self => (vret a, self).

Definition ubind {A B} (m : U A) (f : A -> U B) : U B :=
  fun self =>
    match m self with
    | ((Ok a, t1), self1) =>
        match f a self1 with
        | ((r, t2), self2) => ((r, (t1 ++ t2)%list), self2)
        end
    | ((Raise e, t1), self1) => ((Raise e, t1), self1)
    end.

(** A computation that leaves the fields alone. *)
Definition still {A} (m : V A) : U A := fun self => (m, self).

Definition fields : U Bot := fun self => (vret self, self).

Definition assign (f : Bot -> Bot) : U unit :=
  fun self => (vret tt, f self).

Declare Scope bot_scope.
Delimit Scope bot_scope with bot.
Notation "x <- m ;; k" := (ubind m (fun x => k))
  (at level 61, m at next level, right associativity) : bot_scope.
Notation "m ;; k" := (ubind m (fun _ => k))
  (at level 61, right associativity) : bot_scope.

Declare Scope ui_scope.
Delimit Scope ui_scope with ui.
Notation "x <- m ;; k" := (vbind m (fun x => k))
  (at level 61, m at next level, right associativity) : ui_scope.
Notation "m ;; k" := (vbind m (fun _ => k))
  (at level 61, right associativity) : ui_scope.

Definition say (w : UiWorld) (r : Reply) : V unit :=
  (reply_text w r, [ReplyText r]).

Definition edit (w : UiWorld) (r : Reply) : V unit :=
  (edit_message_text w r, [EditMessageText r]).

Definition key_error (key : string) : Exn := Exception "KeyError" key.

(** [d[key]] on a dict whose key may be missing. *)
Definition item {A} (key : string) (o : option A) : V A :=
  match o with
  | Some a => vret a
  | None => vraise (key_error key)
  end.

(** Python's [s.replace(old, new)] with a non-empty [old]: the occurrences
    of [old] are replaced from left to right, without overlap. *)
Fixpoint drop_prefix (p s : string) : option string :=
  match p, s with
  | EmptyString, _ => Some s
  | String a p', String b s' =>
      if Ascii.eqb a b then drop_prefix p' s' else None
  | String _ _, EmptyString => None
  end.

Fixpoint replace_fuel (fuel : nat) (old new s : string) : string :=
  match fuel with
  | O => s
  | S fuel' =>
      match drop_prefix old s with
      | Some rest => new ++ replace_fuel fuel' old new rest
      | None =>
          match s with
          | EmptyString => EmptyString
          | String c rest => String c (replace_fuel fuel' old new rest)
          end
      end
  end.

Definition replace (old new s : string) : string :=
  replace_fuel (S (String.length s)) old new s.

Definition startswith (s p : string) : bool :=
  match drop_prefix p s with Some _ => true | None => false end.

(** [s[:n]]. *)
Definition slice_to (n : nat) (s : string) : string := substring 0 n s.

Module ServerBotUI.

(** [__init__]: the configured name loses every [@]. *)
Definition init (allowed : string) (pm : PowerMonitor) : Bot :=
  mkBot (replace "@" "" allowed) [] [] (mkDatabase [] 0) pm.

Definition is_authorized (self : Bot) (effective_user : option User) : bool :=
  match effective_user with
  | None => false
  | Some u =>
      match user_username u with
      | Some n => n =? allowed_username self
      | None => false
      end
  end.

(** [update.effective_user.id]. *)
Definition sender_id (effective_user : option User) : V Z :=
  match effective_user with
  | Some u => vret (user_id u)
  | None =>
      vraise (Exception "AttributeError"
                        "'NoneType' object has no attribute 'id'")
  end.

Definition _get_event_icon (event_type : string) : string :=
  if event_type =? "power_loss" then "⚡"
  else if event_type =? "power_restore" then "🔌"
  else if event_type =? "server_shutdown" then "🔴"
  else if event_type =? "server_added" then "➕"
  else if event_type =? "server_removed" then "🗑️"
  else if event_type =? "test_shutdown" then "🧪"
  else if event_type =? "error" then "❌"
  else "📝".

Definition log_event (event_type message : string)
                     (server_name status : option string) : V unit :=
  (Ok tt, [Core (LogEvent event_type message server_name status)]).

Definition get_servers (self : Bot) (w : UiWorld) : V (list ServerRow) :=
  (DatabaseManager.get_servers (disk w) (database self), []).

(** [for server in servers: is_online, message = test_connection(server)],
    the rows numbered from [i]; each row comes back with its answer. *)
Fixpoint probe_all (w : UiWorld) (i : nat) (rows : list ServerRow)
  : V (list (bool * ServerRow * string)) :=
  match rows with
  | [] => vret []
  | r :: rest =>
      (answer <- core (SSHManager.test_connection (probe w i)
                                                  (row_server r)) ;;
       let '(is_online, message) := answer in
       answers <- probe_all w (S i) rest ;;
       vret ((is_online, r, message) :: answers))%ui
  end.

Definition count_online (answers : list (bool * ServerRow * string)) : nat :=
  length (filter (fun a => fst (fst a)) answers).

Definition count_offline (answers : list (bool * ServerRow * string)) : nat :=
  length (filter (fun a => negb (fst (fst a))) answers).

Definition status_handler (self : Bot) (w : UiWorld)
                          (effective_user : option User) : V unit :=
  if negb (is_authorized self effective_user) then vret tt
  else
    (servers <- get_servers self w ;;
     let server_count := length servers in
     answers <- probe_all w 0 (firstn 5 servers) ;;
     say w (StatusReport
              (is_charging (monitor self)) server_count
              (map (fun a => (fst (fst a), row_name (snd (fst a)),
                              ip_address (row_server (snd (fst a)))))
                   answers)
              (if (5 <? length servers)%nat
               then Some (length servers - 5)%nat else None)
              (count_online answers) (count_offline answers)
              (is_monitoring (monitor self))))%ui.

Definition servers_menu_handler (self : Bot) (w : UiWorld)
                                (effective_user : option User) : V unit :=
  if negb (is_authorized self effective_user) then vret tt
  else say w ServersMenu.

Fixpoint format_logs (w : UiWorld) (logs : list LogRow)
  : V (list (string * string * string)) :=
  match logs with
  | [] => vret []
  | log :: rest =>
      (timestamp <- (fromisoformat w (log_timestamp log), []) ;;
       let icon := _get_event_icon (log_event_type log) in
       entries <- format_logs w rest ;;
       vret ((icon, timestamp, log_message log) :: entries))%ui
  end.

Definition show_logs (self : Bot) (w : UiWorld)
                     (effective_user : option User) : V unit :=
  if negb (is_authorized self effective_user) then vret tt
  else
    (logs <- (get_recent_logs w, []) ;;
     match logs with
     | [] => say w LogsEmpty
     | _ :: _ =>
         entries <- format_logs w logs ;;
         say w (LogsList entries)
     end)%ui.

Definition show_settings (self : Bot) (w : UiWorld)
                         (effective_user : option User) : V unit :=
  if negb (is_authorized self effective_user) then vret tt
  else
    (servers <- get_servers self w ;;
     say w (SettingsReport
              (is_monitoring (monitor self)) (is_charging (monitor self))
              (path_exists w "servers.db") (path_exists w "encryption.key")
              (length servers)))%ui.

(** [self.user_states[id] = state]. *)
Definition set_state (id : Z) (state : string) : U unit :=
  assign (fun self =>
            with_states self (users_set id state (user_states self))).

(** [del self.user_states[id]]. *)
Definition del_state (id : Z) : U unit :=
  fun self =>
    match users_del id (user_states self) with
    | Some d => (vret tt, with_states self d)
    | None => (vraise (key_error "user_states"), self)
    end.

(** [del self.temp_server_data[id]]. *)
Definition del_data (id : Z) : U unit :=
  fun self =>
    match users_del id (temp_server_data self) with
    | Some d => (vret tt, with_data self d)
    | None => (vraise (key_error "temp_server_data"), self)
    end.

(** [test_shutdown]: asks for the confirmation and notes that it is due. *)
Definition test_shutdown (w : UiWorld) (effective_user : option User)
  : U unit :=
  (self <- fields ;;
   if negb (is_authorized self effective_user) then uret tt
   else
     servers <- still (get_servers self w) ;;
     match servers with
     | [] => still (say w NoServersToTest)
     | _ :: _ =>
         still (say w TestWarning) ;;
         id <- still (sender_id effective_user) ;;
         set_state id "confirming_test"
     end)%bot.

(** [for server in servers: ...] of [handle_test_confirmation]. *)
Fixpoint test_sweep (w : UiWorld) (i : nat) (rows : list ServerRow)
  : V (list ResultLine) :=
  match rows with
  | [] => vret []
  | r :: rest =>
      (answer <- core (SSHManager.shutdown_server (hosts w i)
                                                  (row_server r)) ;;
       let '(success, message) := answer in
       let result_text := mkLine success (row_name r) message in
       log_event "test_shutdown"
                 ("Test shutdown " ++ row_name r ++ ": " ++ message)
                 (Some (row_name r))
                 (Some (if success then "success" else "failed")) ;;
       shutdown_results <- test_sweep w (S i) rest ;;
       vret (result_text :: shutdown_results))%ui
  end.

Definition handle_test_confirmation (w : UiWorld)
           (effective_user : option User) (text : string) : U unit :=
  (self <- fields ;;
   (if text =? "CONFIRM TEST" then
      still (servers <- get_servers self w ;;
             say w TestStarting ;;
             shutdown_results <- test_sweep w 0 servers ;;
             say w (TestReport shutdown_results))%ui
    else still (say w TestCancelled)) ;;
   id <- still (sender_id effective_user) ;;
   del_state id)%bot.

(** A call of [self.db] that answers a truth value and may change the
    table. *)
Definition on_database (op : Database -> bool * list Event * Database)
  : U bool :=
  fun self =>
    match op (database self) with
    | (success, t, db) => ((Ok success, map Core t), with_database self db)
    end.

(** [self.temp_server_data[id][key] = value], written as the change [f]
    of the inner dict. *)
Definition update_data (id : Z) (f : ServerData -> ServerData) : U unit :=
  fun self =>
    match users_find id (temp_server_data self) with
    | Some d =>
        (vret tt, with_data self (users_set id (f d) (temp_server_data self)))
    | None => (vraise (key_error "temp_server_data"), self)
    end.

(** [try: m except ValueError: h]. *)
Definition except_value_error {A} (m h : U A) : U A :=
  fun self =>
    match m self with
    | ((Raise e, t1), self1) =>
        if class_of e =? "ValueError" then
          match h self1 with
          | ((r, t2), self2) => ((r, (t1 ++ t2)%list), self2)
          end
        else ((Raise e, t1), self1)
    | done => done
    end.

Definition value_error : Exn :=
  Exception "ValueError" "invalid literal for int() with base 10".

Definition finish_add_server (w : UiWorld) (user_id : Z) : U unit :=
  (self <- fields ;;
   server_data <- still (item "temp_server_data"
                              (users_find user_id (temp_server_data self))) ;;
   name <- still (item "name" (d_name server_data)) ;;
   ip <- still (item "ip" (d_ip server_data)) ;;
   port <- still (item "port" (d_port server_data)) ;;
   username <- still (item "username" (d_username server_data)) ;;
   shutdown_command <- still (item "shutdown_command"
                                   (d_shutdown_command server_data)) ;;
   password_encrypted <-
     still (match d_password server_data with
            | Some password =>
                (c <- (test_encrypt w password, []) ;; vret (Some c))%ui
            | None => vret None
            end) ;;
   let test_server :=
     mkServer name ip port username password_encrypted
              (d_key_path server_data) shutdown_command in
   answer <- still (core (SSHManager.test_connection (probe w 0)
                                                     test_server)) ;;
   let '(is_connected, message) := answer in
   if negb is_connected then
     still (say w (ConnectionFailed message)) ;;
     del_state user_id ;;
     del_data user_id
   else
     success <-
       on_database
         (fun db =>
            DatabaseManager.add_server
              (disk w) db name ip port username
              (d_password server_data) (d_key_path server_data)
              shutdown_command) ;;
     (if success : bool then
        still (say w (ServerAdded name ip port username)) ;;
        still (log_event "server_added"
                         ("Server " ++ name ++ " added successfully")
                         (Some name) None)
      else still (say w (ServerNotSaved name))) ;;
     del_state user_id ;;
     del_data user_id)%bot.

Definition handle_dialog_state (w : UiWorld) (user_id : Z) (text : string)
  : U unit :=
  (self <- fields ;;
   state <- still (item "user_states"
                        (users_find user_id (user_states self))) ;;
   if state =? "adding_server_name" then
     update_data user_id
       (fun d => mkData (Some text) (d_ip d) (d_port d) (d_username d)
                        (d_password d) (d_key_path d)
                        (d_shutdown_command d)) ;;
     set_state user_id "adding_server_ip" ;;
     still (say w AskIp)
   else if state =? "adding_server_ip" then
     update_data user_id
       (fun d => mkData (d_name d) (Some text) (d_port d) (d_username d)
                        (d_password d) (d_key_path d)
                        (d_shutdown_command d)) ;;
     set_state user_id "adding_server_port" ;;
     still (say w AskPort)
   else if state =? "adding_server_port" then
     except_value_error
       (port <- still (if negb (py_strip w text =? "") then
                         match py_int w text with
                         | Some n => vret n
                         | None => vraise value_error
                         end
                       else vret 22%Z) ;;
        if ((1 <=? port) && (port <=? 65535))%Z then
          update_data user_id
            (fun d => mkData (d_name d) (d_ip d) (Some port) (d_username d)
                             (d_password d) (d_key_path d)
                             (d_shutdown_command d)) ;;
          set_state user_id "adding_server_username" ;;
          still (say w AskUsername)
        else still (say w PortOutOfRange))
       (still (say w PortInvalid))
   else if state =? "adding_server_username" then
     update_data user_id
       (fun d => mkData (d_name d) (d_ip d) (d_port d) (Some text)
                        (d_password d) (d_key_path d)
                        (d_shutdown_command d)) ;;
     set_state user_id "adding_server_password" ;;
     still (say w AskPassword)
   else if state =? "adding_server_password" then
     if py_lower w text =? "key" then
       set_state user_id "adding_server_key" ;;
       still (say w AskKeyPath)
     else
       update_data user_id
         (fun d => mkData (d_name d) (d_ip d) (d_port d) (d_username d)
                          (Some text) (d_key_path d)
                          (d_shutdown_command d)) ;;
       set_state user_id "adding_server_command" ;;
       still (say w AskCommand)
   else if state =? "adding_server_key" then
     update_data user_id
       (fun d => mkData (d_name d) (d_ip d) (d_port d) (d_username d)
                        (d_password d) (Some text)
                        (d_shutdown_command d)) ;;
     set_state user_id "adding_server_command" ;;
     still (say w AskCommand)
   else if state =? "adding_server_command" then
     let shutdown_command :=
       if negb (py_strip w text =? "") then py_strip w text
       else "sudo shutdown -h now" in
     update_data user_id
       (fun d => mkData (d_name d) (d_ip d) (d_port d) (d_username d)
                        (d_password d) (d_key_path d)
                        (Some shutdown_command)) ;;
     finish_add_server w user_id
   else uret tt)%bot.

(** [start_monitoring] as the front-end sees it: the flag is raised and
    the thread started, unless the flag is up already. *)
Definition start_monitoring : U unit :=
  fun self =>
    if is_monitoring (monitor self) then (vret tt, self)
    else
      ((Ok tt,
        [MonitorThreadStarted; Core (LoggerInfo "Power monitoring started")]),
       with_monitor self (with_monitoring (monitor self) true)).

Definition start_handler (w : UiWorld) (effective_user : option User)
  : U unit :=
  (self <- fields ;;
   if negb (is_authorized self effective_user) then
     still (say w AccessDenied)
   else
     still (say w Welcome) ;;
     self <- fields ;;
     if negb (is_monitoring (monitor self)) then start_monitoring
     else uret tt)%bot.

Definition message_handler (w : UiWorld) (effective_user : option User)
                           (text : string) : U unit :=
  (self <- fields ;;
   if negb (is_authorized self effective_user) then uret tt
   else
     user_id <- still (sender_id effective_user) ;;
     if text =? "📊 Status" then
       still (status_handler self w effective_user)
     else if text =? "🖥️ Servers" then
       still (servers_menu_handler self w effective_user)
     else if text =? "📋 Logs" then
       still (show_logs self w effective_user)
     else if text =? "🧪 Test Shutdown" then
       test_shutdown w effective_user
     else if text =? "⚙️ Settings" then
       still (show_settings self w effective_user)
     else
       match users_find user_id (user_states self) with
       | Some _ => handle_dialog_state w user_id text
       | None => uret tt
       end)%bot.

Definition _message_router (w : UiWorld) (effective_user : option User)
                           (text : string) : U unit :=
  (user_id <- still (sender_id effective_user) ;;
   self <- fields ;;
   match users_find user_id (user_states self) with
   | Some state =>
       if state =? "confirming_test" then
         handle_test_confirmation w effective_user text
       else message_handler w effective_user text
   | None => message_handler w effective_user text
   end)%bot.

Definition start_add_server (w : UiWorld) (effective_user : option User)
  : U unit :=
  (user_id <- still (sender_id effective_user) ;;
   set_state user_id "adding_server_name" ;;
   assign (fun self =>
             with_data self
               (users_set user_id no_data (temp_server_data self))) ;;
   still (edit w AddServerPrompt))%bot.

Definition list_servers (w : UiWorld) : U unit :=
  (self <- fields ;;
   servers <- still (get_servers self w) ;;
   match servers with
   | [] => still (edit w ServerListEmpty)
   | _ :: _ =>
       answers <- still (probe_all w 0 servers) ;;
       still (edit w (ServerList
                        (map (fun a =>
                                (fst (fst a), snd (fst a),
                                 slice_to 10 (created_at (snd (fst a)))))
                             answers)))
   end)%bot.

Definition remove_button (r : ServerRow) : string * string :=
  ("🗑️ " ++ row_name r, "remove_" ++ row_name r).

Definition start_remove_server (w : UiWorld) : U unit :=
  (self <- fields ;;
   servers <- still (get_servers self w) ;;
   match servers with
   | [] => still (edit w NothingToRemove)
   | _ :: _ => still (edit w (RemoveMenu (map remove_button servers)))
   end)%bot.

Definition confirm_remove_server (w : UiWorld) (server_name : string)
  : U unit :=
  (success <-
     on_database
       (fun db => DatabaseManager.remove_server (disk w) db server_name) ;;
   if success : bool then
     still (log_event "server_removed"
                      ("Server " ++ server_name ++ " removed")
                      (Some server_name) None) ;;
     still (edit w (Removed server_name))
   else still (edit w (NotRemoved server_name)))%bot.

Definition callback_query_handler (w : UiWorld)
           (effective_user : option User) (data : string) : U unit :=
  (self <- fields ;;
   if negb (is_authorized self effective_user) then uret tt
   else
     still (query_answer w, [QueryAnswer]) ;;
     if data =? "add_server" then start_add_server w effective_user
     else if data =? "list_servers" then list_servers w
     else if data =? "remove_server" then start_remove_server w
     else if startswith data "remove_" then
       confirm_remove_server w (replace "remove_" "" data)
     else uret tt)%bot.

End ServerBotUI.

(** An update as the application routes it: the [/start] command, a text
    message that is not a command, a pressed inline button. *)
Inductive Update : Type :=
| StartCommand (effective_user : option User)
| TextMessage (effective_user : option User) (text : string)
| CallbackQuery (effective_user : option User) (data : string).

Definition sender (u : Update) : option User :=
  match u with
  | StartCommand user | TextMessage user _ | CallbackQuery user _ => user
  end.

(** One update through its handler; an exception that escapes the handler
    goes to [error_handler], which logs it. *)
Definition dispatch (w : UiWorld) (u : Update) (self : Bot)
  : list UiEvent * Bot :=
  match (match u with
         | StartCommand user => ServerBotUI.start_handler w user
         | TextMessage user text => ServerBotUI._message_router w user text
         | CallbackQuery user data =>
             ServerBotUI.callback_query_handler w user data
         end) self with
  | ((Ok _, t), self') => (t, self')
  | ((Raise e, t), self') =>
      ((t ++ [Core (LoggerError ("Exception while handling an update: "
                                 ++ str e))])%list, self')
  end.

(** The updates of a session, one after the other, each with what the
    outside answers during it; the events of each update are kept apart. *)
Fixpoint session (self : Bot) (updates : list (UiWorld * Update))
  : list (list UiEvent) * Bot :=
  match updates with
  | [] => ([], self)
  | (w, u) :: rest =>
      let (t, self1) := dispatch w u self in
      let (ts, self2) := session self1 rest in
      (t :: ts, self2)
  end.

(** ** For the front-end *)

(** The update comes from the user with id [k]. *)
Definition from (k : Z) (u : Update) : bool :=
  match sender u with
  | Some usr => (user_id usr =? k)%Z
  | None => false
  end.

(** What an update that is turned away may leave behind: the refusal, and
    the line [error_handler] logs. *)
Definition harmless (ev : UiEvent) : bool :=
  match ev with
  | ReplyText AccessDenied => true
  | Core (LoggerError _) => true
  | _ => false
  end.

(** [old] occurs in [s]. *)
Fixpoint occurs (old s : string) : bool :=
  match drop_prefix old s with
  | Some _ => true
  | None =>
      match s with
      | EmptyString => false
      | String _ rest => occurs old rest
      end
  end.

(** The events of the core among those of the front-end. *)
Fixpoint core_events (t : list UiEvent) : list Event :=
  match t with
  | [] => []
  | Core ev :: t' => ev :: core_events t'
  | _ :: t' => core_events t'
  end.

Definition is_log_event (ev : Event) : bool :=
  match ev with LogEvent _ _ _ _ => true | _ => false end.

(** What is done to the hosts: the events of the core, the rows written
    to the event log aside. *)
Definition host_events (t : list Event) : list Event :=
  filter (fun ev => negb (is_log_event ev)) t.

(** The text is one of the five buttons of the main menu. *)
Definition is_menu_button (text : string) : bool :=
  (text =? "📊 Status") || (text =? "🖥️ Servers") || (text =? "📋 Logs")
  || (text =? "🧪 Test Shutdown") || (text =? "⚙️ Settings").

(** Telegram delivers everything, the database opens, every host answers
    and accepts the session; [int] reads decimal digits, and text is
    neither stripped nor lower-cased. *)
Definition digit_value (c : ascii) : option Z :=
  let n := nat_of_ascii c in
  if ((48 <=? n) && (n <=? 57))%nat then Some (Z.of_nat (n - 48)) else None.

Fixpoint digits_value (acc : Z) (s : string) : option Z :=
  match s with
  | EmptyString => Some acc
  | String c rest =>
      match digit_value c with
      | Some d => digits_value (10 * acc + d) rest
      | None => None
      end
  end.

Definition plain_int (s : string) : option Z :=
  match s with
  | EmptyString => None
  | _ => digits_value 0 s
  end.

Definition fair_weather : UiWorld :=
  mkUiWorld (fun _ => Ok tt) (fun _ => Ok tt) (Ok tt) disk_ok
            (fun _ => reachable) (fun _ _ => reachable)
            (fun p => Ok ("enc:" ++ p)) (Ok []) (fun s => Ok s)
            (fun _ => true) plain_int (fun s => s) (fun s => s).

Definition operator : User := mkUser 1001 (Some "mgmwm").
Definition stranger : User := mkUser 666 (Some "mallory").

Definition fresh_bot : Bot :=
  ServerBotUI.init "@mgmwm" on_mains_monitoring.

(** A bot with one server on record. *)
Definition stocked_bot : Bot :=
  with_database fresh_bot
    (snd (DatabaseManager.add_server disk_ok empty_database "nas"
            "192.168.1.20" 22 "admin" (Some "secret") None
            "sudo shutdown -h now")).

(** The operator has pressed the test button and is asked to confirm. *)
Definition awaiting_confirmation : Bot :=
  with_states stocked_bot [(1001%Z, "confirming_test")].

(** The database file cannot be opened. *)
Definition disk_locked : DbWorld :=
  mkDbWorld (Raise (Exception "OperationalError" "database is locked"))
            (fun p => Ok ("enc:" ++ p)) "2024-05-01 10:00:00".

Definition locked_weather : UiWorld :=
  mkUiWorld (fun _ => Ok tt) (fun _ => Ok tt) (Ok tt) disk_locked
            (fun _ => reachable) (fun _ _ => reachable)
            (fun p => Ok ("enc:" ++ p)) (Ok []) (fun s => Ok s)
            (fun _ => true) plain_int (fun s => s) (fun s => s).

(** The keys of a dict are distinct. *)
Definition distinct_keys {V} (d : Dict V) : Prop := NoDup (map fst d).



(** [m] leaves alone the configured name and whatever the dicts hold for
    the user [k]. *)
Definition keeps {A} (k : Z) (m : U A) : Prop :=
  forall self,
    allowed_username (snd (m self)) = allowed_username self
    /\ users_find k (user_states (snd (m self)))
       = users_find k (user_states self)
    /\ users_find k (temp_server_data (snd (m self)))
       = users_find k (temp_server_data self).

(** A port number SSH can use. *)
Definition valid_port (p : Z) : bool := ((1 <=? p) && (p <=? 65535))%Z.

(** The port collected so far in a dialog, if any, is valid. *)
Definition port_ok (d : ServerData) : bool :=
  match d_port d with
  | Some p => valid_port p
  | None => true
  end.

Definition rows_ok (db : Database) : bool :=
  forallb (fun r => valid_port (server_port (row_server r))) (servers db).

Definition data_ok (d : Dict ServerData) : bool :=
  forallb (fun kd => port_ok (snd kd)) d.

(** Every port on record and every port collected in a dialog is valid. *)
Definition ports_valid (self : Bot) : bool :=
  rows_ok (database self) && data_ok (temp_server_data self).

(** [m] keeps the ports valid. *)
Definition preserves {A} (m : U A) : Prop :=
  forall self, ports_valid self = true -> ports_valid (snd (m self)) = true.

(** [d['port'] = p]. *)
Definition with_port (d : ServerData) (p : Z) : ServerData :=
  mkData (d_name d) (d_ip d) (Some p) (d_username d) (d_password d)
         (d_key_path d) (d_shutdown_command d).

(** The port the text of the port step stands for. *)
Definition port_entered (w : UiWorld) (text : string) : option Z :=
  if py_strip w text =? "" then Some 22%Z else py_int w text.

(** The operator is asked for the port of a server under construction. *)
Definition at_port_step : Bot :=
  with_data
    (with_states fresh_bot [(1001%Z, "adding_server_port")])
    [(1001%Z, mkData (Some "nas") (Some "192.168.1.20") None None None None
                     None)].

(** The record the dialog has collected, as [finish_add_server] tests
    it. *)
Definition record_of (d : ServerData) (secret : option string)
  : option Server :=
  match d_name d, d_ip d, d_port d, d_username d, d_shutdown_command d with
  | Some n, Some i, Some p, Some u, Some c =>
      Some (mkServer n i p u secret (d_key_path d) c)
  | _, _, _, _, _ => None
  end.

(** The operator has answered every question but the last. *)
Definition at_command_step : Bot :=
  with_data
    (with_states fresh_bot [(1001%Z, "adding_server_command")])
    [(1001%Z, mkData (Some "nas") (Some "192.168.1.20") (Some 22%Z)
                     (Some "admin") (Some "secret") None
                     (Some "sudo shutdown -h now"))].

(** The operator adds a server on port 2222, one answer at a time. *)
Definition add_nas_dialog : list (UiWorld * Update) :=
  map (fun u => (fair_weather, u))
      [CallbackQuery (Some operator) "add_server";
       TextMessage (Some operator) "nas";
       TextMessage (Some operator) "192.168.1.20";
       TextMessage (Some operator) "2222";
       TextMessage (Some operator) "admin";
       TextMessage (Some operator) "secret";
       TextMessage (Some operator) "sudo poweroff"].

(** A row whose name is the word that also ends the callback data of the
    removal menu. *)
Definition row_called_server : ServerRow :=
  mkRow 1 (mkServer "server" "192.168.1.40" 22 "admin" None
                    (Some "/data/id_rsa") "sudo shutdown -h now")
        "2024-05-01 10:00:00" "2024-05-01 10:00:00".

(** The operator is in the middle of adding a server. *)
Definition at_name_step : Bot :=
  with_data (with_states stocked_bot [(1001%Z, "adding_server_name")])
            [(1001%Z, no_data)].

(** * Facts *)

Section SSHFacts.

Import SSHManager.

Ltac unfold_ssh :=
  unfold shutdown_server, test_connection, test_connection_body,
         shutdown_attempt, shutdown_except, try_except, bind, emit, call,
         lift, ret, outcome, trace.

(** A pass through the [try] and its [except] always completes: it either
    falls through, which the last allowed attempt never does, or returns a
    pair whose message is not the one after the loop. *)
Lemma attempt_cases (w : SshWorld) (server : Server) (attempt : nat) :
  (exists t,
      try_except (shutdown_attempt w server attempt) (shutdown_except attempt)
      = (Ok None, t)
      /\ attempt <> max_retries - 1)
  \/ (exists success message t,
         try_except (shutdown_attempt w server attempt)
                    (shutdown_except attempt)
         = (Ok (Some (success, message)), t)
         /\ message <> "Max retries exceeded").
Proof.
  unfold shutdown_attempt, shutdown_except, try_except, bind, emit, call,
         lift, ret.
  destruct (attempt =? max_retries - 1)%nat eqn:Hlast;
    [ apply Nat.eqb_eq in Hlast | apply Nat.eqb_neq in Hlast ];
    destruct (truthy (password_encrypted server));
    try destruct (crypto_decrypt w (text (password_encrypted server)));
    try destruct (key_usable w server);
    cbn;
    repeat match goal with
    | |- context [client_connect w ?k] => destruct (client_connect w k); cbn
    | |- context [client_exec_command w ?k] =>
        destruct (client_exec_command w k); cbn
    | |- context [recv_exit_status w] => destruct (recv_exit_status w); cbn
    | |- context [client_close w] => destruct (client_close w); cbn
    | |- context [(?z =? 0)%Z] => destruct (z =? 0)%Z; cbn
    | |- context [stderr_read w] => destruct (stderr_read w); cbn
    end;
    try rewrite Hlast; cbn;
    try (left; eexists; split; [reflexivity | assumption]);
    right; do 3 eexists; (split; [reflexivity | discriminate]).
Qed.


Lemma loop_total (world : nat -> SshWorld) (server : Server) :
  exists success message t,
    shutdown_server world server = (Ok (success, message), t)
    /\ message <> "Max retries exceeded".
Proof.
  unfold shutdown_server. cbn [seq max_retries shutdown_loop].
  destruct (attempt_cases (world 0%nat) server 0)
    as [(t0 & E0 & _) | (b & m & t & E & Hm)]; rewrite ?E0, ?E;
    cbn [bind ret];
    [ | do 3 eexists; split; [reflexivity | assumption] ].
  destruct (attempt_cases (world 1%nat) server 1)
    as [(t1 & E1 & _) | (b & m & t & E & Hm)]; rewrite ?E1, ?E;
    cbn [bind ret];
    [ | do 3 eexists; split; [reflexivity | assumption] ].
  destruct (attempt_cases (world 2%nat) server 2)
    as [(t2 & E2 & Hne) | (b & m & t & E & Hm)]; rewrite ?E2, ?E;
    cbn [bind ret];
    [ now elim Hne | do 3 eexists; split; [reflexivity | assumption] ].
Qed.

(** C8: for every server record and every behaviour of the outside,
    [shutdown_server] returns a (success, message) pair and raises nothing,
    and the message is never the one of the statement placed after the
    loop: that statement is not reached. *)
Theorem C8_shutdown_server_total (world : nat -> SshWorld) (server : Server) :
  exists success message,
    outcome (shutdown_server world server) = Ok (success, message)
    /\ message <> "Max retries exceeded".
Proof.
  destruct (loop_total world server) as (b & m & t & E & Hm).
  exists b, m. rewrite E. split; [reflexivity | exact Hm].
Qed.




(** C9: with no stored password and a key path that does not exist on the
    local file system, [shutdown_server] and [test_connection] both fail at
    once with the message that no authentication method is available, and
    behave exactly as on the record with no credential configured. *)
Theorem C9_missing_key_file_is_no_credential
        (world : nat -> SshWorld) (w : SshWorld) (server : Server)
        (path : string) :
  truthy (password_encrypted server) = false ->
  key_path server = Some path ->
  os_path_exists (world 0%nat) path = false ->
  os_path_exists w path = false ->
  shutdown_server world server = (Ok (false, no_auth_message), [NewClient])
  /\ test_connection w server = (Ok (false, no_auth_message), [NewClient])
  /\ shutdown_server world server = shutdown_server world (unconfigured server)
  /\ test_connection w server = test_connection w (unconfigured server).
Proof.
  intros Hpw Hpath Hworld Hw.
  assert (K0 : key_usable (world 0%nat) server = false).
  { unfold key_usable. rewrite Hpath, Hworld. apply andb_false_r. }
  assert (K : key_usable w server = false).
  { unfold key_usable. rewrite Hpath, Hw. apply andb_false_r. }
  assert (S1 : shutdown_server world server
               = (Ok (false, no_auth_message), [NewClient])).
  { unfold_ssh. cbn [seq max_retries shutdown_loop].
    unfold_ssh. rewrite Hpw, K0. reflexivity. }
  assert (T1 : test_connection w server
               = (Ok (false, no_auth_message), [NewClient])).
  { unfold_ssh. rewrite Hpw, K. reflexivity. }
  rewrite S1, T1. repeat split.
Qed.

Lemma C9_missing_key_file_is_no_credential_witness :
  shutdown_server (fun _ => reachable_without_key) keyed
  = (Ok (false, no_auth_message), [NewClient])
  /\ test_connection reachable_without_key keyed
     = (Ok (false, no_auth_message), [NewClient])
  /\ shutdown_server (fun _ => reachable_without_key) keyed
     = shutdown_server (fun _ => reachable_without_key) (unconfigured keyed)
  /\ test_connection reachable_without_key keyed
     = test_connection reachable_without_key (unconfigured keyed).
Proof.
  apply (C9_missing_key_file_is_no_credential
           (fun _ => reachable_without_key) reachable_without_key keyed
           "/data/id_rsa"); reflexivity.
Defined.

(** An attempt that raises is followed by the two-second pause when it is
    not the last allowed one. *)
Lemma raised_attempt_pauses (w : SshWorld) (server : Server) (attempt : nat)
      (e : Exn) (t : list Event) :
  shutdown_attempt w server attempt = (Raise e, t) ->
  attempt <> max_retries - 1 ->
  try_except (shutdown_attempt w server attempt) (shutdown_except attempt)
  = (Ok None, (t ++ [Sleep 2])%list).
Proof.
  intros E Hne. rewrite E. unfold try_except, shutdown_except.
  apply Nat.eqb_neq in Hne. rewrite Hne. reflexivity.
Qed.

(** The last allowed attempt that raises finalizes the target as a failure
    whose message carries the text of the exception. *)
Lemma raised_last_attempt_fails (w : SshWorld) (server : Server) (e : Exn)
      (t : list Event) :
  shutdown_attempt w server (max_retries - 1) = (Raise e, t) ->
  try_except (shutdown_attempt w server (max_retries - 1))
             (shutdown_except (max_retries - 1))
  = (Ok (Some (false, "Connection failed after 3 attempts: " ++ str e)),
     (t ++ [])%list).
Proof.
  intros E. rewrite E. reflexivity.
Qed.

(** An attempt whose command exits with a status other than zero, and which
    is not the last allowed one, falls through to the next attempt without
    any pause. *)
Lemma failed_command_no_pause (w : SshWorld) (server : Server)
      (attempt : nat) (kw : AuthKwargs) (status : Z) (err : string) :
  resolved_auth w server = Some kw ->
  client_connect w kw = Ok tt ->
  client_exec_command w (shutdown_command server) = Ok tt ->
  recv_exit_status w = Ok status ->
  status <> 0%Z ->
  client_close w = Ok tt ->
  stderr_read w = Ok err ->
  attempt <> max_retries - 1 ->
  try_except (shutdown_attempt w server attempt) (shutdown_except attempt)
  = (Ok None,
     [NewClient; Connect kw; ExecCommand (shutdown_command server);
      RecvExitStatus; Close; ReadStderr]).
Proof.
  intros Hauth Hc He Hs Hnz Hcl Herr Hne.
  apply Nat.eqb_neq in Hne. apply Z.eqb_neq in Hnz.
  unfold resolved_auth in Hauth.
  unfold shutdown_attempt, try_except, bind, emit, call, lift, ret.
  destruct (truthy (password_encrypted server)).
  - destruct (crypto_decrypt w (text (password_encrypted server)));
      [ | discriminate ].
    injection Hauth as <-. cbn -[Nat.eqb Nat.sub max_retries].
    rewrite Hc, He, Hs, Hcl. cbn -[Nat.eqb Nat.sub max_retries].
    rewrite Hnz, Herr. cbn -[Nat.eqb Nat.sub max_retries].
    rewrite Hne. reflexivity.
  - destruct (key_usable w server); [ | discriminate ].
    injection Hauth as <-. cbn -[Nat.eqb Nat.sub max_retries].
    rewrite Hc, He, Hs, Hcl. cbn -[Nat.eqb Nat.sub max_retries].
    rewrite Hnz, Herr. cbn -[Nat.eqb Nat.sub max_retries].
    rewrite Hne. reflexivity.
Qed.

(** C3 at a failing input: the command exits with status 1 on the first
    attempt and with status 0 on the second.  The second attempt starts
    right after the first one's error output was read: the trace holds no
    [Sleep] at all. *)
Theorem C3_failed_command_retried_without_pause :
  shutdown_server refusing_once nas
  = (Ok (true, "Shutdown successful (attempt 2)"),
     [NewClient; Connect nas_kwargs; ExecCommand "sudo shutdown -h now";
      RecvExitStatus; Close; ReadStderr;
      NewClient; Connect nas_kwargs; ExecCommand "sudo shutdown -h now";
      RecvExitStatus; Close])
  /\ pauses (trace (shutdown_server refusing_once nas)) = 0%nat.
Proof.
  split; reflexivity.
Qed.

(** C7 as stated fails: on a reachable host both operations ask for their
    session with the same connect timeout of ten seconds. *)
Lemma C7_timeout_not_shorter : ~ test_timeout_shorter reachable nas.
Proof.
  intros H. specialize (H nas_kwargs nas_kwargs).
  assert (L : (timeout nas_kwargs < timeout nas_kwargs)%Z).
  { apply H; vm_compute; left; reflexivity. }
  cbn in L. lia.
Qed.

(** C7, amended: [test_connection] picks the session's credentials by the
    rule of the shutdown path (stored password before key file, failure when
    neither is usable), runs no remote command, makes one attempt without
    any pause, and asks for the same ten-second connect timeout as
    [shutdown_server]. *)
Theorem C7_test_connection_single_probe (w : SshWorld) (server : Server) :
  connect_args (trace (test_connection w server))
  = match resolved_auth w server with Some kw => [kw] | None => [] end
  /\ hd_error (connect_args (trace (shutdown_server (fun _ => w) server)))
     = resolved_auth w server
  /\ commands (trace (test_connection w server)) = 0%nat
  /\ attempts (trace (test_connection w server)) = 1%nat
  /\ pauses (trace (test_connection w server)) = 0%nat
  /\ forallb (timeout_is 10)
             (connect_args (trace (test_connection w server))) = true
  /\ forallb (timeout_is 10)
             (connect_args (trace (shutdown_server (fun _ => w) server)))
     = true.
Proof.
  unfold resolved_auth.
  unfold_ssh. cbn [seq max_retries shutdown_loop]. unfold_ssh.
  destruct (truthy (password_encrypted server));
    try destruct (crypto_decrypt w (text (password_encrypted server)));
    try destruct (key_usable w server);
    cbn;
    repeat match goal with
    | |- context [client_connect w ?k] => destruct (client_connect w k); cbn
    | |- context [client_exec_command w ?k] =>
        destruct (client_exec_command w k); cbn
    | |- context [recv_exit_status w] => destruct (recv_exit_status w); cbn
    | |- context [client_close w] => destruct (client_close w); cbn
    | |- context [(?z =? 0)%Z] => destruct (z =? 0)%Z; cbn
    | |- context [stderr_read w] => destruct (stderr_read w); cbn
    end;
    repeat split.
Qed.

End SSHFacts.

Section BotFacts.

Import SSHManager ServerBot.

Lemma finalized_app (t1 t2 : list Event) :
  finalized (t1 ++ t2) = (finalized t1 ++ finalized t2)%list.
Proof.
  induction t1 as [ | ev t1 IH ]; [ reflexivity | ].
  destruct ev; cbn; try exact IH.
  destruct (event_type =? "server_shutdown"); cbn; now rewrite IH.
Qed.

(** One pass of the retry loop writes nothing to the event log. *)
Lemma attempt_writes_no_log (w : SshWorld) (server : Server) (attempt : nat) :
  finalized (trace (try_except (shutdown_attempt w server attempt)
                               (shutdown_except attempt))) = [].
Proof.
  unfold shutdown_attempt, shutdown_except, try_except, bind, emit, call,
         lift, ret, trace.
  destruct (attempt =? max_retries - 1)%nat;
    destruct (truthy (password_encrypted server));
    try destruct (crypto_decrypt w (text (password_encrypted server)));
    try destruct (key_usable w server);
    cbn;
    repeat match goal with
    | |- context [client_connect w ?k] => destruct (client_connect w k); cbn
    | |- context [client_exec_command w ?k] =>
        destruct (client_exec_command w k); cbn
    | |- context [recv_exit_status w] => destruct (recv_exit_status w); cbn
    | |- context [client_close w] => destruct (client_close w); cbn
    | |- context [(?z =? 0)%Z] => destruct (z =? 0)%Z; cbn
    | |- context [stderr_read w] => destruct (stderr_read w); cbn
    end;
    reflexivity.
Qed.

Lemma loop_writes_no_log (world : nat -> SshWorld) (server : Server)
      (todo : list nat) :
  finalized (trace (shutdown_loop world server todo)) = [].
Proof.
  induction todo as [ | attempt rest IH ]; [ reflexivity | ].
  cbn [shutdown_loop].
  pose proof (attempt_writes_no_log (world attempt) server attempt) as A.
  destruct (try_except (shutdown_attempt (world attempt) server attempt)
                       (shutdown_except attempt)) as [[[r | ] | e] t];
    unfold trace in *; cbn in *.
  - rewrite finalized_app, A. reflexivity.
  - destruct (shutdown_loop world server rest) as [r' t'].
    cbn in *. rewrite finalized_app, A, IH. reflexivity.
  - exact A.
Qed.

(** One turn of the per-target loop completes and writes exactly one
    finalized outcome, that of its target. *)
Lemma sweep_one_total (w : BotWorld) (i : nat) (server : Server) :
  exists success message t0 t,
    shutdown_server (ssh w i) server = (Ok (success, message), t0)
    /\ sweep_one w i server
       = (Ok (mkLine success (name server) message), t)
    /\ finalized t
       = [(Some (name server),
           Some (if success then "success" else "failed"))].
Proof.
  destruct (loop_total (ssh w i) server) as (b & m & t0 & E & _).
  pose proof (loop_writes_no_log (ssh w i) server (seq 0 max_retries)) as Q.
  fold (shutdown_server (ssh w i) server) in Q. rewrite E in Q.
  unfold trace in Q; cbn in Q.
  exists b, m, t0. eexists. split; [exact E | ].
  unfold sweep_one, log_event, bind, emit, ret. rewrite E.
  split; [reflexivity | ].
  rewrite finalized_app, Q. reflexivity.
Qed.

Lemma sweep_total (servers : list Server) (w : BotWorld) (i : nat) :
  exists shutdown_results t,
    sweep w i servers = (Ok shutdown_results, t)
    /\ length shutdown_results = length servers
    /\ map line_name shutdown_results = map name servers
    /\ map fst (finalized t) = map (fun s => Some (name s)) servers
    /\ Forall2
         (fun line ks =>
            exists t',
              shutdown_server (ssh w (fst ks)) (snd ks)
              = (Ok (status_icon line, line_message line), t')
              /\ line_name line = name (snd ks))
         shutdown_results
         (combine (seq i (length servers)) servers).
Proof.
  revert i. induction servers as [ | server rest IH ]; intros i.
  - exists [], []. cbn. repeat split; constructor.
  - destruct (sweep_one_total w i server) as (b & m & t0 & t1 & E0 & E1 & F1).
    destruct (IH (S i)) as (rs & t2 & E2 & L & N & F2 & A).
    exists (mkLine b (name server) m :: rs), (t1 ++ t2 ++ [])%list.
    cbn [sweep]. unfold bind at 1. rewrite E1.
    unfold bind, ret. rewrite E2.
    split; [reflexivity | ].
    cbn [length map seq combine]. rewrite L, N.
    repeat split.
    + rewrite !finalized_app, F1, map_app, map_app, F2. cbn.
      now rewrite app_nil_r.
    + constructor; [ | exact A ].
      exists t0. cbn. split; [exact E0 | reflexivity].
Qed.

(** C1: one sweep over N targets completes with exactly N result lines and
    N finalized outcomes in the event log, one per target and in the order
    of the registry's snapshot, whatever happens to each target;
    [handle_power_loss] itself never raises; and when the announcement is
    delivered and the registry answers, those outcomes are the ones
    [handle_power_loss] writes. *)
Theorem C1_sweep_one_outcome_per_target
        (w : BotWorld) (servers : list Server) :
  (exists shutdown_results t,
      sweep w 0 servers = (Ok shutdown_results, t)
      /\ length shutdown_results = length servers
      /\ map line_name shutdown_results = map name servers
      /\ length (finalized t) = length servers
      /\ map fst (finalized t) = map (fun s => Some (name s)) servers
      /\ Forall2
           (fun line ks =>
              exists t',
                shutdown_server (ssh w (fst ks)) (snd ks)
                = (Ok (status_icon line, line_message line), t')
                /\ line_name line = name (snd ks))
           shutdown_results
           (combine (seq 0 (length servers)) servers))
  /\ outcome (handle_power_loss w) = Ok tt
  /\ (send_message w 0 = Ok tt ->
      get_servers w = Ok servers ->
      map fst (finalized (trace (handle_power_loss w)))
      = map (fun s => Some (name s)) servers).
Proof.
  destruct (sweep_total servers w 0) as (rs & t & E & L & N & F & A).
  split; [ | split ].
  - exists rs, t. repeat split; try assumption.
    rewrite <- (length_map fst), F. apply length_map.
  - unfold handle_power_loss, try_except, outcome.
    destruct (handle_power_loss_body w) as [[[] | e] t']; reflexivity.
  - intros Hsend Hget.
    unfold handle_power_loss, handle_power_loss_body, try_except, log_event,
           bind, call, emit, lift, ret, trace.
    rewrite Hsend, Hget.
    destruct servers as [ | server rest ].
    + destruct (send_message w 1) as [[] | e]; reflexivity.
    + rewrite E.
      destruct (send_message w 1) as [[] | e]; cbn [fst snd app];
        rewrite ?finalized_app; cbn [finalized String.eqb Ascii.eqb Bool.eqb];
        cbn; rewrite ?app_nil_r; exact F.
Qed.

Lemma C1_sweep_one_outcome_per_target_witness :
  map fst (finalized (trace (handle_power_loss blackout)))
  = [Some "nas"; Some "backup"].
Proof.
  exact (proj2 (proj2 (C1_sweep_one_outcome_per_target blackout [nas; keyed]))
               eq_refl eq_refl).
Defined.

End BotFacts.

Section PowerFacts.

Import PowerMonitor.

Lemma power_events_app (t1 t2 : list Event) :
  power_events (t1 ++ t2) = (power_events t1 ++ power_events t2)%list.
Proof.
  induction t1 as [ | ev t1 IH ]; [ reflexivity | ].
  destruct ev; cbn; rewrite ?IH; reflexivity.
Qed.

Lemma sleeps_app (t1 t2 : list Event) :
  sleeps (t1 ++ t2) = (sleeps t1 ++ sleeps t2)%list.
Proof.
  induction t1 as [ | ev t1 IH ]; [ reflexivity | ].
  destruct ev; cbn; rewrite ?IH; reflexivity.
Qed.

(** Reading the source leaves no event before the sampler's own log line. *)
Lemma charging_status_try_silent (src : PowerSource) :
  snd (charging_status_try src) = [].
Proof.
  unfold charging_status_try, bind, lift, ret.
  destruct (subprocess_run src) as [[returncode stdout] | e];
    [ | reflexivity ].
  destruct (returncode =? 0)%Z.
  - destruct (json_loads src stdout) as [battery_info | e];
      [ | reflexivity ].
    destruct (dict_get battery_info "plugged" (JString "UNPLUGGED"));
      reflexivity.
  - destruct (sysfs_read src); reflexivity.
Qed.

(** The sampler either passes a reading on silently or, when the read
    raised, answers OnPower and logs the error. *)
Lemma charging_status_cases (src : PowerSource) :
  (exists charging,
      charging_status_try src = (Ok charging, [])
      /\ _get_charging_status src = (charging, []))
  \/ (exists e,
         charging_status_try src = (Raise e, [])
         /\ _get_charging_status src
            = (true,
               [LoggerError ("Error getting charging status: " ++ str e)])).
Proof.
  pose proof (charging_status_try_silent src) as S.
  unfold _get_charging_status.
  destruct (charging_status_try src) as [[charging | e] t]; cbn in S; subst t.
  - left. now exists charging.
  - right. now exists e.
Qed.

(** What one pass does to the held state and which event it hands off. *)
Lemma pass_step (self : PowerMonitor) (it : Iteration) :
  is_monitoring (fst (monitor_pass self it)) = is_monitoring self
  /\ outcome (snd (monitor_pass self it)) = Ok tt
  /\ sleeps (trace (snd (monitor_pass self it)))
     = match outcome (snd (monitor_try self it)) with
       | Ok _ => [2%Z]
       | Raise _ => [5%Z]
       end
  /\ ((power_events (trace (snd (monitor_pass self it))) = []
       /\ is_charging (fst (monitor_pass self it)) = is_charging self)
      \/ (power_events (trace (snd (monitor_pass self it)))
          = [next_kind (is_charging self)]
          /\ fst (_get_charging_status (source it))
             = negb (is_charging self)
          /\ is_charging (fst (monitor_pass self it))
             = negb (is_charging self))).
Proof.
  unfold monitor_pass, monitor_try.
  destruct (charging_status_cases (source it))
    as [(b & _ & E) | (e & _ & E)]; rewrite E;
    destruct self as [mon [ | ] lost_at];
    try destruct b;
    destruct (run_coroutine_threadsafe it) as [[] | e'];
    cbn; repeat split; auto.
Qed.

Lemma monitor_alternates (its : list Iteration) (self : PowerMonitor) :
  alternates (next_kind (is_charging self))
             (power_events (snd (_monitor_power self its))) = true.
Proof.
  revert self. induction its as [ | it rest IH ]; intros self;
    [ reflexivity | ].
  cbn [_monitor_power].
  set (self0 := if stop_requested it then with_monitoring self false
                else self).
  assert (C0 : is_charging self0 = is_charging self)
    by (unfold self0; destruct (stop_requested it); reflexivity).
  destruct (is_monitoring self0); [ | reflexivity ].
  destruct (pass_step self0 it) as (_ & _ & _ & H).
  destruct (monitor_pass self0 it) as [self1 m].
  specialize (IH self1).
  destruct (_monitor_power self1 rest) as [self2 t].
  cbn [fst snd] in *. rewrite power_events_app. rewrite C0 in H.
  destruct H as [(Hev & Hc) | (Hev & _ & Hc)]; rewrite Hev; rewrite Hc in IH.
  - exact IH.
  - cbn [app alternates]. destruct (is_charging self); cbn in *; exact IH.
Qed.

Lemma alternates_no_repeat (evs : list PowerEventKind) (k : PowerEventKind) :
  alternates k evs = true -> no_repeat evs = true.
Proof.
  revert k. induction evs as [ | a rest IH ]; intros k H; [ reflexivity | ].
  cbn [alternates] in H. apply andb_prop in H. destruct H as [Ha Hrest].
  destruct rest as [ | b rest' ]; [ reflexivity | ].
  change (no_repeat (a :: b :: rest'))
    with (negb (same_kind a b) && no_repeat (b :: rest')).
  rewrite (IH _ Hrest), andb_true_r.
  cbn [alternates] in Hrest. apply andb_prop in Hrest.
  destruct Hrest as [Hb _].
  destruct a, b, k; cbn in *; congruence.
Qed.

(** C4: whatever the readings, the events the monitoring loop hands off
    alternate, starting with the one that leaves the held state (Lost when
    it is OnPower); no two neighbours are of the same kind; and a pass hands
    off at most one event, only when the reading differs from the held
    state, which then becomes the reading. *)
Theorem C4_power_events_alternate
        (self : PowerMonitor) (its : list Iteration)
        (held : PowerMonitor) (it : Iteration) :
  alternates (next_kind (is_charging self))
             (power_events (snd (_monitor_power self its))) = true
  /\ no_repeat (power_events (snd (_monitor_power self its))) = true
  /\ match power_events (trace (snd (monitor_pass held it))) with
     | [] => is_charging (fst (monitor_pass held it)) = is_charging held
     | [k] =>
         k = next_kind (is_charging held)
         /\ fst (_get_charging_status (source it)) <> is_charging held
         /\ is_charging (fst (monitor_pass held it))
            = fst (_get_charging_status (source it))
     | _ => False
     end.
Proof.
  pose proof (monitor_alternates its self) as A.
  split; [exact A | split; [exact (alternates_no_repeat _ _ A) | ]].
  destruct (pass_step held it) as (_ & _ & _ & [(Hev & Hc) | (Hev & Hr & Hc)]);
    rewrite Hev.
  - exact Hc.
  - rewrite Hr, Hc. repeat split.
    destruct (is_charging held); discriminate.
Qed.

Lemma run_keeps_going (its : list Iteration) (self : PowerMonitor) :
  is_monitoring self = true ->
  forallb keeps_running its = true ->
  length (sleeps (snd (_monitor_power self its))) = length its
  /\ is_monitoring (fst (_monitor_power self its)) = true.
Proof.
  revert self. induction its as [ | it rest IH ]; intros self Hm Hk.
  - split; [reflexivity | exact Hm].
  - cbn [forallb] in Hk. apply andb_prop in Hk. destruct Hk as [Hit Hrest].
    unfold keeps_running in Hit. apply negb_true_iff in Hit.
    cbn [_monitor_power]. rewrite Hit, Hm.
    destruct (pass_step self it) as (Hmon & _ & Hs & _).
    destruct (monitor_pass self it) as [self1 m].
    cbn [fst snd] in *. rewrite Hm in Hmon.
    destruct (IH self1 Hmon Hrest) as [L M].
    destruct (_monitor_power self1 rest) as [self2 t].
    cbn [fst snd length] in *. rewrite sleeps_app, length_app, Hs, L.
    split; [ | exact M ].
    destruct (outcome (snd (monitor_try self it))); reflexivity.
Qed.

(** The reading the sampler answers when nothing happens to the mains
    while the held state is OnPower: OnPower, the read failed or not. *)
Lemma reading_on_power (it : Iteration) :
  mains_unchanged true it = true ->
  fst (_get_charging_status (source it)) = true.
Proof.
  unfold mains_unchanged, outcome.
  destruct (charging_status_cases (source it))
    as [(b & E1 & E2) | (e & E1 & E2)]; rewrite E1, E2; cbn.
  - now destruct b.
  - reflexivity.
Qed.

(** On mains power, a pass that reads OnPower changes nothing and sleeps two
    seconds. *)
Lemma pass_on_power (self : PowerMonitor) (it : Iteration) :
  is_charging self = true ->
  fst (_get_charging_status (source it)) = true ->
  fst (monitor_pass self it) = self
  /\ trace (snd (monitor_pass self it))
     = (snd (_get_charging_status (source it)) ++ [Sleep 2])%list.
Proof.
  intros Hc Hr. unfold monitor_pass, monitor_try.
  destruct (_get_charging_status (source it)) as [charging t0].
  cbn [fst snd] in *. subst charging. rewrite Hc. cbn.
  destruct self as [mon charging lost_at]. cbn in Hc. subst charging.
  split; reflexivity.
Qed.

Lemma quiet_on_power (its : list Iteration) (self : PowerMonitor) :
  is_monitoring self = true ->
  is_charging self = true ->
  forallb keeps_running its = true ->
  forallb (mains_unchanged true) its = true ->
  fst (_monitor_power self its) = self
  /\ power_events (snd (_monitor_power self its)) = []
  /\ sleeps (snd (_monitor_power self its)) = repeat 2%Z (length its).
Proof.
  induction its as [ | it rest IH ]; intros Hm Hc Hk Hu.
  - repeat split.
  - cbn [forallb] in Hk, Hu.
    apply andb_prop in Hk. destruct Hk as [Hit Hrest].
    apply andb_prop in Hu. destruct Hu as [Uit Urest].
    unfold keeps_running in Hit. apply negb_true_iff in Hit.
    cbn [_monitor_power]. rewrite Hit, Hm.
    destruct (pass_on_power self it Hc (reading_on_power it Uit)) as [S T].
    destruct (monitor_pass self it) as [self1 m]. cbn [fst snd] in S, T.
    subst self1.
    destruct (IH Hm Hc Hrest Urest) as (F & P & Sl).
    destruct (_monitor_power self rest) as [self2 t]. cbn [fst snd] in *.
    rewrite power_events_app, sleeps_app, T, power_events_app, sleeps_app.
    rewrite P, Sl. split; [ exact F | ].
    destruct (charging_status_cases (source it))
      as [(b & _ & E) | (e & _ & E)]; rewrite E; cbn; split; reflexivity.
Qed.

(** The body of a pass raises only when it hands an event off and the
    hand-off raises. *)
Lemma pass_raises_at_handoff (self : PowerMonitor) (it : Iteration)
      (e : Exn) :
  outcome (snd (monitor_try self it)) = Raise e ->
  run_coroutine_threadsafe it = Raise e
  /\ fst (_get_charging_status (source it)) <> is_charging self.
Proof.
  unfold monitor_try.
  destruct (_get_charging_status (source it)) as [charging t0].
  destruct self as [mon held lost_at]; destruct held, charging;
    destruct (run_coroutine_threadsafe it) as [[] | e'];
    cbn; intros H; try discriminate H;
    injection H as <-; (split; [ reflexivity | discriminate ]).
Qed.

(** C5 as stated fails twice on one read that times out.  On mains power,
    the pass whose read failed sleeps the normal two seconds, not five: the
    sampler has already answered the failure, and nothing reaches the
    [except] of the loop.  During an outage, the failed read is answered as
    OnPower like any other: the pass hands off Restored, and the next read
    that succeeds hands off Lost again, for an outage that never ended. *)
Lemma C5_failed_read_neither_backs_off_nor_stays_silent :
  ~ failed_read_backs_off on_mains_monitoring unreadable_pass
  /\ sleeps (trace (snd (monitor_pass on_mains_monitoring unreadable_pass)))
     = [2%Z]
  /\ ~ failed_read_triggers_nothing on_battery_monitoring flaky_outage_passes
  /\ power_events (snd (_monitor_power on_battery_monitoring
                                       flaky_outage_passes))
     = [Restored; Lost].
Proof.
  assert (S2 : sleeps (trace (snd (monitor_pass on_mains_monitoring
                                                unreadable_pass)))
               = [2%Z]) by reflexivity.
  assert (Ev : power_events (snd (_monitor_power on_battery_monitoring
                                                 flaky_outage_passes))
               = [Restored; Lost]) by reflexivity.
  split; [ | split; [ exact S2 | split; [ | exact Ev ] ] ].
  - intros H. specialize (H eq_refl). rewrite S2 in H. discriminate H.
  - intros H. specialize (H eq_refl). rewrite Ev in H. discriminate H.
Qed.

(** C5, amended: a read of the power source that raises is answered as
    OnPower with one error line in the log, and the pass goes on with that
    reading: it hands off no Lost event, and while the held state is OnPower
    it changes nothing and sleeps the normal two seconds.  A run on mains
    power during which nothing happens to the mains hands off no event at
    all, however many reads fail.  Every pass completes, sleeping five
    seconds when its body raised and two otherwise, and its body raises only
    when the hand-off of an event raises.  While monitoring is not stopped
    the loop makes every pass, failures or not. *)
Theorem C5_read_failure_fails_open
        (src : PowerSource) (e : Exn) (t : list Event)
        (self : PowerMonitor) (it : Iteration)
        (held : PowerMonitor) (pass : Iteration) (its : list Iteration) :
  (charging_status_try src = (Raise e, t) ->
   _get_charging_status src
   = (true, [LoggerError ("Error getting charging status: " ++ str e)]))
  /\ (charging_status_try (source it) = (Raise e, t) ->
      existsb is_lost (power_events (trace (snd (monitor_pass self it))))
      = false
      /\ (is_charging self = true ->
          fst (monitor_pass self it) = self
          /\ trace (snd (monitor_pass self it))
             = [LoggerError ("Error getting charging status: " ++ str e);
                Sleep 2]))
  /\ (is_monitoring held = true ->
      is_charging held = true ->
      forallb keeps_running its = true ->
      forallb (mains_unchanged true) its = true ->
      fst (_monitor_power held its) = held
      /\ power_events (snd (_monitor_power held its)) = []
      /\ sleeps (snd (_monitor_power held its)) = repeat 2%Z (length its))
  /\ outcome (snd (monitor_pass held pass)) = Ok tt
  /\ sleeps (trace (snd (monitor_pass held pass)))
     = match outcome (snd (monitor_try held pass)) with
       | Ok _ => [2%Z]
       | Raise _ => [5%Z]
       end
  /\ (forall e', outcome (snd (monitor_try held pass)) = Raise e' ->
                 run_coroutine_threadsafe pass = Raise e'
                 /\ fst (_get_charging_status (source pass))
                    <> is_charging held)
  /\ (is_monitoring held = true ->
      forallb keeps_running its = true ->
      length (sleeps (snd (_monitor_power held its))) = length its
      /\ is_monitoring (fst (_monitor_power held its)) = true).
Proof.
  assert (R : forall s, charging_status_try s = (Raise e, t) ->
                        _get_charging_status s
                        = (true,
                           [LoggerError ("Error getting charging status: "
                                         ++ str e)])).
  { intros s E. pose proof (charging_status_try_silent s) as S.
    unfold _get_charging_status. rewrite E in *. cbn in S. now subst t. }
  split; [exact (R src) | split ].
  - intros E. specialize (R _ E). split.
    + destruct (pass_step self it)
        as (_ & _ & _ & [(Hev & _) | (Hev & Hr & _)]);
        rewrite Hev; [ reflexivity | ].
      rewrite R in Hr. cbn in Hr.
      destruct (is_charging self); [ discriminate | reflexivity ].
    + intros Hc.
      destruct (pass_on_power self it Hc) as [S T];
        [ now rewrite R | ].
      split; [ exact S | ]. rewrite T, R. reflexivity.
  - split; [ intros Hm Hc Hk Hu; exact (quiet_on_power its held Hm Hc Hk Hu)
           | ].
    destruct (pass_step held pass) as (_ & Ho & Hs & _).
    split; [exact Ho | split; [exact Hs | split ]].
    + intros e'. apply pass_raises_at_handoff.
    + intros Hm Hk. exact (run_keeps_going its held Hm Hk).
Qed.

Lemma C5_read_failure_fails_open_witness :
  _get_charging_status unreadable
  = (true,
     [LoggerError "Error getting charging status: timed out after 5 seconds"])
  /\ trace (snd (monitor_pass on_mains_monitoring unreadable_pass))
     = [LoggerError "Error getting charging status: timed out after 5 seconds";
        Sleep 2]
  /\ power_events
       (snd (_monitor_power on_mains_monitoring
                            [unreadable_pass; unreadable_pass]))
     = []
  /\ sleeps (trace (snd (monitor_pass on_mains_monitoring orphaned_pass)))
     = [5%Z]
  /\ length (sleeps (snd (_monitor_power on_mains_monitoring
                            [orphaned_pass; unreadable_pass; orphaned_pass])))
     = 3%nat.
Proof.
  destruct (C5_read_failure_fails_open
              unreadable
              (Exception "TimeoutExpired" "timed out after 5 seconds") []
              on_mains_monitoring unreadable_pass
              on_mains_monitoring orphaned_pass
              [unreadable_pass; unreadable_pass])
    as (H1 & H2 & H3 & _ & H5 & _ & _).
  destruct (C5_read_failure_fails_open
              unreadable
              (Exception "TimeoutExpired" "timed out after 5 seconds") []
              on_mains_monitoring unreadable_pass
              on_mains_monitoring orphaned_pass
              [orphaned_pass; unreadable_pass; orphaned_pass])
    as (_ & _ & _ & _ & _ & _ & H7).
  split; [ exact (H1 eq_refl) | ].
  split; [ exact (proj2 (proj2 (H2 eq_refl) eq_refl)) | ].
  split; [ exact (proj1 (proj2 (H3 eq_refl eq_refl eq_refl eq_refl))) | ].
  split; [ exact H5 | ].
  exact (proj1 (H7 eq_refl eq_refl)).
Defined.

Lemma quiet_run (its : list Iteration) (self : PowerMonitor) :
  is_charging self = false ->
  forallb reads_on_battery its = true ->
  power_events (snd (_monitor_power self its)) = [].
Proof.
  revert self. induction its as [ | it rest IH ]; intros self Hc Hq;
    [ reflexivity | ].
  cbn [forallb] in Hq. apply andb_prop in Hq. destruct Hq as [Hit Hrest].
  unfold reads_on_battery in Hit. apply negb_true_iff in Hit.
  cbn [_monitor_power].
  set (self0 := if stop_requested it then with_monitoring self false
                else self).
  assert (C0 : is_charging self0 = false)
    by (unfold self0; destruct (stop_requested it); exact Hc).
  destruct (is_monitoring self0); [ | reflexivity ].
  destruct (pass_step self0 it) as (_ & _ & _ & H).
  destruct (monitor_pass self0 it) as [self1 m].
  specialize (IH self1).
  destruct (_monitor_power self1 rest) as [self2 t].
  cbn [fst snd] in *. rewrite power_events_app.
  destruct H as [(Hev & Hc1) | (_ & Hr & _)].
  - rewrite Hev. apply IH; [ congruence | exact Hrest ].
  - rewrite Hit, C0 in Hr. discriminate.
Qed.

(** An event is handed off only by a run one of whose passes takes a
    reading other than OnBattery. *)
Lemma event_needs_reading (its : list Iteration) (self : PowerMonitor) :
  is_charging self = false ->
  power_events (snd (_monitor_power self its)) <> [] ->
  exists it, In it its /\ fst (_get_charging_status (source it)) = true.
Proof.
  intros Hc Hev.
  destruct (forallb reads_on_battery its) eqn:Q.
  - contradiction Hev. exact (quiet_run its self Hc Q).
  - clear - Q. induction its as [ | it rest IH ]; [ discriminate Q | ].
    cbn [forallb] in Q. apply andb_false_iff in Q. destruct Q as [Q | Q].
    + exists it. split; [ now left | ].
      unfold reads_on_battery in Q. now apply negb_false_iff in Q.
    + destruct (IH Q) as (it' & I & R). exists it'. split; [ now right | ].
      exact R.
Qed.

(** C10 as stated fails when a read of the source fails during the outage
    the process was started in: mains power is gone at construction and no
    read ever finds it back, yet the read that times out is answered as
    OnPower, the pass hands off Restored, and the next pass hands off Lost
    for that same outage. *)
Lemma C10_lost_after_failed_read :
  ~ old_outage_claim on_battery flaky_outage_passes
  /\ fst (_get_charging_status on_battery) = false
  /\ forallb (mains_unchanged false) flaky_outage_passes = true
  /\ power_events (snd (start_monitoring (fst (init on_battery))
                                         flaky_outage_passes))
     = [Restored; Lost].
Proof.
  assert (Ev : power_events (snd (start_monitoring (fst (init on_battery))
                                                   flaky_outage_passes))
               = [Restored; Lost]) by reflexivity.
  split; [ | split; [ reflexivity | split; [ reflexivity | exact Ev ] ] ].
  intros H. specialize (H eq_refl eq_refl). rewrite Ev in H. discriminate H.
Qed.

(** C10, amended: the held state starts as the sample taken when the
    monitor is built, whatever that sample is, and a pass hands an event off
    only when its reading differs from the held state.  When the sample is
    OnBattery, the first event the loop hands off, if any, is Restored, a
    Lost event comes only after a Restored one, no event at all is handed
    off as long as the readings stay OnBattery, and a Lost event is handed
    off only after a pass whose reading was OnPower; a read that fails is
    such a reading. *)
Theorem C10_outage_before_start_is_silent
        (src0 : PowerSource) (its : list Iteration)
        (held : PowerMonitor) (it : Iteration) :
  init src0
  = (mkMonitor false (fst (_get_charging_status src0)) None,
     snd (_get_charging_status src0))
  /\ (power_events (trace (snd (monitor_pass held it))) <> [] ->
      fst (_get_charging_status (source it)) <> is_charging held)
  /\ (fst (_get_charging_status src0) = false ->
      hd_error (power_events (snd (start_monitoring (fst (init src0)) its)))
      <> Some Lost
      /\ alternates Restored
           (power_events (snd (start_monitoring (fst (init src0)) its)))
         = true
      /\ (forallb reads_on_battery its = true ->
          power_events (snd (start_monitoring (fst (init src0)) its)) = [])
      /\ (existsb is_lost
            (power_events (snd (start_monitoring (fst (init src0)) its)))
          = true ->
          exists pass,
            In pass its
            /\ fst (_get_charging_status (source pass)) = true)).
Proof.
  split; [ | split ].
  - unfold init. now destruct (_get_charging_status src0).
  - intros Hev.
    destruct (pass_step held it)
      as (_ & _ & _ & [(Hnone & _) | (_ & Hr & _)]);
      [ contradiction | ].
    rewrite Hr. now destruct (is_charging held).
  - intros H0. unfold init, start_monitoring.
    destruct (_get_charging_status src0) as [charging t0]. cbn in H0. subst.
    cbn [fst snd is_monitoring is_charging].
    pose proof (monitor_alternates its
                  (with_monitoring (mkMonitor false false None) true)) as A.
    pose proof (quiet_run its
                  (with_monitoring (mkMonitor false false None) true)
                  eq_refl) as Q.
    pose proof (event_needs_reading its
                  (with_monitoring (mkMonitor false false None) true)
                  eq_refl) as N.
    destruct (_monitor_power
                (with_monitoring (mkMonitor false false None) true) its)
      as [self' t].
    cbn [fst snd power_events is_charging with_monitoring next_kind] in *.
    split; [ | split; [exact A | split; [exact Q | ]]].
    + destruct (power_events t) as [ | [ | ] rest ]; cbn in *;
        [ discriminate | discriminate | discriminate ].
    + intros L. apply N. intros E. rewrite E in L. discriminate L.
Qed.

Lemma C10_outage_before_start_is_silent_witness :
  hd_error (power_events
              (snd (start_monitoring (fst (init on_battery))
                                     late_start_passes)))
  <> Some Lost
  /\ power_events
       (snd (start_monitoring (fst (init on_battery))
                              [mkIteration false on_battery 0 (Ok tt);
                               mkIteration false on_battery 2 (Ok tt)]))
     = [].
Proof.
  destruct (C10_outage_before_start_is_silent
              on_battery late_start_passes
              on_mains_monitoring unreadable_pass)
    as (_ & _ & H).
  split; [ exact (proj1 (H eq_refl)) | ].
  exact (proj1 (proj2 (proj2
           (proj2 (proj2 (C10_outage_before_start_is_silent
                            on_battery
                            [mkIteration false on_battery 0 (Ok tt);
                             mkIteration false on_battery 2 (Ok tt)]
                            on_mains_monitoring unreadable_pass))
                  eq_refl)))
           eq_refl).
Defined.

End PowerFacts.

Section CycleFacts.

Import PowerMonitor.

(** The cycle ends at a loop test that reads OnPower, before any sleep. *)
Lemma cycle_ends_on_power (turn : CycleTurn) (rest : list CycleTurn) :
  test_is_charging turn = true ->
  _notification_cycle (turn :: rest) = [].
Proof. intros H. cbn [_notification_cycle]. now rewrite H. Qed.

(** Whatever the thread's reads are answered: it sleeps 300 seconds at a
    time, every reminder comes after a sleep of its own, and every reminder
    belongs to a turn whose loop test and whose test after the sleep both
    read OnBattery, its elapsed time being the clock less the loss time read
    in that turn. *)
Lemma cycle_rechecks (turns : list CycleTurn) :
  sleeps (_notification_cycle turns)
  = repeat 300%Z (length (sleeps (_notification_cycle turns)))
  /\ (length (reminders (_notification_cycle turns))
      <= length (sleeps (_notification_cycle turns)))%nat
  /\ Forall (fun elapsed =>
               exists turn lost_at,
                 In turn turns
                 /\ test_is_charging turn = false
                 /\ recheck_is_charging turn = false
                 /\ read_loss_time turn = Some lost_at
                 /\ elapsed = (read_clock turn - lost_at)%Z)
            (reminders (_notification_cycle turns)).
Proof.
  induction turns as [ | turn rest (S & L & R) ].
  - split; [ reflexivity | split; [ cbn; lia | constructor ] ].
  - assert (R' : Forall (fun elapsed =>
                           exists turn0 lost_at,
                             In turn0 (turn :: rest)
                             /\ test_is_charging turn0 = false
                             /\ recheck_is_charging turn0 = false
                             /\ read_loss_time turn0 = Some lost_at
                             /\ elapsed = (read_clock turn0 - lost_at)%Z)
                        (reminders (_notification_cycle rest))).
    { eapply Forall_impl; [ | exact R ].
      intros elapsed (turn0 & lost_at & I & H). exists turn0, lost_at.
      split; [ now right | exact H ]. }
    cbn [_notification_cycle].
    destruct (test_is_charging turn) eqn:T; cbn [negb andb];
      [ split; [ reflexivity | split; [ cbn; lia | constructor ] ] | ].
    destruct (test_is_monitoring turn);
      [ | split; [ reflexivity | split; [ cbn; lia | constructor ] ] ].
    destruct (recheck_is_charging turn) eqn:C; cbn [negb].
    + cbn [sleeps reminders length repeat]. rewrite <- S.
      split; [ reflexivity | split; [ lia | exact R' ] ].
    + destruct (read_loss_time turn) as [lost_at | ] eqn:Lt;
        [ | split; [ reflexivity | split; [ cbn; lia | constructor ] ] ].
      destruct (reminder_handoff turn);
        [ | split; [ reflexivity | split; [ cbn; lia | constructor ] ] ].
      cbn [sleeps reminders length repeat]. rewrite <- S.
      split; [ reflexivity | split; [ lia | ] ].
      constructor; [ | exact R' ].
      exists turn, lost_at. split; [ now left | ]. repeat split; assumption.
Qed.

(** The loop starts the reminder thread while the held state is still
    OnPower, and stores OnBattery only afterwards. *)
Lemma cycle_started_on_power (self : PowerMonitor) (it : Iteration) :
  In StartNotificationCycle (trace (snd (monitor_pass self it))) ->
  is_charging self = true
  /\ is_charging (fst (monitor_pass self it)) = false.
Proof.
  unfold monitor_pass, monitor_try.
  destruct (charging_status_cases (source it))
    as [(b & _ & E) | (e & _ & E)]; rewrite E;
    destruct self as [mon [ | ] lost_at];
    try destruct b;
    destruct (run_coroutine_threadsafe it) as [[] | e'];
    cbn; intros H;
    repeat match goal with
           | H : _ \/ _ |- _ => destruct H as [H | H]
           | H : False |- _ => contradiction
           | H : _ = StartNotificationCycle |- _ => discriminate H
           end;
    split; reflexivity.
Qed.

(** A thread whose first test reads the held state as it stands when the
    loop starts it ends at once: no sleep, no reminder. *)
Lemma cycle_first_test_at_start (self : PowerMonitor) (it : Iteration)
      (turn : CycleTurn) (rest : list CycleTurn) :
  In StartNotificationCycle (trace (snd (monitor_pass self it))) ->
  test_is_charging turn = is_charging self ->
  _notification_cycle (turn :: rest) = [].
Proof.
  intros H E. apply cycle_ends_on_power.
  rewrite E. exact (proj1 (cycle_started_on_power self it H)).
Qed.

(** The flapping outage (lost at second 0, back at 100, lost again at 200)
    under the two orders of the thread's first test and the store of the
    pass that started it: read before the store, the thread ends at once;
    read after it, the thread wakes at second 300 and reminds with an
    elapsed time of 100 seconds, counted from the second loss. *)
Lemma cycle_depends_on_first_test :
  _notification_cycle first_test_at_start = []
  /\ _notification_cycle first_test_after_store
     = [Sleep 300; Reminder 100].
Proof. split; vm_compute; reflexivity. Qed.

End CycleFacts.

Section RetryFacts.

Import SSHManager.

Lemma attempts_app (t1 t2 : list Event) :
  attempts (t1 ++ t2) = (attempts t1 + attempts t2)%nat.
Proof. unfold attempts. now rewrite filter_app, length_app. Qed.

Lemma pauses_app (t1 t2 : list Event) :
  pauses (t1 ++ t2) = (pauses t1 + pauses t2)%nat.
Proof. unfold pauses. now rewrite filter_app, length_app. Qed.

Lemma sessions_app (t1 t2 : list Event) :
  sessions (t1 ++ t2) = (sessions t1 + sessions t2)%nat.
Proof. unfold sessions. now rewrite filter_app, length_app. Qed.

Lemma commands_app (t1 t2 : list Event) :
  commands (t1 ++ t2) = (commands t1 + commands t2)%nat.
Proof. unfold commands. now rewrite filter_app, length_app. Qed.

Lemma closes_app (t1 t2 : list Event) :
  closes (t1 ++ t2) = (closes t1 + closes t2)%nat.
Proof. unfold closes. now rewrite filter_app, length_app. Qed.

Lemma connect_args_app (t1 t2 : list Event) :
  connect_args (t1 ++ t2) = (connect_args t1 ++ connect_args t2)%list.
Proof.
  induction t1 as [ | ev t1 IH ]; [ reflexivity | ].
  destruct ev; cbn; rewrite ?IH; reflexivity.
Qed.

Ltac attempt_paths w server attempt :=
  unfold shutdown_attempt, shutdown_except, try_except, bind, emit, call,
         lift, ret, outcome, trace;
  destruct (attempt =? max_retries - 1)%nat eqn:Hlast;
  destruct (truthy (password_encrypted server)) eqn:Hpw;
  try destruct (crypto_decrypt w (text (password_encrypted server)))
    eqn:Hdec;
  try destruct (key_usable w server) eqn:Hkey;
  cbn;
  repeat match goal with
  | |- context [client_connect w ?k] =>
      destruct (client_connect w k) eqn:?; cbn
  | |- context [client_exec_command w ?k] =>
      destruct (client_exec_command w k) eqn:?; cbn
  | |- context [recv_exit_status w] =>
      destruct (recv_exit_status w) eqn:?; cbn
  | |- context [client_close w] => destruct (client_close w) eqn:?; cbn
  | |- context [(?z =? 0)%Z] => destruct (z =? 0)%Z eqn:?; cbn
  | |- context [stderr_read w] => destruct (stderr_read w) eqn:?; cbn
  end.

(** The footprint of one pass through the [try] and its [except]: one
    client, at most one session, a command only in a session, a close only
    after a command, and a pause only when the pass falls through. *)
Lemma attempt_footprint (w : SshWorld) (server : Server) (attempt : nat) :
  let m := try_except (shutdown_attempt w server attempt)
                      (shutdown_except attempt) in
  attempts (trace m) = 1%nat
  /\ (sessions (trace m) <= 1)%nat
  /\ (commands (trace m) <= sessions (trace m))%nat
  /\ (closes (trace m) <= commands (trace m))%nat
  /\ (pauses (trace m) <= 1)%nat
  /\ (pauses (trace m) = 1%nat -> outcome m = Ok None)
  /\ sleeps (trace m) = repeat 2%Z (pauses (trace m))
  /\ Forall (session_of server) (connect_args (trace m)).
Proof.
  assert (S : forall pw,
             truthy (password_encrypted server) = true ->
             session_of server
               (mkKwargs (ip_address server) (server_port server)
                         (server_username server) 10 (Some pw) None)).
  { intros pw H. unfold session_of. cbn. rewrite H.
    repeat split. discriminate. }
  assert (K : truthy (password_encrypted server) = false ->
              session_of server
                (mkKwargs (ip_address server) (server_port server)
                          (server_username server) 10 None
                          (key_path server))).
  { intros H. unfold session_of. cbn. rewrite H. repeat split. }
  cbv zeta.
  attempt_paths w server attempt;
    repeat split; auto; try lia; try discriminate;
    repeat constructor; auto.
Qed.


(** The footprint of the loop over any list of attempt numbers. *)
Lemma loop_footprint (world : nat -> SshWorld) (server : Server)
      (todo : list nat) :
  let m := shutdown_loop world server todo in
  (attempts (trace m) <= length todo)%nat
  /\ (todo <> [] -> 1 <= attempts (trace m))%nat
  /\ (sessions (trace m) <= attempts (trace m))%nat
  /\ (commands (trace m) <= sessions (trace m))%nat
  /\ (closes (trace m) <= commands (trace m))%nat
  /\ (pauses (trace m) <= attempts (trace m))%nat
  /\ (pauses (trace m) = attempts (trace m) ->
      outcome m = Ok (false, "Max retries exceeded"))
  /\ sleeps (trace m) = repeat 2%Z (pauses (trace m))
  /\ Forall (session_of server) (connect_args (trace m)).
Proof.
  induction todo as [ | attempt rest IH ].
  - cbn. repeat split; try lia; try constructor; try congruence.
  - cbv zeta in *. cbn [shutdown_loop].
    destruct (attempt_footprint (world attempt) server attempt)
      as (A1 & A2 & A3 & A4 & A5 & A6 & A7 & A8).
    destruct (attempt_cases (world attempt) server attempt)
      as [(t0 & E0 & _) | (b & msg & t0 & E0 & _)];
      rewrite E0 in *; unfold trace, outcome in *; cbn [fst snd] in *;
      cbn [bind ret].
    + destruct IH as (I1 & I2 & I3 & I4 & I5 & I6 & I7 & I8 & I9).
      destruct (shutdown_loop world server rest) as [r t1].
      cbn [fst snd length] in *.
      rewrite attempts_app, sessions_app, commands_app, closes_app,
              pauses_app, sleeps_app, connect_args_app, A7, I8.
      rewrite <- repeat_app.
      repeat split; try lia.
      * intros H. apply I7. lia.
      * apply Forall_app. split; assumption.
    + cbn [fst snd length]. rewrite app_nil_r.
      repeat split; try assumption; try lia.
      intros H. assert (P : pauses t0 = 1%nat) by lia.
      specialize (A6 P). discriminate.
Qed.

Lemma server_effort (world : nat -> SshWorld) (server : Server) :
  (1 <= attempts (trace (shutdown_server world server)) <= 3)%nat
  /\ (pauses (trace (shutdown_server world server))
      < attempts (trace (shutdown_server world server)))%nat
  /\ sleeps (trace (shutdown_server world server))
     = repeat 2%Z (pauses (trace (shutdown_server world server)))
  /\ (sessions (trace (shutdown_server world server))
      <= attempts (trace (shutdown_server world server)))%nat
  /\ (commands (trace (shutdown_server world server))
      <= sessions (trace (shutdown_server world server)))%nat
  /\ (closes (trace (shutdown_server world server))
      <= commands (trace (shutdown_server world server)))%nat.
Proof.
  destruct (loop_footprint world server (seq 0 max_retries))
    as (I1 & I2 & I3 & I4 & I5 & I6 & I7 & I8 & _).
  destruct (loop_total world server) as (b & m & t & E & Hm).
  unfold shutdown_server in *. rewrite E in *.
  unfold trace, outcome in *. cbn [fst snd seq max_retries length] in *.
  assert (N : (1 <= attempts t)%nat) by (apply I2; discriminate).
  assert (P : pauses t <> attempts t).
  { intros H. specialize (I7 H). injection I7 as _ M. contradiction. }
  repeat split; try assumption; lia.
Qed.

(** X1: [shutdown_server] makes between one and three attempts; it pauses
    two seconds at a time and strictly fewer times than it makes attempts;
    it opens at most one session per attempt, runs at most one command per
    session and closes only a client whose command was started. *)
Theorem X1_shutdown_server_effort (world : nat -> SshWorld) (server : Server) :
  (1 <= attempts (trace (shutdown_server world server)) <= 3)%nat
  /\ (pauses (trace (shutdown_server world server))
      < attempts (trace (shutdown_server world server)))%nat
  /\ sleeps (trace (shutdown_server world server))
     = repeat 2%Z (pauses (trace (shutdown_server world server)))
  /\ (sessions (trace (shutdown_server world server))
      <= attempts (trace (shutdown_server world server)))%nat
  /\ (commands (trace (shutdown_server world server))
      <= sessions (trace (shutdown_server world server)))%nat
  /\ (closes (trace (shutdown_server world server))
      <= commands (trace (shutdown_server world server)))%nat.
Proof.
  exact (server_effort world server).
Qed.

(** X2: every session [shutdown_server] asks for goes to the address, port
    and user of the record, with a ten-second connect timeout, and carries
    the stored password whenever the password column is filled (the key file
    is then never offered) and the key file otherwise. *)
Theorem X2_sessions_use_the_record (world : nat -> SshWorld) (server : Server) :
  Forall (session_of server)
         (connect_args (trace (shutdown_server world server))).
Proof.
  exact (proj2 (proj2 (proj2 (proj2 (proj2 (proj2 (proj2 (proj2
           (loop_footprint world server (seq 0 max_retries)))))))))).
Qed.


(** A pass that returns success: the session was opened with the resolved
    credentials, the command ran and exited with status 0, the client was
    closed, and the message names the attempt, counting from one. *)
Lemma attempt_success (w : SshWorld) (server : Server) (attempt : nat)
      (msg : string) (t : list Event) :
  try_except (shutdown_attempt w server attempt) (shutdown_except attempt)
  = (Ok (Some (true, msg)), t) ->
  msg = "Shutdown successful (attempt " ++ str_nat (attempt + 1) ++ ")"
  /\ recv_exit_status w = Ok 0%Z
  /\ exists kw,
       resolved_auth w server = Some kw
       /\ t = [NewClient; Connect kw; ExecCommand (shutdown_command server);
               RecvExitStatus; Close].
Proof.
  unfold resolved_auth.
  attempt_paths w server attempt; intros E; try discriminate E;
    injection E as <- <-;
    (split; [ reflexivity | ]);
    match goal with
    | H : (?z =? 0)%Z = true |- _ => apply Z.eqb_eq in H; subst z
    end;
    (split; [ reflexivity | ]);
    eexists; split; reflexivity.
Qed.

(** A pass that returns failure: either no credential was usable, or it was
    the last allowed attempt and the message carries the error output of
    the command or the text of the exception. *)
Lemma attempt_failure (w : SshWorld) (server : Server) (attempt : nat)
      (msg : string) (t : list Event) :
  try_except (shutdown_attempt w server attempt) (shutdown_except attempt)
  = (Ok (Some (false, msg)), t) ->
  (msg = no_auth_message /\ resolved_auth w server = None
   /\ truthy (password_encrypted server) = false)
  \/ (attempt = max_retries - 1
      /\ ((exists err, msg = "Shutdown failed: " ++ err
                       /\ stderr_read w = Ok err)
          \/ (exists e, msg = "Connection failed after 3 attempts: "
                              ++ str e))).
Proof.
  unfold resolved_auth.
  attempt_paths w server attempt; intros E; try discriminate E;
    injection E as <- <-;
    try apply Nat.eqb_eq in Hlast;
    try (left; repeat split; reflexivity);
    right; (split; [ exact Hlast | ]);
    try (left; eexists; split; reflexivity);
    right; eexists; reflexivity.
Qed.

Lemma loop_success (world : nat -> SshWorld) (server : Server)
      (n k : nat) (msg : string) (t : list Event) :
  shutdown_loop world server (seq k n) = (Ok (true, msg), t) ->
  msg = "Shutdown successful (attempt " ++ str_nat (k + attempts t) ++ ")"
  /\ recv_exit_status (world (k + attempts t - 1)%nat) = Ok 0%Z
  /\ exists t' kw,
       resolved_auth (world (k + attempts t - 1)%nat) server = Some kw
       /\ t = (t' ++ [NewClient; Connect kw;
                      ExecCommand (shutdown_command server);
                      RecvExitStatus; Close])%list.
Proof.
  revert k t. induction n as [ | n IH ]; intros k t E;
    [ discriminate E | ].
  cbn [seq shutdown_loop] in E.
  destruct (attempt_footprint (world k) server k) as (A1 & _).
  destruct (attempt_cases (world k) server k)
    as [(t0 & E0 & _) | (b & m & t0 & E0 & _)];
    rewrite E0 in *; unfold trace in A1; cbn [fst snd] in A1;
    cbn [bind ret] in E.
  - destruct (shutdown_loop world server (seq (S k) n)) as [r t1] eqn:E1.
    injection E as -> <-.
    destruct (IH (S k) t1 E1) as (M & R & t' & kw & Hkw & Ht).
    rewrite attempts_app, A1.
    replace (k + (1 + attempts t1))%nat with (S k + attempts t1)%nat by lia.
    split; [ exact M | split; [ exact R | ] ].
    exists (t0 ++ t')%list, kw. split; [ exact Hkw | ].
    rewrite Ht. now rewrite app_assoc.
  - injection E as -> -> <-. rewrite app_nil_r, A1.
    destruct (attempt_success _ _ _ _ _ E0) as (M & R & kw & Hkw & Ht).
    replace (k + 1 - 1)%nat with k by lia.
    split; [ exact M | split; [ exact R | ] ].
    exists [], kw. split; [ exact Hkw | exact Ht ].
Qed.

(** X3: when [shutdown_server] reports success, the message names the
    number of attempts made, the last attempt opened its session with the
    credentials resolved then, its command exited with status 0, and
    closing that client is the last thing done. *)
Theorem X3_success_names_the_last_attempt
        (world : nat -> SshWorld) (server : Server)
        (msg : string) (t : list Event) :
  shutdown_server world server = (Ok (true, msg), t) ->
  msg = "Shutdown successful (attempt " ++ str_nat (attempts t) ++ ")"
  /\ recv_exit_status (world (attempts t - 1)%nat) = Ok 0%Z
  /\ exists t' kw,
       resolved_auth (world (attempts t - 1)%nat) server = Some kw
       /\ t = (t' ++ [NewClient; Connect kw;
                      ExecCommand (shutdown_command server);
                      RecvExitStatus; Close])%list.
Proof.
  intros E. exact (loop_success world server max_retries 0 msg t E).
Qed.

Lemma X3_success_names_the_last_attempt_witness :
  "Shutdown successful (attempt 2)"
  = "Shutdown successful (attempt " ++ str_nat 2 ++ ")"
  /\ recv_exit_status (refusing_once 1) = Ok 0%Z.
Proof.
  destruct (X3_success_names_the_last_attempt
              refusing_once nas "Shutdown successful (attempt 2)"
              [NewClient; Connect nas_kwargs;
               ExecCommand "sudo shutdown -h now"; RecvExitStatus; Close;
               ReadStderr;
               NewClient; Connect nas_kwargs;
               ExecCommand "sudo shutdown -h now"; RecvExitStatus; Close]
              eq_refl) as (M & R & _).
  split; [ exact M | exact R ].
Defined.

Lemma loop_failure (world : nat -> SshWorld) (server : Server)
      (n k : nat) (msg : string) (t : list Event) :
  shutdown_loop world server (seq k n) = (Ok (false, msg), t) ->
  (msg = no_auth_message
   /\ resolved_auth (world (k + attempts t - 1)%nat) server = None
   /\ truthy (password_encrypted server) = false)
  \/ ((k + attempts t)%nat = max_retries
      /\ ((exists err, msg = "Shutdown failed: " ++ err
                       /\ stderr_read (world (max_retries - 1)%nat) = Ok err)
          \/ (exists e, msg = "Connection failed after 3 attempts: "
                              ++ str e)))
  \/ msg = "Max retries exceeded".
Proof.
  revert k t. induction n as [ | n IH ]; intros k t E.
  - cbn in E. injection E as <- <-. right. right. reflexivity.
  - cbn [seq shutdown_loop] in E.
    destruct (attempt_footprint (world k) server k) as (A1 & _).
    destruct (attempt_cases (world k) server k)
      as [(t0 & E0 & _) | (b & m & t0 & E0 & _)];
      rewrite E0 in *; unfold trace in A1; cbn [fst snd] in A1;
      cbn [bind ret] in E.
    + destruct (shutdown_loop world server (seq (S k) n)) as [r t1] eqn:E1.
      injection E as -> <-.
      rewrite attempts_app, A1.
      replace (k + (1 + attempts t1))%nat with (S k + attempts t1)%nat
        by lia.
      exact (IH (S k) t1 E1).
    + injection E as -> -> <-. rewrite app_nil_r, A1.
      replace (k + 1 - 1)%nat with k by lia.
      destruct (attempt_failure _ _ _ _ _ E0)
        as [H | (Hk & H)]; [ left; exact H | right; left ].
      unfold max_retries in *. split; [ lia | ]. rewrite <- Hk. exact H.
Qed.

(** X4: when [shutdown_server] reports a failure, either no credential was
    usable at the attempt that returned, or all three attempts were made
    and the message carries the third attempt's error: the error output of
    its command, or the text of the exception it raised. *)
Theorem X4_failure_is_final_after_three_attempts
        (world : nat -> SshWorld) (server : Server)
        (msg : string) (t : list Event) :
  shutdown_server world server = (Ok (false, msg), t) ->
  (msg = no_auth_message
   /\ resolved_auth (world (attempts t - 1)%nat) server = None
   /\ truthy (password_encrypted server) = false)
  \/ (attempts t = 3%nat
      /\ ((exists err, msg = "Shutdown failed: " ++ err
                       /\ stderr_read (world 2%nat) = Ok err)
          \/ (exists e, msg = "Connection failed after 3 attempts: "
                              ++ str e))).
Proof.
  intros E.
  destruct (loop_total world server) as (b & m & t' & E' & Hm).
  rewrite E in E'. injection E' as <- <- <-.
  destruct (loop_failure world server max_retries 0 msg t E)
    as [H | [H | H]]; [ left; exact H | right; exact H | contradiction ].
Qed.

Lemma X4_failure_is_final_after_three_attempts_witness :
  attempts (trace (shutdown_server (fun _ => unreachable) nas)) = 3%nat.
Proof.
  destruct (X4_failure_is_final_after_three_attempts
              (fun _ => unreachable) nas
              "Connection failed after 3 attempts: Unable to connect to port 22"
              (trace (shutdown_server (fun _ => unreachable) nas))
              eq_refl) as [(H & _) | (H & _)];
    [ discriminate H | exact H ].
Defined.


(** X5: a host that refuses the session on each of the three attempts is
    given up with the text of the third refusal, after exactly two pauses of
    two seconds, and no command is ever sent to it. *)
Theorem X5_unreachable_host_given_up
        (world : nat -> SshWorld) (server : Server)
        (kw : nat -> AuthKwargs) (e : nat -> Exn) :
  (forall i, (i < 3)%nat ->
             resolved_auth (world i) server = Some (kw i)
             /\ client_connect (world i) (kw i) = Raise (e i)) ->
  shutdown_server world server
  = (Ok (false, "Connection failed after 3 attempts: " ++ str (e 2%nat)),
     [NewClient; Connect (kw 0%nat); Sleep 2;
      NewClient; Connect (kw 1%nat); Sleep 2;
      NewClient; Connect (kw 2%nat)]).
Proof.
  intros H.
  assert (A : forall i, (i < 3)%nat ->
                shutdown_attempt (world i) server i
                = (Raise (e i), [NewClient; Connect (kw i)])).
  { intros i Hi. destruct (H i Hi) as (R & C).
    unfold resolved_auth in R.
    unfold shutdown_attempt, bind, emit, call, lift, ret.
    destruct (truthy (password_encrypted server)).
    - destruct (crypto_decrypt (world i) (text (password_encrypted server)));
        [ | discriminate R ].
      injection R as R. cbn. rewrite R, C. reflexivity.
    - destruct (key_usable (world i) server); [ | discriminate R ].
      injection R as R. cbn. rewrite R, C. reflexivity. }
  unfold shutdown_server. cbn [seq max_retries shutdown_loop].
  rewrite (A 0%nat), (A 1%nat), (A 2%nat) by lia. reflexivity.
Qed.

Lemma X5_unreachable_host_given_up_witness :
  shutdown_server (fun _ => unreachable) nas
  = (Ok (false,
         "Connection failed after 3 attempts: Unable to connect to port 22"),
     [NewClient; Connect nas_kwargs; Sleep 2;
      NewClient; Connect nas_kwargs; Sleep 2;
      NewClient; Connect nas_kwargs]).
Proof.
  apply (X5_unreachable_host_given_up
           (fun _ => unreachable) nas (fun _ => nas_kwargs)
           (fun _ => Exception "NoValidConnectionsError"
                               "Unable to connect to port 22")).
  intros i _. split; reflexivity.
Defined.

(** X6: a stored password that cannot be decrypted is never replaced by the
    key file: each of the three attempts stops at the decryption, no session
    is asked for even when a usable key file is on record, and the target is
    given up with the text of the third decryption error. *)
Theorem X6_undecryptable_password_no_fallback
        (world : nat -> SshWorld) (server : Server) (e : nat -> Exn) :
  truthy (password_encrypted server) = true ->
  (forall i, (i < 3)%nat ->
             crypto_decrypt (world i) (text (password_encrypted server))
             = Raise (e i)) ->
  shutdown_server world server
  = (Ok (false, "Connection failed after 3 attempts: " ++ str (e 2%nat)),
     [NewClient; Sleep 2; NewClient; Sleep 2; NewClient])
  /\ sessions (trace (shutdown_server world server)) = 0%nat.
Proof.
  intros Hpw H.
  assert (A : forall i, (i < 3)%nat ->
                shutdown_attempt (world i) server i
                = (Raise (e i), [NewClient])).
  { intros i Hi.
    unfold shutdown_attempt, bind, emit, call, lift, ret.
    rewrite Hpw, (H i Hi). reflexivity. }
  assert (E : shutdown_server world server
              = (Ok (false,
                     "Connection failed after 3 attempts: " ++ str (e 2%nat)),
                 [NewClient; Sleep 2; NewClient; Sleep 2; NewClient])).
  { unfold shutdown_server. cbn [seq max_retries shutdown_loop].
    rewrite (A 0%nat), (A 1%nat), (A 2%nat) by lia. reflexivity. }
  rewrite E. split; reflexivity.
Qed.

Lemma X6_undecryptable_password_no_fallback_witness :
  key_usable keyless_controller both_credentials = true
  /\ sessions (trace (shutdown_server (fun _ => keyless_controller)
                                      both_credentials)) = 0%nat.
Proof.
  split; [ reflexivity | ].
  apply (X6_undecryptable_password_no_fallback
           (fun _ => keyless_controller) both_credentials
           (fun _ => Exception "InvalidToken" "")).
  - reflexivity.
  - intros i _. reflexivity.
Defined.

(** X7: [test_connection] never raises, and it answers True exactly when
    the credentials resolve, the session opens and the client closes
    without error; an error while closing an opened session is reported as
    a failed connection. *)
Theorem X7_test_connection_verdict (w : SshWorld) (server : Server) :
  exists success message,
    outcome (test_connection w server) = Ok (success, message)
    /\ (success = true <->
        exists kw, resolved_auth w server = Some kw
                   /\ client_connect w kw = Ok tt
                   /\ client_close w = Ok tt)
    /\ (success = true -> message = "Connection successful")
    /\ (closes (trace (test_connection w server))
        <= sessions (trace (test_connection w server)) <= 1)%nat.
Proof.
  unfold resolved_auth, test_connection, test_connection_body, try_except,
         bind, emit, call, lift, ret, outcome, trace.
  destruct (truthy (password_encrypted server));
    try destruct (crypto_decrypt w (text (password_encrypted server)))
      as [pw | e];
    try destruct (key_usable w server);
    cbn;
    try (destruct (client_connect w _) as [[] | e'] eqn:C; cbn);
    try (destruct (client_close w) as [[] | e''] eqn:D; cbn);
    do 2 eexists; (split; [ reflexivity | ]);
    repeat match goal with
           | |- _ /\ _ => split
           | |- _ <-> _ => split
           end;
    try lia;
    try (intros H; discriminate H);
    try (intros _; reflexivity);
    try (intros _; eexists;
         split; [ reflexivity | split; first [ assumption | reflexivity ] ]);
    intros (kw & K & F1 & F2);
    first [ discriminate K | injection K as <-; congruence ].
Qed.

End RetryFacts.

Section SweepFacts.

Import SSHManager ServerBot.





Lemma sweep_one_effort (w : BotWorld) (i : nat) (server : Server) :
  (1 <= attempts (trace (sweep_one w i server)) <= 3)%nat
  /\ (pauses (trace (sweep_one w i server)) <= 2)%nat
  /\ sleeps (trace (sweep_one w i server))
     = repeat 2%Z (pauses (trace (sweep_one w i server)))
  /\ (sessions (trace (sweep_one w i server))
      <= attempts (trace (sweep_one w i server)))%nat.
Proof.
  destruct (server_effort (ssh w i) server)
    as (A & P & Sl & C & _).
  destruct (loop_total (ssh w i) server) as (b & m & t0 & E & _).
  unfold sweep_one, log_event, bind, emit, ret, trace in *.
  rewrite E in *. cbn [fst snd] in *.
  rewrite attempts_app, pauses_app, sleeps_app, sessions_app. cbn.
  rewrite !Nat.add_0_r, app_nil_r. repeat split; try lia; assumption.
Qed.

(** X10: a sweep over N targets makes at least N and at most 3N attempts,
    opens at most one session per attempt, and pauses at most 2N times, two
    seconds each time. *)
Theorem X10_sweep_effort (w : BotWorld) (servers : list Server) (i : nat) :
  (length servers <= attempts (trace (sweep w i servers))
   <= 3 * length servers)%nat
  /\ (pauses (trace (sweep w i servers)) <= 2 * length servers)%nat
  /\ sleeps (trace (sweep w i servers))
     = repeat 2%Z (pauses (trace (sweep w i servers)))
  /\ (sessions (trace (sweep w i servers))
      <= attempts (trace (sweep w i servers)))%nat.
Proof.
  revert i. induction servers as [ | server rest IH ]; intros i.
  - cbn. repeat split; lia.
  - destruct (sweep_one_effort w i server) as (A & P & Sl & C).
    destruct (sweep_one_total w i server) as (b & m & t0 & t1 & _ & E1 & _).
    destruct (IH (S i)) as (A' & P' & Sl' & C').
    destruct (sweep_total rest w (S i)) as (rs & t2 & E2 & _).
    cbn [sweep]. unfold bind at 1. rewrite E1 in *.
    unfold bind, ret. rewrite E2 in *. unfold trace in *.
    cbn [fst snd length] in *.
    rewrite !attempts_app, !pauses_app, !sleeps_app, !sessions_app, Sl, Sl'.
    cbn. rewrite !Nat.add_0_r, app_nil_r, <- repeat_app.
    repeat split; lia.
Qed.



End SweepFacts.

Section LoopFacts.

Import PowerMonitor.

(** A pass whose hand-off is accepted: the held state becomes the reading,
    one event is handed off exactly when the two differ, a detected loss is
    timed by the clock of the pass, and the loop sleeps two seconds. *)
Lemma pass_delivered (self : PowerMonitor) (it : Iteration) :
  delivers it = true ->
  is_charging (fst (monitor_pass self it)) = reading it
  /\ is_monitoring (fst (monitor_pass self it)) = is_monitoring self
  /\ power_events (trace (snd (monitor_pass self it)))
     = (if Bool.eqb (is_charging self) (reading it) then []
        else [next_kind (is_charging self)])
  /\ last_power_loss_time (fst (monitor_pass self it))
     = (if is_charging self && negb (reading it) then Some (now it)
        else last_power_loss_time self)
  /\ sleeps (trace (snd (monitor_pass self it))) = [2%Z].
Proof.
  unfold delivers, reading, monitor_pass, monitor_try.
  destruct (charging_status_cases (source it))
    as [(b & _ & E) | (e & _ & E)]; rewrite E;
    destruct self as [mon [ | ] lost_at];
    try destruct b;
    destruct (run_coroutine_threadsafe it) as [[] | e'];
    cbn; intros H; try discriminate H; repeat split.
Qed.

(** A pass that finds the power gone and whose hand-off raises: nothing is
    handed off, the held state stays OnPower, the loss time is overwritten
    all the same, the error is logged and the loop sleeps five seconds. *)
Lemma pass_undelivered_loss (self : PowerMonitor) (it : Iteration) :
  is_charging self = true ->
  reading it = false ->
  delivers it = false ->
  is_charging (fst (monitor_pass self it)) = true
  /\ is_monitoring (fst (monitor_pass self it)) = is_monitoring self
  /\ last_power_loss_time (fst (monitor_pass self it)) = Some (now it)
  /\ power_events (trace (snd (monitor_pass self it))) = []
  /\ sleeps (trace (snd (monitor_pass self it))) = [5%Z]
  /\ filter is_start_cycle (trace (snd (monitor_pass self it))) = [].
Proof.
  unfold delivers, reading, monitor_pass, monitor_try.
  destruct (charging_status_cases (source it))
    as [(b & _ & E) | (e & _ & E)]; rewrite E;
    destruct self as [mon [ | ] lost_at];
    try destruct b;
    destruct (run_coroutine_threadsafe it) as [[] | e'];
    cbn; intros H1 H2 H3; try discriminate; repeat split.
Qed.

Lemma last_any_default {A} (a d d' : A) (l : list A) :
  last (a :: l) d = last (a :: l) d'.
Proof.
  revert a. induction l as [ | b l IH ]; intros a; [ reflexivity | ].
  change (last (b :: l) d = last (b :: l) d'). apply IH.
Qed.

Lemma last_cons_default {A} (a d : A) (l : list A) :
  last (a :: l) d = last l a.
Proof.
  destruct l as [ | b l ]; [ reflexivity | ].
  change (last (b :: l) d = last (b :: l) a). apply last_any_default.
Qed.

(** X12: when every hand-off is accepted and monitoring is not stopped,
    the events the loop hands off are exactly the transitions of the
    reading sequence seen from the held state, one per change and in order:
    no change is dropped or merged, and a single deviating reading is
    enough for an event. *)
Theorem X12_every_change_is_handed_off
        (self : PowerMonitor) (its : list Iteration) :
  is_monitoring self = true ->
  forallb keeps_running its = true ->
  forallb delivers its = true ->
  power_events (snd (_monitor_power self its))
  = changes (is_charging self) (map reading its)
  /\ is_charging (fst (_monitor_power self its))
     = last (map reading its) (is_charging self)
  /\ sleeps (snd (_monitor_power self its)) = repeat 2%Z (length its).
Proof.
  revert self. induction its as [ | it rest IH ]; intros self Hm Hk Hd.
  - repeat split.
  - cbn [forallb] in Hk, Hd.
    apply andb_prop in Hk. destruct Hk as [Hit Hk].
    apply andb_prop in Hd. destruct Hd as [Hdit Hd].
    unfold keeps_running in Hit. apply negb_true_iff in Hit.
    cbn [_monitor_power]. rewrite Hit, Hm.
    destruct (pass_delivered self it Hdit) as (C & M & P & _ & S).
    destruct (monitor_pass self it) as [self1 m]. cbn [fst snd] in *.
    rewrite Hm in M.
    destruct (IH self1 M Hk Hd) as (I1 & I2 & I3).
    destruct (_monitor_power self1 rest) as [self2 t].
    cbn [fst snd map changes length repeat] in *.
    rewrite power_events_app, sleeps_app, P, S, I1, I2, I3, C.
    rewrite last_cons_default. repeat split.
Qed.

Lemma X12_every_change_is_handed_off_witness :
  power_events (snd (_monitor_power on_mains_monitoring late_start_passes))
  = [Lost; Restored; Lost].
Proof.
  exact (proj1 (X12_every_change_is_handed_off
                  on_mains_monitoring late_start_passes
                  eq_refl eq_refl eq_refl)).
Defined.

(** X13: a loss whose hand-off raises is not forgotten.  While the passes
    keep finding the power gone and the hand-off keeps raising, the held
    state stays OnPower and the loop backs off five seconds each time; the
    first pass whose hand-off is accepted hands off the one Lost event,
    starts the reminder cycle, and the loss time on record is the clock of
    that pass, not of the first detection. *)
Theorem X13_undelivered_loss_is_retried
        (self : PowerMonitor) (failed : list Iteration) (it : Iteration) :
  is_monitoring self = true ->
  is_charging self = true ->
  forallb loses_undelivered failed = true ->
  stop_requested it = false ->
  reading it = false ->
  delivers it = true ->
  power_events (snd (_monitor_power self (failed ++ [it]))) = [Lost]
  /\ sleeps (snd (_monitor_power self (failed ++ [it])))
     = (repeat 5%Z (length failed) ++ [2%Z])%list
  /\ length (filter is_start_cycle
               (snd (_monitor_power self (failed ++ [it])))) = 1%nat
  /\ is_charging (fst (_monitor_power self (failed ++ [it]))) = false
  /\ last_power_loss_time (fst (_monitor_power self (failed ++ [it])))
     = Some (now it).
Proof.
  revert self. induction failed as [ | f rest IH ];
    intros self Hm Hc Hf Hs Hr Hd.
  - change (([] ++ [it])%list) with [it]. cbn [_monitor_power].
    rewrite Hs, Hm.
    destruct (pass_delivered self it Hd) as (C & M & P & L & S).
    unfold monitor_pass, monitor_try in *. unfold reading, delivers in *.
    destruct (charging_status_cases (source it))
      as [(b & _ & E) | (e & _ & E)]; rewrite E in *; cbn in Hr; subst;
      [ | discriminate ].
    destruct self as [mon chg lost_at]. cbn in Hm, Hc. subst.
    destruct (run_coroutine_threadsafe it) as [[] | e']; [ | discriminate ].
    cbn. repeat split.
  - cbn [forallb] in Hf. apply andb_prop in Hf. destruct Hf as [Hf0 Hf].
    unfold loses_undelivered in Hf0.
    apply andb_prop in Hf0. destruct Hf0 as [Hf0 Hf2].
    apply andb_prop in Hf0. destruct Hf0 as [Hf0 Hf1].
    apply negb_true_iff in Hf0, Hf1, Hf2.
    change (((f :: rest) ++ [it])%list) with (f :: (rest ++ [it]))%list.
    cbn [_monitor_power]. rewrite Hf0, Hm.
    destruct (pass_undelivered_loss self f Hc Hf1 Hf2)
      as (C & M & _ & P & S & F).
    destruct (monitor_pass self f) as [self1 m]. cbn [fst snd] in *.
    rewrite Hm in M.
    destruct (IH self1 M C Hf Hs Hr Hd) as (I1 & I2 & I3 & I4 & I5).
    destruct (_monitor_power self1 (rest ++ [it])) as [self2 t].
    cbn [fst snd length repeat] in *.
    rewrite power_events_app, sleeps_app, filter_app, length_app,
            P, S, F, I1, I2, I3.
    repeat split; assumption.
Qed.

Lemma X13_undelivered_loss_is_retried_witness :
  power_events (snd (_monitor_power on_mains_monitoring
                                    orphaned_then_delivered)) = [Lost]
  /\ last_power_loss_time
       (fst (_monitor_power on_mains_monitoring orphaned_then_delivered))
     = Some 10%Z.
Proof.
  destruct (X13_undelivered_loss_is_retried
              on_mains_monitoring
              [mkIteration false on_battery 0 (Raise loop_closed);
               mkIteration false on_battery 5 (Raise loop_closed)]
              (mkIteration false on_battery 10 (Ok tt))
              eq_refl eq_refl eq_refl eq_refl eq_refl eq_refl)
    as (H1 & _ & _ & _ & H5).
  split; [ exact H1 | exact H5 ].
Defined.

(** X14: a request to stop ends the loop at its next test: the passes up
    to the request are made as without it, the passes after it are not
    made, and only the monitoring flag changes. *)
Theorem X14_stop_ends_the_loop
        (self : PowerMonitor) (before after : list Iteration)
        (it : Iteration) :
  is_monitoring self = true ->
  forallb keeps_running before = true ->
  stop_requested it = true ->
  _monitor_power self (before ++ it :: after)
  = (with_monitoring (fst (_monitor_power self before)) false,
     snd (_monitor_power self before)).
Proof.
  revert self. induction before as [ | b rest IH ]; intros self Hm Hk Hs.
  - change (([] ++ it :: after)%list) with (it :: after).
    cbn [_monitor_power]. rewrite Hs. reflexivity.
  - cbn [forallb] in Hk. apply andb_prop in Hk. destruct Hk as [Hb Hk].
    unfold keeps_running in Hb. apply negb_true_iff in Hb.
    change (((b :: rest) ++ it :: after)%list)
      with (b :: (rest ++ it :: after))%list.
    cbn [_monitor_power]. rewrite Hb, Hm.
    destruct (pass_step self b) as (M & _).
    destruct (monitor_pass self b) as [self1 m]. cbn [fst snd] in *.
    rewrite Hm in M. rewrite (IH self1 M Hk Hs).
    destruct (_monitor_power self1 rest) as [self2 t]. reflexivity.
Qed.

Lemma X14_stop_ends_the_loop_witness :
  _monitor_power on_mains_monitoring
    ([orphaned_pass] ++ mkIteration true on_battery 5 (Ok tt)
                     :: late_start_passes)
  = (with_monitoring (fst (_monitor_power on_mains_monitoring
                                          [orphaned_pass])) false,
     snd (_monitor_power on_mains_monitoring [orphaned_pass])).
Proof.
  exact (X14_stop_ends_the_loop
           on_mains_monitoring [orphaned_pass]
           late_start_passes (mkIteration true on_battery 5 (Ok tt))
           eq_refl eq_refl eq_refl).
Defined.

End LoopFacts.

Section SamplerFacts.

Import PowerMonitor.

Lemma append_empty_r (s : string) : s ++ "" = s.
Proof.
  induction s as [ | c s IH ]; [ reflexivity | ]. cbn. now rewrite IH.
Qed.

Lemma lstrip_blank_app (pad s : string) :
  blank pad = true -> lstrip (pad ++ s) = lstrip s.
Proof.
  induction pad as [ | c pad IH ]; intros H; [ reflexivity | ].
  unfold blank in H. cbn in H. apply andb_prop in H. destruct H as [Hc H].
  cbn. rewrite Hc. apply IH. exact H.
Qed.

Lemma rstrip_blank (pad : string) : blank pad = true -> rstrip pad = "".
Proof.
  induction pad as [ | c pad IH ]; intros H; [ reflexivity | ].
  unfold blank in H. cbn in H. apply andb_prop in H. destruct H as [Hc H].
  cbn. rewrite (IH H), Hc. reflexivity.
Qed.

Lemma rstrip_app_blank (s pad : string) :
  blank pad = true -> rstrip (s ++ pad) = rstrip s.
Proof.
  intros H. induction s as [ | c s IH ].
  - cbn. now apply rstrip_blank.
  - cbn. rewrite IH. reflexivity.
Qed.

Lemma lstrip_app_blank (s pad : string) :
  blank pad = true ->
  lstrip (s ++ pad)
  = match lstrip s with
    | EmptyString => EmptyString
    | String c r => (String c r ++ pad)
    end.
Proof.
  intros H. induction s as [ | c s IH ].
  - cbn. rewrite <- (append_empty_r pad) at 1.
    rewrite (lstrip_blank_app pad "" H). reflexivity.
  - cbn. destruct (is_space c); [ exact IH | reflexivity ].
Qed.

Lemma strip_padding (pad1 content pad2 : string) :
  blank pad1 = true -> blank pad2 = true ->
  strip (pad1 ++ content ++ pad2) = strip content.
Proof.
  intros H1 H2. unfold strip.
  rewrite (lstrip_blank_app pad1 _ H1), (lstrip_app_blank content pad2 H2).
  destruct (lstrip content) as [ | c r ]; [ reflexivity | ].
  apply rstrip_app_blank. exact H2.
Qed.

(** X15: what the sampler makes of a Termux answer (return code 0) that is
    not the expected object.  An object without the [plugged] member is
    read as OnBattery, silently; a member that is not the string
    UNPLUGGED, whatever its type, is read as OnPower; JSON that is not an
    object is read as OnPower and logged as an error. *)
Theorem X15_incomplete_termux_answer
        (src : PowerSource) (stdout : string) (battery_info : Json) :
  subprocess_run src = Ok (0%Z, stdout) ->
  json_loads src stdout = Ok battery_info ->
  match battery_info with
  | JObject members =>
      match dict_lookup "plugged" members with
      | None => _get_charging_status src = (false, [])
      | Some (JString s) =>
          _get_charging_status src = (negb (s =? "UNPLUGGED"), [])
      | Some _ => _get_charging_status src = (true, [])
      end
  | _ =>
      exists e,
        _get_charging_status src
        = (true, [LoggerError ("Error getting charging status: " ++ str e)])
  end.
Proof.
  intros Hrun Hjson.
  unfold _get_charging_status, charging_status_try, bind, lift, ret.
  rewrite Hrun. cbn. rewrite Hjson.
  destruct battery_info as [ | b | n | s | items | members ];
    try (eexists; reflexivity).
  cbn. destruct (dict_lookup "plugged" members) as [[ | | | | | ] | ];
    reflexivity.
Qed.

Lemma X15_incomplete_termux_answer_witness :
  _get_charging_status termux_without_plugged = (false, []).
Proof.
  exact (X15_incomplete_termux_answer
           termux_without_plugged "{percentage: 80}"
           (JObject [("percentage", JNumber 80)]) eq_refl eq_refl).
Defined.

(** X16: when the Termux call returns a code other than 0, the reading
    comes from the sysfs status file: it is OnPower exactly when the
    content, leading and trailing whitespace aside, is the word Charging.
    Any other status of a plugged-in battery (Full, Not charging) is read
    as OnBattery. *)
Theorem X16_status_file_reading
        (src : PowerSource) (returncode : Z) (stdout : string)
        (pad1 status pad2 : string) :
  subprocess_run src = Ok (returncode, stdout) ->
  returncode <> 0%Z ->
  sysfs_read src = Ok (pad1 ++ status ++ pad2) ->
  blank pad1 = true ->
  blank pad2 = true ->
  _get_charging_status src = ((strip status =? "Charging"), []).
Proof.
  intros Hrun Hrc Hread H1 H2.
  unfold _get_charging_status, charging_status_try, bind, lift, ret.
  rewrite Hrun. cbn. apply Z.eqb_neq in Hrc. rewrite Hrc, Hread.
  rewrite (strip_padding pad1 status pad2 H1 H2). reflexivity.
Qed.

Lemma X16_status_file_reading_witness :
  _get_charging_status full_battery = (false, []).
Proof.
  apply (X16_status_file_reading full_battery 1 "" "" "Full" newline);
    first [ reflexivity | discriminate ].
Defined.

End SamplerFacts.

Section DatabaseFacts.

Import DatabaseManager.

Lemma existsb_has_name (n : string) (rows : list ServerRow) :
  existsb (has_name n) rows = true <-> In n (map row_name rows).
Proof.
  rewrite existsb_exists, in_map_iff. unfold has_name.
  split; intros (r & H1 & H2).
  - exists r. apply String.eqb_eq in H2. now split.
  - exists r. split; [ exact H2 | now apply String.eqb_eq ].
Qed.

(** What [add_server] answers, and what it leaves in the table. *)
Lemma add_server_cases (w : DbWorld) (db : Database)
      (n ip : string) (port : Z) (user : string)
      (secret keyfile : option string) (command : string) :
  let r := add_server w db n ip port user secret keyfile command in
  (fst (fst r) = true
   /\ ~ In n (map row_name (servers db))
   /\ sqlite_connect w = Ok tt
   /\ exists stored,
        (if truthy secret
         then exists c, crypto_encrypt w (text secret) = Ok c
                        /\ stored = Some c
         else stored = None)
        /\ snd r
           = mkDatabase
               (servers db
                ++ [mkRow (sqlite_sequence db + 1)
                          (mkServer n ip port user stored keyfile command)
                          (current_timestamp w) (current_timestamp w)])
               (sqlite_sequence db + 1))
  \/ (fst (fst r) = false
      /\ snd r = db
      /\ (In n (map row_name (servers db))
          \/ (exists e, sqlite_connect w = Raise e)
          \/ (truthy secret = true
              /\ exists e, crypto_encrypt w (text secret) = Raise e))).
Proof.
  cbv zeta. unfold add_server, add_server_try, insert_server.
  destruct (sqlite_connect w) as [[] | e] eqn:C.
  - destruct (truthy secret) eqn:T.
    + destruct (crypto_encrypt w (text secret)) as [c | e] eqn:E.
      * cbn [name]. destruct (existsb (has_name n) (servers db)) eqn:X.
        -- right. cbn. apply existsb_has_name in X. auto.
        -- left. cbn. repeat split.
           ++ intros H. apply existsb_has_name in H. congruence.
           ++ exists (Some c). split; [ now exists c | reflexivity ].
      * right. destruct (class_of e =? "IntegrityError"); cbn;
          repeat split; right; right; split; eauto.
    + cbn [name]. destruct (existsb (has_name n) (servers db)) eqn:X.
      * right. cbn. apply existsb_has_name in X. auto.
      * left. cbn. repeat split.
        -- intros H. apply existsb_has_name in H. congruence.
        -- exists None. split; reflexivity.
  - right. destruct (class_of e =? "IntegrityError"); cbn;
      repeat split; right; left; eauto.
Qed.

(** X17: [add_server] answers True exactly when the database opens, the
    password, if one is given, encrypts, and no row bears the name yet.
    Then one row is appended, with the password column filled only for a
    non-empty password; otherwise the table is left as it was. *)
Theorem X17_add_server_verdict
        (w : DbWorld) (db : Database)
        (n ip : string) (port : Z) (user : string)
        (secret keyfile : option string) (command : string) :
  (fst (fst (add_server w db n ip port user secret keyfile command))
   = true
   <-> (sqlite_connect w = Ok tt
        /\ ~ In n (map row_name (servers db))
        /\ (truthy secret = true ->
            exists c, crypto_encrypt w (text secret) = Ok c)))
  /\ (fst (fst (add_server w db n ip port user secret keyfile command))
      = false ->
      snd (add_server w db n ip port user secret keyfile command) = db)
  /\ (fst (fst (add_server w db n ip port user secret keyfile command))
      = true ->
      exists row,
        servers (snd (add_server w db n ip port user secret keyfile
                                 command))
        = (servers db ++ [row])%list
        /\ row_name row = n
        /\ ip_address (row_server row) = ip
        /\ server_port (row_server row) = port
        /\ server_username (row_server row) = user
        /\ key_path (row_server row) = keyfile
        /\ shutdown_command (row_server row) = command
        /\ (truthy secret = false ->
            password_encrypted (row_server row) = None)
        /\ (truthy secret = true ->
            Ok (text (password_encrypted (row_server row)))
            = crypto_encrypt w (text secret))).
Proof.
  destruct (add_server_cases w db n ip port user secret keyfile command)
    as [(V & Hn & Hc & stored & Hs & Hdb) | (V & Hdb & Hwhy)];
    rewrite V, ?Hdb.
  - split; [ | split ]; [ | discriminate | ].
    + split; [ | reflexivity ]. intros _.
      split; [ exact Hc | split; [ exact Hn | ] ].
      intros T. rewrite T in Hs. destruct Hs as (c & E & _). now exists c.
    + intros _. eexists. split; [ reflexivity | ].
      cbn. repeat split.
      * intros T. rewrite T in Hs. now subst.
      * intros T. rewrite T in Hs. destruct Hs as (c & E & ->). now cbn.
  - split; [ | split ]; [ | reflexivity | discriminate ].
    split; [ discriminate | ].
    intros (Hc & Hn & Henc).
    destruct Hwhy as [H | [(e & H) | (T & e & H)]].
    + contradiction.
    + congruence.
    + destruct (Henc T) as (c & E). congruence.
Qed.

Lemma X17_add_server_verdict_witness :
  snd (add_server disk_ok
         (snd (add_server disk_ok empty_database "nas" "192.168.1.20" 22
                          "admin" (Some "secret") None
                          "sudo shutdown -h now"))
         "nas" "10.0.0.1" 22 "root" None None "poweroff")
  = snd (add_server disk_ok empty_database "nas" "192.168.1.20" 22 "admin"
                    (Some "secret") None "sudo shutdown -h now").
Proof.
  exact (proj1 (proj2 (X17_add_server_verdict
                         disk_ok
                         (snd (add_server disk_ok empty_database "nas"
                                          "192.168.1.20" 22 "admin"
                                          (Some "secret") None
                                          "sudo shutdown -h now"))
                         "nas" "10.0.0.1" 22 "root" None None "poweroff"))
               eq_refl).
Defined.

Lemma filter_other_names (n : string) (rows : list ServerRow) :
  ~ In n (map row_name rows) ->
  filter (fun r => negb (has_name n r)) rows = rows.
Proof.
  induction rows as [ | r rows IH ]; intros H; [ reflexivity | ].
  cbn in *. destruct (has_name n r) eqn:E.
  - unfold has_name in E. apply String.eqb_eq in E. tauto.
  - cbn. f_equal. apply IH. tauto.
Qed.




Lemma NoDup_filter_names (f : ServerRow -> bool) (rows : list ServerRow) :
  NoDup (map row_name rows) -> NoDup (map row_name (filter f rows)).
Proof.
  induction rows as [ | r rows IH ]; intros H; [ constructor | ].
  cbn in *. inversion H as [ | x l Hx Hl ]; subst.
  destruct (f r); [ | now apply IH ].
  cbn. constructor; [ | now apply IH ].
  intros Hin. apply Hx. apply in_map_iff in Hin.
  destruct Hin as (r' & E & Hf). apply filter_In in Hf.
  apply in_map_iff. exists r'. tauto.
Qed.

Lemma NoDup_snoc {A} (l : list A) (x : A) :
  NoDup l -> ~ In x l -> NoDup (l ++ [x]).
Proof.
  induction l as [ | a l IH ]; intros H Hx.
  - constructor; [ intros [] | constructor ].
  - inversion H as [ | y l' Ha Hl ]; subst. cbn. constructor.
    + rewrite in_app_iff. cbn. intros [ Hin | [ -> | [] ] ];
        [ contradiction | apply Hx; now left ].
    + apply IH; [ exact Hl | intros Hin; apply Hx; now right ].
Qed.

(** X19: no two rows ever bear the same name: [add_server] and
    [remove_server] keep the names of the table distinct, whatever they
    are given and whatever the outside does. *)
Theorem X19_names_stay_unique
        (w : DbWorld) (db : Database)
        (n ip : string) (port : Z) (user : string)
        (secret keyfile : option string) (command : string) :
  unique_names db ->
  unique_names (snd (add_server w db n ip port user secret keyfile
                                command))
  /\ unique_names (snd (remove_server w db n)).
Proof.
  intros U. split.
  - destruct (add_server_cases w db n ip port user secret keyfile command)
      as [(_ & Hn & _ & stored & _ & Hdb) | (_ & Hdb & _)]; rewrite Hdb;
      [ | exact U ].
    unfold unique_names in *. cbn. rewrite map_app. cbn.
    apply NoDup_snoc; assumption.
  - unfold remove_server, unique_names in *.
    destruct (sqlite_connect w) as [[] | e]; cbn; [ | exact U ].
    now apply NoDup_filter_names.
Qed.

Lemma X19_names_stay_unique_witness :
  unique_names (snd (add_server disk_ok empty_database "nas" "192.168.1.20"
                                22 "admin" (Some "secret") None
                                "sudo shutdown -h now")).
Proof.
  apply (X19_names_stay_unique disk_ok empty_database "nas" "192.168.1.20"
                               22 "admin" (Some "secret") None
                               "sudo shutdown -h now").
  constructor.
Defined.

(** X20: removing a server that was just added under a name no row bore
    gives back the rows there were, in their order; only the counter of
    row identifiers has moved on. *)
Theorem X20_add_then_remove
        (w w' : DbWorld) (db : Database)
        (n ip : string) (port : Z) (user : string)
        (secret keyfile : option string) (command : string) :
  fst (fst (add_server w db n ip port user secret keyfile command))
  = true ->
  sqlite_connect w' = Ok tt ->
  fst (fst (remove_server w'
              (snd (add_server w db n ip port user secret keyfile
                               command)) n)) = true
  /\ servers (snd (remove_server w'
                     (snd (add_server w db n ip port user secret
                                      keyfile command)) n))
     = servers db.
Proof.
  intros Ha Hc.
  destruct (add_server_cases w db n ip port user secret keyfile command)
    as [(_ & Hn & _ & stored & _ & Hdb) | (V & _)];
    [ | congruence ].
  rewrite Hdb. unfold remove_server. rewrite Hc. cbn [fst snd servers].
  rewrite filter_app, (filter_other_names n _ Hn).
  match goal with
  | |- context [filter _ [?row]] =>
      assert (N : has_name n row = true)
        by (unfold has_name, row_name; cbn; apply String.eqb_refl);
      cbn [filter]; rewrite N
  end.
  cbn [negb]. rewrite app_nil_r, length_app. cbn [length].
  split; [ | reflexivity ].
  apply Nat.ltb_lt. lia.
Qed.

Lemma X20_add_then_remove_witness :
  servers (snd (remove_server disk_ok
                  (snd (add_server disk_ok empty_database "nas"
                                   "192.168.1.20" 22 "admin"
                                   (Some "secret") None
                                   "sudo shutdown -h now")) "nas"))
  = servers empty_database.
Proof.
  exact (proj2 (X20_add_then_remove
                  disk_ok disk_ok empty_database "nas" "192.168.1.20" 22
                  "admin" (Some "secret") None "sudo shutdown -h now"
                  eq_refl eq_refl)).
Defined.

End DatabaseFacts.

Section FrontFacts.

Import ServerBotUI.

Lemma users_find_set_other {V} (k id : Z) (v : V) (d : Dict V) :
  id <> k -> users_find k (users_set id v d) = users_find k d.
Proof.
  intros H. induction d as [ | [k' v'] d IH ]; cbn.
  - destruct (id =? k)%Z eqn:E; [ apply Z.eqb_eq in E; contradiction | ].
    reflexivity.
  - destruct (k' =? id)%Z eqn:E1; cbn.
    + apply Z.eqb_eq in E1. subst k'.
      destruct (id =? k)%Z eqn:E; [ apply Z.eqb_eq in E; contradiction | ].
      reflexivity.
    + destruct (k' =? k)%Z; [ reflexivity | exact IH ].
Qed.

Lemma users_find_set_same {V} (k : Z) (v : V) (d : Dict V) :
  users_find k (users_set k v d) = Some v.
Proof.
  induction d as [ | [k' v'] d IH ]; cbn.
  - now rewrite Z.eqb_refl.
  - destruct (k' =? k)%Z eqn:E; cbn.
    + now rewrite Z.eqb_refl.
    + rewrite E. exact IH.
Qed.

Lemma users_find_del_other {V} (k id : Z) (d d' : Dict V) :
  id <> k -> users_del id d = Some d' -> users_find k d' = users_find k d.
Proof.
  intros H. revert d'. induction d as [ | [k' v'] d IH ]; intros d' E;
    [ discriminate E | ].
  cbn in E. destruct (k' =? id)%Z eqn:E1.
  - injection E as <-. cbn. apply Z.eqb_eq in E1. subst k'.
    destruct (id =? k)%Z eqn:E2; [ apply Z.eqb_eq in E2; contradiction | ].
    reflexivity.
  - destruct (users_del id d) as [rest | ]; [ | discriminate E ].
    injection E as <-. cbn. destruct (k' =? k)%Z; [ reflexivity | ].
    now apply IH.
Qed.

Lemma keeps_uret {A} (k : Z) (a : A) : keeps k (uret a).
Proof. intros self. repeat split. Qed.

Lemma keeps_still {A} (k : Z) (m : V A) : keeps k (still m).
Proof. intros self. repeat split. Qed.

Lemma keeps_fields (k : Z) : keeps k fields.
Proof. intros self. repeat split. Qed.

Lemma keeps_ubind {A B} (k : Z) (m : U A) (f : A -> U B) :
  keeps k m -> (forall a, keeps k (f a)) -> keeps k (ubind m f).
Proof.
  intros Hm Hf self. unfold ubind.
  destruct (Hm self) as (M1 & M2 & M3).
  destruct (m self) as [[[a | e] t1] self1]; cbn [snd] in *.
  - destruct (Hf a self1) as (F1 & F2 & F3).
    destruct (f a self1) as [[r t2] self2]. cbn [snd] in *.
    repeat split; congruence.
  - repeat split; assumption.
Qed.

Lemma keeps_set_state (k id : Z) (state : string) :
  id <> k -> keeps k (set_state id state).
Proof.
  intros H self. cbn. repeat split. now apply users_find_set_other.
Qed.

Lemma keeps_del_state (k id : Z) : id <> k -> keeps k (del_state id).
Proof.
  intros H self. unfold del_state.
  destruct (users_del id (user_states self)) as [d | ] eqn:E; cbn;
    repeat split.
  exact (users_find_del_other k id _ _ H E).
Qed.

Lemma keeps_del_data (k id : Z) : id <> k -> keeps k (del_data id).
Proof.
  intros H self. unfold del_data.
  destruct (users_del id (temp_server_data self)) as [d | ] eqn:E; cbn;
    repeat split.
  exact (users_find_del_other k id _ _ H E).
Qed.

Lemma keeps_update_data (k id : Z) (f : ServerData -> ServerData) :
  id <> k -> keeps k (update_data id f).
Proof.
  intros H self. unfold update_data.
  destruct (users_find id (temp_server_data self)); cbn; repeat split.
  now apply users_find_set_other.
Qed.

Lemma keeps_except_value_error {A} (k : Z) (m h : U A) :
  keeps k m -> keeps k h -> keeps k (except_value_error m h).
Proof.
  intros Hm Hh self. unfold except_value_error.
  destruct (Hm self) as (M1 & M2 & M3).
  destruct (m self) as [[[a | e] t1] self1]; cbn [snd] in *.
  - repeat split; assumption.
  - destruct (class_of e =? "ValueError"); cbn [snd].
    + destruct (Hh self1) as (F1 & F2 & F3).
      destruct (h self1) as [[r t2] self2]. cbn [snd] in *.
      repeat split; congruence.
    + repeat split; assumption.
Qed.

Lemma keeps_start_monitoring (k : Z) : keeps k start_monitoring.
Proof.
  intros self. unfold start_monitoring.
  destruct (is_monitoring (monitor self)); repeat split.
Qed.

Lemma keeps_on_database (k : Z)
      (op : Database -> bool * list Event * Database) :
  keeps k (on_database op).
Proof.
  intros self. unfold on_database.
  destruct (op (database self)) as [[saved tr] db']. repeat split.
Qed.

Lemma keeps_bind_sender {B} (k : Z) (effective_user : option User)
      (f : Z -> U B) :
  (forall usr, effective_user = Some usr -> keeps k (f (user_id usr))) ->
  keeps k (ubind (still (sender_id effective_user)) f).
Proof.
  intros H self. unfold ubind, still, sender_id.
  destruct effective_user as [usr | ]; cbn.
  - destruct (H usr eq_refl self) as (F1 & F2 & F3).
    destruct (f (user_id usr) self) as [[r t2] self2]. cbn in *.
    repeat split; assumption.
  - repeat split.
Qed.

Ltac frame :=
  repeat first
    [ assumption
    | apply keeps_uret
    | apply keeps_still
    | apply keeps_fields
    | apply keeps_start_monitoring
    | apply keeps_on_database
    | apply keeps_set_state; solve [ eauto ]
    | apply keeps_del_state; solve [ eauto ]
    | apply keeps_del_data; solve [ eauto ]
    | apply keeps_update_data; solve [ eauto ]
    | apply keeps_except_value_error
    | apply keeps_bind_sender; intros ? ?
    | apply keeps_ubind; [ | intros ? ]
    | match goal with
      | |- keeps _ (if ?b then _ else _) => destruct b
      | |- keeps _ (match ?x with _ => _ end) => destruct x
      | |- keeps _ (let '(_, _) := ?x in _) => destruct x
      end ].

Lemma keeps_finish_add_server (k id : Z) (w : UiWorld) :
  id <> k -> keeps k (finish_add_server w id).
Proof.
  intros H. unfold finish_add_server. frame.
Qed.

Lemma keeps_handle_dialog_state (k id : Z) (w : UiWorld) (text : string) :
  id <> k -> keeps k (handle_dialog_state w id text).
Proof.
  intros H. unfold handle_dialog_state.
  pose proof (keeps_finish_add_server k id w H) as F.
  frame.
Qed.

Lemma from_other (k : Z) (u : Update) (usr : User) :
  from k u = false -> sender u = Some usr -> user_id usr <> k.
Proof.
  unfold from. intros H E. rewrite E in H. now apply Z.eqb_neq.
Qed.

Lemma keeps_test_shutdown (k : Z) (w : UiWorld)
      (effective_user : option User) :
  (forall usr, effective_user = Some usr -> user_id usr <> k) ->
  keeps k (test_shutdown w effective_user).
Proof.
  intros H. unfold test_shutdown. frame.
Qed.

Lemma keeps_handle_test_confirmation (k : Z) (w : UiWorld)
      (effective_user : option User) (text : string) :
  (forall usr, effective_user = Some usr -> user_id usr <> k) ->
  keeps k (handle_test_confirmation w effective_user text).
Proof.
  intros H. unfold handle_test_confirmation. frame.
Qed.

Lemma keeps_message_handler (k : Z) (w : UiWorld)
      (effective_user : option User) (text : string) :
  (forall usr, effective_user = Some usr -> user_id usr <> k) ->
  keeps k (message_handler w effective_user text).
Proof.
  intros H. unfold message_handler.
  pose proof (keeps_test_shutdown k w effective_user H) as T.
  apply keeps_ubind; [ frame | intros self ].
  destruct (negb (is_authorized self effective_user)); [ frame | ].
  apply keeps_bind_sender. intros usr E. specialize (H usr E).
  pose proof (keeps_handle_dialog_state k (user_id usr) w text H) as D.
  frame.
Qed.

Lemma keeps_message_router (k : Z) (w : UiWorld)
      (effective_user : option User) (text : string) :
  (forall usr, effective_user = Some usr -> user_id usr <> k) ->
  keeps k (_message_router w effective_user text).
Proof.
  intros H. unfold _message_router.
  pose proof (keeps_message_handler k w effective_user text H) as M.
  pose proof (keeps_handle_test_confirmation k w effective_user text H) as C.
  apply keeps_bind_sender. intros usr E. frame.
Qed.

Lemma keeps_callback_query_handler (k : Z) (w : UiWorld)
      (effective_user : option User) (data : string) :
  (forall usr, effective_user = Some usr -> user_id usr <> k) ->
  keeps k (callback_query_handler w effective_user data).
Proof.
  intros H. unfold callback_query_handler, start_add_server, list_servers,
                   start_remove_server, confirm_remove_server.
  frame.
  intros self. cbn. repeat split. apply users_find_set_other. eauto.
Qed.

Lemma keeps_start_handler (k : Z) (w : UiWorld)
      (effective_user : option User) :
  keeps k (start_handler w effective_user).
Proof. unfold start_handler. frame. Qed.

(** An update of another user leaves alone the configured name and what
    the dicts hold for [k]. *)
Lemma dispatch_keeps (k : Z) (w : UiWorld) (u : Update) (self : Bot) :
  from k u = false ->
  allowed_username (snd (dispatch w u self)) = allowed_username self
  /\ users_find k (user_states (snd (dispatch w u self)))
     = users_find k (user_states self)
  /\ users_find k (temp_server_data (snd (dispatch w u self)))
     = users_find k (temp_server_data self).
Proof.
  intros H. unfold dispatch.
  assert (K : keeps k
                (match u with
                 | StartCommand user => start_handler w user
                 | TextMessage user text => _message_router w user text
                 | CallbackQuery user data =>
                     callback_query_handler w user data
                 end)).
  { destruct u as [user | user text | user data].
    - apply keeps_start_handler.
    - apply keeps_message_router. intros usr E.
      exact (from_other k _ usr H E).
    - apply keeps_callback_query_handler. intros usr E.
      exact (from_other k _ usr H E). }
  specialize (K self).
  destruct (match u with
            | StartCommand user => start_handler w user
            | TextMessage user text => _message_router w user text
            | CallbackQuery user data => callback_query_handler w user data
            end self) as [[[a | e] t] self']; exact K.
Qed.

(** An update of a user who is not authorized and has no dialog state
    changes nothing and leaves nothing but the refusal or a logged error. *)
Lemma dispatch_turned_away (w : UiWorld) (u : Update) (self : Bot) :
  is_authorized self (sender u) = false ->
  (forall usr, sender u = Some usr ->
               users_find (user_id usr) (user_states self) = None) ->
  snd (dispatch w u self) = self
  /\ forallb harmless (fst (dispatch w u self)) = true.
Proof.
  intros Hauth Hstate. unfold dispatch.
  destruct u as [user | user text | user data]; cbn [sender] in *.
  - unfold start_handler, ubind, fields, still, say, vret.
    cbn -[is_authorized]. rewrite Hauth. cbn.
    destruct (reply_text w AccessDenied) as [[] | e];
      cbn; split; reflexivity.
  - unfold _message_router, message_handler, ubind, fields, still,
           sender_id, vret, vraise, uret.
    destruct user as [usr | ]; cbn -[is_authorized users_find];
      [ | split; reflexivity ].
    rewrite (Hstate usr eq_refl). cbn -[is_authorized users_find].
    rewrite Hauth. cbn. split; reflexivity.
  - unfold callback_query_handler, ubind, fields, still, vret, uret.
    cbn -[is_authorized]. rewrite Hauth. cbn. split; reflexivity.
Qed.

Lemma is_authorized_same (self self' : Bot) (user : option User) :
  allowed_username self' = allowed_username self ->
  is_authorized self' user = is_authorized self user.
Proof. intros H. unfold is_authorized. now rewrite H. Qed.

(** X21: a user who never presents the configured username is ignored.
    Take any session and any user id with no dialog state at its start
    whose updates all fail the authorization test: the bot's fields at the
    end of the session are those of the same session without that user's
    updates, and each of these updates leaves behind nothing but the
    refusal of [/start] or a logged error: no host is contacted and no row
    is written for them. *)
Theorem X21_strangers_are_ignored
        (self : Bot) (updates : list (UiWorld * Update)) (k : Z) :
  users_find k (user_states self) = None ->
  (forall w u, In (w, u) updates -> from k u = true ->
               is_authorized self (sender u) = false) ->
  snd (session self updates)
  = snd (session self
           (filter (fun wu => negb (from k (snd wu))) updates))
  /\ Forall2 (fun wu t => from k (snd wu) = true ->
                          forallb harmless t = true)
             updates (fst (session self updates)).
Proof.
  revert self. induction updates as [ | [w u] rest IH ]; intros self Hk Hs.
  - split; [ reflexivity | constructor ].
  - cbn [session filter snd].
    destruct (from k u) eqn:F; cbn [negb].
    + assert (A : is_authorized self (sender u) = false)
        by (apply (Hs w u); [ now left | exact F ]).
      assert (S0 : forall usr, sender u = Some usr ->
                     users_find (user_id usr) (user_states self) = None).
      { intros usr E. unfold from in F. rewrite E in F.
        apply Z.eqb_eq in F. now rewrite F. }
      destruct (dispatch_turned_away w u self A S0) as (D1 & D2).
      destruct (dispatch w u self) as [t self1]. cbn [fst snd] in *. subst.
      destruct (IH self Hk) as (I1 & I2).
      { intros w' u' Hin F'. apply (Hs w' u'); [ now right | exact F' ]. }
      destruct (session self rest) as [ts self2]. cbn [fst snd] in *.
      split; [ exact I1 | constructor; [ intros _; exact D2 | exact I2 ] ].
    + cbn [session].
      destruct (dispatch_keeps k w u self F) as (K1 & K2 & _).
      destruct (dispatch w u self) as [t self1]. cbn [fst snd] in *.
      destruct (IH self1) as (I1 & I2).
      { now rewrite K2. }
      { intros w' u' Hin F'.
        rewrite (is_authorized_same self self1 _ K1).
        apply (Hs w' u'); [ now right | exact F' ]. }
      destruct (session self1 rest) as [ts self2].
      destruct (session self1
                  (filter (fun wu => negb (from k (snd wu))) rest))
        as [ts' self2'].
      cbn [fst snd] in *.
      split; [ exact I1 | ].
      constructor; [ cbn [snd]; intros C; congruence | exact I2 ].
Qed.

Lemma X21_strangers_are_ignored_witness :
  snd (session fresh_bot
         [(fair_weather, TextMessage (Some stranger) "CONFIRM TEST");
          (fair_weather, StartCommand (Some operator));
          (fair_weather, CallbackQuery (Some stranger) "add_server")])
  = snd (session fresh_bot [(fair_weather, StartCommand (Some operator))]).
Proof.
  refine (proj1 (X21_strangers_are_ignored
                   fresh_bot
                   [(fair_weather, TextMessage (Some stranger) "CONFIRM TEST");
                    (fair_weather, StartCommand (Some operator));
                    (fair_weather, CallbackQuery (Some stranger) "add_server")]
                   666 eq_refl _)).
  intros w u [H | [H | [H | []]]] F; injection H as <- <-;
    first [ reflexivity | discriminate F ].
Defined.

Lemma core_events_app (t1 t2 : list UiEvent) :
  core_events (t1 ++ t2) = (core_events t1 ++ core_events t2)%list.
Proof.
  induction t1 as [ | ev t1 IH ]; [ reflexivity | ].
  destruct ev; cbn; rewrite ?IH; reflexivity.
Qed.

Lemma core_events_map (t : list Event) : core_events (map Core t) = t.
Proof.
  induction t as [ | ev t IH ]; [ reflexivity | ]. cbn. now rewrite IH.
Qed.

Lemma host_events_app (t1 t2 : list Event) :
  host_events (t1 ++ t2) = (host_events t1 ++ host_events t2)%list.
Proof. unfold host_events. apply filter_app. Qed.

(** The loop of the test shutdown and the loop of the sweep, given the
    same hosts: the same lines, and the same things done to the hosts. *)
Lemma test_sweep_is_sweep (w : UiWorld) (bw : BotWorld)
      (rows : list ServerRow) (i : nat) :
  ssh bw = hosts w ->
  fst (test_sweep w i rows)
  = fst (ServerBot.sweep bw i (map row_server rows))
  /\ host_events (core_events (snd (test_sweep w i rows)))
     = host_events (snd (ServerBot.sweep bw i (map row_server rows))).
Proof.
  intros H. revert i. induction rows as [ | r rows IH ]; intros i.
  - split; reflexivity.
  - cbn [test_sweep ServerBot.sweep map].
    unfold ServerBot.sweep_one, ServerBot.log_event, log_event, core, vbind,
           bind, emit, ret, vret.
    rewrite H.
    destruct (loop_total (hosts w i) (row_server r)) as (b & m & t0 & E & _).
    rewrite E. cbn [fst snd].
    destruct (IH (S i)) as (I1 & I2).
    destruct (test_sweep w (S i) rows) as [[rs | e] t1];
      destruct (ServerBot.sweep bw (S i) (map row_server rows))
        as [[rs' | e'] t1'];
      cbn [fst snd] in *; try discriminate I1.
    + injection I1 as <-. split; [ reflexivity | ].
      rewrite !core_events_app, core_events_map.
      cbn [core_events]. rewrite !host_events_app, I2.
      unfold host_events at 2 3 5 7. cbn [filter is_log_event negb app].
      now rewrite !app_nil_r.
    + injection I1 as <-. split; [ reflexivity | ].
      rewrite !core_events_app, core_events_map.
      cbn [core_events]. rewrite !host_events_app, I2.
      unfold host_events at 2 3 5 7. cbn [filter is_log_event negb app].
      now rewrite !app_nil_r.
Qed.

(** X22: the test shutdown is a shutdown.  When the confirmation text is
    received, the database opens and the opening reply is delivered, what
    is done to the hosts is exactly what the sweep on a power loss does to
    the same servers in the same order; only the rows written to the event
    log differ. *)
Theorem X22_test_shutdown_is_a_shutdown
        (self : Bot) (w : UiWorld) (effective_user : option User)
        (bw : BotWorld) :
  sqlite_connect (disk w) = Ok tt ->
  reply_text w TestStarting = Ok tt ->
  ssh bw = hosts w ->
  host_events
    (core_events
       (snd (fst (handle_test_confirmation w effective_user "CONFIRM TEST"
                                           self))))
  = host_events
      (snd (ServerBot.sweep bw 0
              (map row_server (servers (database self))))).
Proof.
  intros Hdb Hsay Hssh.
  destruct (test_sweep_is_sweep w bw (servers (database self)) 0 Hssh)
    as (_ & S).
  unfold handle_test_confirmation, ubind, fields, still, get_servers,
         DatabaseManager.get_servers, say, vbind, vret.
  cbn [String.eqb Ascii.eqb Bool.eqb]. cbn [fst snd]. rewrite Hdb, Hsay.
  rewrite <- S.
  destruct (test_sweep w 0 (servers (database self))) as [[rs | e] t1];
    cbn [fst snd].
  - destruct (reply_text w (TestReport rs)) as [[] | e]; cbn [fst snd].
    + unfold sender_id, del_state, vret, vraise.
      destruct effective_user as [usr | ]; cbn [fst snd].
      * destruct (users_del (user_id usr) (user_states self));
          cbn [fst snd]; rewrite !core_events_app; cbn;
          now rewrite !app_nil_r.
      * rewrite !core_events_app. cbn. now rewrite !app_nil_r.
    + rewrite !core_events_app. cbn. now rewrite !app_nil_r.
  - reflexivity.
Qed.

Lemma X22_test_shutdown_is_a_shutdown_witness :
  host_events
    (core_events
       (snd (fst (handle_test_confirmation fair_weather (Some operator)
                                           "CONFIRM TEST"
                                           awaiting_confirmation))))
  = host_events
      (snd (ServerBot.sweep
              (mkBotWorld (fun _ => Ok tt) (Ok []) (fun _ _ => reachable))
              0 (map row_server (servers (database awaiting_confirmation))))).
Proof.
  exact (X22_test_shutdown_is_a_shutdown
           awaiting_confirmation fair_weather (Some operator)
           (mkBotWorld (fun _ => Ok tt) (Ok []) (fun _ _ => reachable))
           eq_refl eq_refl eq_refl).
Defined.

Lemma users_del_find {V} (k : Z) (d d' : Dict V) :
  distinct_keys d -> users_del k d = Some d' -> users_find k d' = None.
Proof.
  unfold distinct_keys. revert d'.
  induction d as [ | [k' v'] d IH ]; intros d' N E; [ discriminate E | ].
  cbn in *. inversion N as [ | x l Hx Hl ]; subst.
  destruct (k' =? k)%Z eqn:E1.
  - injection E as <-. apply Z.eqb_eq in E1. subst k'.
    clear IH N Hl. induction d as [ | [k2 v2] d IH ]; [ reflexivity | ].
    cbn in *. destruct (k2 =? k)%Z eqn:E2.
    + apply Z.eqb_eq in E2. tauto.
    + apply IH. tauto.
  - destruct (users_del k d) as [rest | ]; [ | discriminate E ].
    injection E as <-. cbn. rewrite E1. now apply IH.
Qed.

(** X23: the pending confirmation is consumed exactly when the handler
    completes.  Any text other than the confirmation contacts no host and
    writes no row; when the handler returns, the sender's dialog state is
    gone and the table is as it was; when it raises, the bot's fields are
    untouched, so the confirmation is still pending. *)
Theorem X23_confirmation_is_consumed_on_completion
        (self : Bot) (w : UiWorld) (usr : User) (text : string) :
  distinct_keys (user_states self) ->
  ((text =? "CONFIRM TEST") = false ->
   core_events
     (snd (fst (handle_test_confirmation w (Some usr) text self))) = [])
  /\ match fst (fst (handle_test_confirmation w (Some usr) text self)) with
     | Ok _ =>
         users_find (user_id usr)
           (user_states (snd (handle_test_confirmation w (Some usr) text
                                                       self))) = None
         /\ database (snd (handle_test_confirmation w (Some usr) text self))
            = database self
     | Raise _ =>
         snd (handle_test_confirmation w (Some usr) text self) = self
     end.
Proof.
  intros N.
  unfold handle_test_confirmation, ubind, fields, still, get_servers, say,
         sender_id, del_state, vbind, vret, vraise.
  cbn [fst snd].
  destruct (text =? "CONFIRM TEST").
  - split; [ discriminate | ].
    destruct (DatabaseManager.get_servers (disk w) (database self))
      as [rows | e]; cbn [fst snd]; [ | reflexivity ].
    destruct (reply_text w TestStarting) as [[] | e]; cbn [fst snd];
      [ | reflexivity ].
    destruct (test_sweep w 0 rows) as [[rs | e] t1]; cbn [fst snd];
      [ | reflexivity ].
    destruct (reply_text w (TestReport rs)) as [[] | e]; cbn [fst snd];
      [ | reflexivity ].
    destruct (users_del (user_id usr) (user_states self)) as [d | ] eqn:D;
      cbn [fst snd]; [ | reflexivity ].
    split; [ exact (users_del_find _ _ _ N D) | reflexivity ].
  - destruct (reply_text w TestCancelled) as [[] | e]; cbn [fst snd].
    + destruct (users_del (user_id usr) (user_states self)) as [d | ] eqn:D;
        cbn [fst snd].
      * split; [ reflexivity | ].
        split; [ exact (users_del_find _ _ _ N D) | reflexivity ].
      * split; reflexivity.
    + split; reflexivity.
Qed.

Lemma X23_confirmation_is_consumed_on_completion_witness :
  snd (handle_test_confirmation locked_weather (Some operator)
                                "CONFIRM TEST" awaiting_confirmation)
  = awaiting_confirmation.
Proof.
  exact (proj2 (X23_confirmation_is_consumed_on_completion
                  awaiting_confirmation locked_weather operator
                  "CONFIRM TEST"
                  (NoDup_cons 1001%Z (fun H : In 1001%Z [] => H)
                              (NoDup_nil Z)))).
Defined.






End FrontFacts.

Section DialogFacts.

Import ServerBotUI.

(** X25: the port step of the add-server dialog takes only a port SSH can
    use.  An empty answer stands for 22; a number from 1 to 65535 is
    stored and the dialog moves on to the username; anything else, a
    number out of range or a text [int] refuses, changes nothing: the
    question stays pending and the operator is told why. *)
Theorem X25_port_step_validates
        (self : Bot) (w : UiWorld) (id : Z) (text : string)
        (d : ServerData) :
  users_find id (user_states self) = Some "adding_server_port" ->
  users_find id (temp_server_data self) = Some d ->
  match port_entered w text with
  | Some p =>
      if valid_port p then
        users_find id
          (user_states (snd (handle_dialog_state w id text self)))
        = Some "adding_server_username"
        /\ users_find id
             (temp_server_data (snd (handle_dialog_state w id text self)))
           = Some (with_port d p)
        /\ hd_error (snd (fst (handle_dialog_state w id text self)))
           = Some (ReplyText AskUsername)
      else
        snd (handle_dialog_state w id text self) = self
        /\ hd_error (snd (fst (handle_dialog_state w id text self)))
           = Some (ReplyText PortOutOfRange)
  | None =>
      snd (handle_dialog_state w id text self) = self
      /\ snd (fst (handle_dialog_state w id text self))
         = [ReplyText PortInvalid]
  end.
Proof.
  intros Hstate Hdata.
  unfold handle_dialog_state, port_entered, ubind, fields, still, item,
         vret. cbn [fst snd].
  rewrite Hstate. cbn [String.eqb Ascii.eqb Bool.eqb fst snd].
  unfold except_value_error, ubind, still, vret, vraise, update_data,
         set_state, assign, say, valid_port.
  destruct (py_strip w text =? ""); cbn [negb fst snd].
  - cbn -[users_find users_set class_of]. rewrite Hdata.
    cbn -[users_find users_set class_of].
    destruct (reply_text w AskUsername) as [[] | e];
      cbn -[users_find users_set class_of].
    + rewrite !users_find_set_same. repeat split; reflexivity.
    + destruct (class_of e =? "ValueError");
        cbn -[users_find users_set class_of];
        rewrite !users_find_set_same; repeat split; reflexivity.
  - destruct (py_int w text) as [p | ]; cbn [fst snd].
    + destruct ((1 <=? p)%Z && (p <=? 65535)%Z); cbn [fst snd].
      * rewrite Hdata. cbn -[users_find users_set class_of].
        destruct (reply_text w AskUsername) as [[] | e];
          cbn -[users_find users_set class_of].
        -- rewrite !users_find_set_same. repeat split; reflexivity.
        -- destruct (class_of e =? "ValueError");
             cbn -[users_find users_set class_of];
             rewrite !users_find_set_same; repeat split; reflexivity.
      * destruct (reply_text w PortOutOfRange) as [[] | e]; cbn [fst snd].
        -- split; reflexivity.
        -- destruct (class_of e =? "ValueError"); cbn [fst snd];
             split; reflexivity.
    + cbn. split; reflexivity.
Qed.

Lemma X25_port_step_validates_witness :
  snd (handle_dialog_state fair_weather 1001 "70000" at_port_step)
  = at_port_step
  /\ hd_error (snd (fst (handle_dialog_state fair_weather 1001 "70000"
                                             at_port_step)))
     = Some (ReplyText PortOutOfRange).
Proof.
  exact (X25_port_step_validates
           at_port_step fair_weather 1001 "70000"
           (mkData (Some "nas") (Some "192.168.1.20") None None None None
                   None)
           eq_refl eq_refl).
Defined.

(** A successful [test_connection] has opened a session with the
    credentials of the record. *)
Lemma test_connection_true (w : SshWorld) (server : Server) (m : string) :
  fst (SSHManager.test_connection w server) = Ok (true, m) ->
  exists kw,
    resolved_auth w server = Some kw
    /\ client_connect w kw = Ok tt
    /\ client_close w = Ok tt
    /\ In (Connect kw) (snd (SSHManager.test_connection w server)).
Proof.
  unfold resolved_auth, SSHManager.test_connection,
         SSHManager.test_connection_body, try_except, bind, emit, call,
         lift, ret.
  destruct (truthy (password_encrypted server));
    try destruct (crypto_decrypt w (text (password_encrypted server)))
      as [pw | e];
    try destruct (key_usable w server);
    cbn;
    try (destruct (client_connect w _) as [[] | e'] eqn:C; cbn);
    try (destruct (client_close w) as [[] | e''] eqn:D; cbn);
    intros H; try discriminate H;
    eexists; (split; [ reflexivity | ]);
    (split; [ first [ assumption | reflexivity ] | ]);
    (split; [ reflexivity | ]); right; left; reflexivity.
Qed.

(** X26: a server goes on record only after the bot has opened a session
    to it.  [finish_add_server] either leaves the table as it was, or
    appends one row that carries the name, address, port, user, key path
    and command the dialog collected, and then [test_connection] has
    connected with the credentials of that record and closed the session
    without error.  When the handler completes, with the server saved or
    not, the sender's dialog state and collected answers are gone. *)
Theorem X26_saved_only_after_a_session
        (self : Bot) (w : UiWorld) (id : Z) :
  distinct_keys (user_states self) ->
  distinct_keys (temp_server_data self) ->
  (database (snd (finish_add_server w id self)) = database self
   \/ exists d row secret test_server kw,
        users_find id (temp_server_data self) = Some d
        /\ servers (database (snd (finish_add_server w id self)))
           = (servers (database self) ++ [row])%list
        /\ record_of d (password_encrypted (row_server row))
           = Some (row_server row)
        /\ record_of d secret = Some test_server
        /\ resolved_auth (probe w 0) test_server = Some kw
        /\ client_connect (probe w 0) kw = Ok tt
        /\ client_close (probe w 0) = Ok tt
        /\ In (Core (Connect kw)) (snd (fst (finish_add_server w id self))))
  /\ (fst (fst (finish_add_server w id self)) = Ok tt ->
      users_find id (user_states (snd (finish_add_server w id self))) = None
      /\ users_find id (temp_server_data (snd (finish_add_server w id self)))
         = None).
Proof.
  intros N1 N2.
  remember (finish_add_server w id self) as r eqn:R.
  unfold finish_add_server, ubind, fields, still, item, vret, vraise,
         del_state, del_data, say, log_event, core, vbind, on_database
    in R.
  cbn [fst snd] in R.
  destruct (users_find id (temp_server_data self)) as [d | ] eqn:D;
    cbn [fst snd] in R; [ | subst r; split; [ now left | discriminate ] ].
  destruct (d_name d) as [n | ] eqn:Dn;
    cbn [fst snd] in R; [ | subst r; split; [ now left | discriminate ] ].
  destruct (d_ip d) as [i | ] eqn:Di;
    cbn [fst snd] in R; [ | subst r; split; [ now left | discriminate ] ].
  destruct (d_port d) as [p | ] eqn:Dp;
    cbn [fst snd] in R; [ | subst r; split; [ now left | discriminate ] ].
  destruct (d_username d) as [u | ] eqn:Du;
    cbn [fst snd] in R; [ | subst r; split; [ now left | discriminate ] ].
  destruct (d_shutdown_command d) as [c | ] eqn:Dc;
    cbn [fst snd] in R; [ | subst r; split; [ now left | discriminate ] ].
  pose proof (add_server_cases (disk w) (database self) n i p u
                               (d_password d) (d_key_path d) c) as Cases.
  cbv zeta in Cases.
  destruct (d_password d) as [pw | ] eqn:Dpw; cbn [fst snd] in R;
    [ destruct (test_encrypt w pw) as [enc | e]; cbn [fst snd] in R;
      [ | subst r; split; [ now left | discriminate ] ] | ].
  all: match type of R with
       | context [SSHManager.test_connection ?a ?s] =>
           destruct (SSHManager.test_connection a s)
             as [[[connected message] | e] t] eqn:T
       end; cbn [fst snd] in R;
         [ | subst r; split; [ now left | discriminate ] ].
  all: destruct connected; cbn [negb fst snd] in R.
  all: try (destruct (DatabaseManager.add_server _ _ _ _ _ _ _ _ _)
              as [[success t'] db]; cbn [fst snd] in R, Cases;
            destruct Cases as [(-> & _ & _ & stored & _ & ->)
                              | (-> & -> & _)]).
  all: cbn [fst snd user_states temp_server_data with_database] in R.
  all: repeat match type of R with
         | context [reply_text ?w0 ?x] =>
             destruct (reply_text w0 x) as [[] | ?e]; cbn [fst snd] in R
         end.
  all: cbn [fst snd user_states temp_server_data with_database
              with_states] in R.
  all: destruct (users_del id (user_states self)) as [st | ] eqn:E1;
         cbn [fst snd user_states temp_server_data with_database
              with_states vret vraise] in R.
  all: try (destruct (users_del id (temp_server_data self)) as [dt | ]
              eqn:E2;
            cbn [fst snd user_states temp_server_data with_database
                 with_states vret vraise] in R).
  all: subst r; cbn [fst snd database user_states temp_server_data
                     with_database with_states with_data].
  all: split;
         [ | first [ discriminate
                   | intros _; split;
                       [ exact (users_del_find _ _ _ N1 E1)
                       | exact (users_del_find _ _ _ N2 E2) ] ] ].
  all: try (left; reflexivity).
  all: right;
    match type of T with
    | SSHManager.test_connection ?a ?s = (Ok (true, ?m), _) =>
        destruct (test_connection_true a s m) as (kw & K1 & K2 & K3 & K4);
          [ rewrite T; reflexivity | ];
        rewrite T in K4; cbn [snd] in K4;
        exists d; eexists; exists (password_encrypted s), s, kw
    end.
  all: split; [ reflexivity | ].
  all: split; [ reflexivity | ].
  all: cbn [row_server password_encrypted]; unfold record_of;
    rewrite Dn, Di, Dp, Du, Dc.
  all: split; [ reflexivity | ].
  all: split; [ reflexivity | ].
  all: split; [ exact K1 | ].
  all: split; [ exact K2 | ].
  all: split; [ exact K3 | ].
  all: rewrite !app_nil_l; apply in_or_app; left; apply in_map; exact K4.
Qed.

Lemma X26_saved_only_after_a_session_witness :
  users_find 1001
    (user_states (snd (finish_add_server fair_weather 1001
                                         at_command_step))) = None
  /\ users_find 1001
       (temp_server_data (snd (finish_add_server fair_weather 1001
                                                 at_command_step))) = None.
Proof.
  exact (proj2 (X26_saved_only_after_a_session
                  at_command_step fair_weather 1001
                  (NoDup_cons 1001%Z (fun H : In 1001%Z [] => H)
                              (NoDup_nil Z))
                  (NoDup_cons 1001%Z (fun H : In 1001%Z [] => H)
                              (NoDup_nil Z)))
               eq_refl).
Defined.

End DialogFacts.

Section PortFacts.

Import ServerBotUI.

Lemma users_find_forallb {V} (f : Z * V -> bool) (g : V -> bool)
      (k : Z) (d : Dict V) (v : V) :
  (forall kv, f kv = g (snd kv)) ->
  forallb f d = true -> users_find k d = Some v -> g v = true.
Proof.
  intros Hf. induction d as [ | [k' v'] d IH ]; intros F E;
    [ discriminate E | ].
  cbn in *. apply andb_prop in F. destruct F as [F1 F2].
  destruct (k' =? k)%Z.
  - injection E as <-. now rewrite Hf in F1.
  - now apply IH.
Qed.

Lemma users_set_forallb {V} (f : Z * V -> bool) (g : V -> bool)
      (k : Z) (d : Dict V) (v : V) :
  (forall kv, f kv = g (snd kv)) ->
  forallb f d = true -> g v = true -> forallb f (users_set k v d) = true.
Proof.
  intros Hf F G. induction d as [ | [k' v'] d IH ]; cbn in *.
  - rewrite Hf. cbn. now rewrite G.
  - apply andb_prop in F. destruct F as [F1 F2].
    destruct (k' =? k)%Z; cbn.
    + rewrite Hf. cbn. now rewrite G.
    + now rewrite F1, IH.
Qed.

Lemma users_del_forallb {V} (f : Z * V -> bool) (k : Z) (d d' : Dict V) :
  forallb f d = true -> users_del k d = Some d' -> forallb f d' = true.
Proof.
  revert d'. induction d as [ | [k' v'] d IH ]; intros d' F E;
    [ discriminate E | ].
  cbn in *. apply andb_prop in F. destruct F as [F1 F2].
  destruct (k' =? k)%Z.
  - now injection E as <-.
  - destruct (users_del k d) as [rest | ]; [ | discriminate E ].
    injection E as <-. cbn. now rewrite F1, (IH rest).
Qed.

Lemma add_server_rows_ok (w : DbWorld) (db : Database)
      (n ip : string) (port : Z) (user : string)
      (secret keyfile : option string) (command : string) :
  valid_port port = true ->
  rows_ok db = true ->
  rows_ok (snd (DatabaseManager.add_server w db n ip port user secret
                                           keyfile command)) = true.
Proof.
  intros P R.
  destruct (add_server_cases w db n ip port user secret keyfile command)
    as [(_ & _ & _ & stored & _ & ->) | (_ & -> & _)]; [ | exact R ].
  unfold rows_ok in *. cbn [servers]. rewrite forallb_app, R. cbn.
  now rewrite P.
Qed.

Lemma remove_server_rows_ok (w : DbWorld) (db : Database) (n : string) :
  rows_ok db = true ->
  rows_ok (snd (DatabaseManager.remove_server w db n)) = true.
Proof.
  intros R. unfold DatabaseManager.remove_server.
  destruct (sqlite_connect w); [ | exact R ].
  unfold rows_ok in *. cbn [snd servers].
  induction (servers db) as [ | r rows IH ]; [ reflexivity | ].
  cbn in *. apply andb_prop in R. destruct R as [R1 R2].
  destruct (negb (has_name n r)); cbn; [ rewrite R1 | ]; now apply IH.
Qed.

Lemma preserves_uret {A} (a : A) : preserves (uret a).
Proof. intros self P. exact P. Qed.

Lemma preserves_still {A} (m : V A) : preserves (still m).
Proof. intros self P. exact P. Qed.

Lemma preserves_ubind {A B} (m : U A) (f : A -> U B) :
  preserves m -> (forall a, preserves (f a)) -> preserves (ubind m f).
Proof.
  intros Hm Hf self P. unfold ubind. specialize (Hm self P).
  destruct (m self) as [[[a | e] t1] self1]; cbn [snd] in *;
    [ | exact Hm ].
  specialize (Hf a self1 Hm).
  now destruct (f a self1) as [[r t2] self2].
Qed.

(** What [fields] hands on is the bot as it is then. *)
Lemma preserves_bind_fields {B} (f : Bot -> U B) :
  (forall self0, ports_valid self0 = true -> preserves (f self0)) ->
  preserves (ubind fields f).
Proof.
  intros H self P. unfold ubind, fields. cbn.
  specialize (H self P self P).
  now destruct (f self self) as [[r t2] self2].
Qed.

Lemma preserves_bind_item {A B} (key : string) (o : option A)
      (f : A -> U B) :
  (forall a, o = Some a -> preserves (f a)) ->
  preserves (ubind (still (item key o)) f).
Proof.
  intros H self P. unfold ubind, still, item.
  destruct o as [a | ]; cbn; [ | exact P ].
  specialize (H a eq_refl self P).
  now destruct (f a self) as [[r t2] self2].
Qed.

Lemma preserves_set_state (id : Z) (state : string) :
  preserves (set_state id state).
Proof. intros self P. exact P. Qed.

Lemma preserves_del_state (id : Z) : preserves (del_state id).
Proof.
  intros self P. unfold del_state.
  now destruct (users_del id (user_states self)).
Qed.

Lemma preserves_del_data (id : Z) : preserves (del_data id).
Proof.
  intros self P. unfold del_data.
  destruct (users_del id (temp_server_data self)) as [d | ] eqn:E;
    [ | exact P ].
  unfold ports_valid in *. cbn [snd database temp_server_data with_data].
  apply andb_prop in P. destruct P as [P1 P2]. rewrite P1. cbn.
  exact (users_del_forallb _ _ _ _ P2 E).
Qed.

Lemma preserves_update_data (id : Z) (f : ServerData -> ServerData) :
  (forall d, port_ok d = true -> port_ok (f d) = true) ->
  preserves (update_data id f).
Proof.
  intros Hf self P. unfold update_data.
  destruct (users_find id (temp_server_data self)) as [d | ] eqn:E;
    [ | exact P ].
  unfold ports_valid in *. cbn [snd database temp_server_data with_data].
  apply andb_prop in P. destruct P as [P1 P2]. rewrite P1. cbn.
  apply (users_set_forallb _ port_ok); [ reflexivity | exact P2 | ].
  apply Hf.
  exact (users_find_forallb _ port_ok _ _ _ (fun _ => eq_refl) P2 E).
Qed.

Lemma preserves_except_value_error {A} (m h : U A) :
  preserves m -> preserves h -> preserves (except_value_error m h).
Proof.
  intros Hm Hh self P. unfold except_value_error. specialize (Hm self P).
  destruct (m self) as [[[a | e] t1] self1]; cbn [snd] in *;
    [ exact Hm | ].
  destruct (class_of e =? "ValueError"); [ | exact Hm ].
  specialize (Hh self1 Hm).
  now destruct (h self1) as [[r t2] self2].
Qed.

Lemma preserves_start_monitoring : preserves start_monitoring.
Proof.
  intros self P. unfold start_monitoring.
  now destruct (is_monitoring (monitor self)).
Qed.

Lemma preserves_on_database
      (op : Database -> bool * list Event * Database) :
  (forall db, rows_ok db = true -> rows_ok (snd (op db)) = true) ->
  preserves (on_database op).
Proof.
  intros H self P. unfold on_database.
  unfold ports_valid in *. apply andb_prop in P. destruct P as [P1 P2].
  specialize (H (database self) P1).
  destruct (op (database self)) as [[saved tr] db'].
  cbn [snd database temp_server_data with_database] in *.
  now rewrite H, P2.
Qed.

Ltac invariant :=
  repeat first
    [ assumption
    | match goal with H : forall _, preserves _ |- _ => apply H end
    | apply preserves_uret
    | apply preserves_still
    | apply preserves_start_monitoring
    | apply preserves_set_state
    | apply preserves_del_state
    | apply preserves_del_data
    | apply preserves_on_database; intros ? ?;
        first [ apply add_server_rows_ok; assumption
              | apply remove_server_rows_ok; assumption ]
    | apply preserves_update_data; intros ? ?;
        first [ assumption
              | unfold port_ok, valid_port; cbn [d_port]; assumption ]
    | apply preserves_except_value_error
    | apply preserves_bind_fields; intros ? ?
    | apply preserves_ubind; [ | intros ? ]
    | match goal with
      | |- preserves (if ?b then _ else _) => destruct b eqn:?
      | |- preserves (match ?x with _ => _ end) => destruct x eqn:?
      | |- preserves (let '(_, _) := ?x in _) => destruct x
      end ].

Lemma preserves_finish_add_server (w : UiWorld) (id : Z) :
  preserves (finish_add_server w id).
Proof.
  unfold finish_add_server.
  apply preserves_bind_fields. intros self P.
  apply preserves_bind_item. intros d D.
  assert (Pd : port_ok d = true).
  { unfold ports_valid in P. apply andb_prop in P. destruct P as [_ P2].
    exact (users_find_forallb _ port_ok _ _ _ (fun _ => eq_refl) P2 D). }
  apply preserves_bind_item. intros n Dn.
  apply preserves_bind_item. intros i Di.
  apply preserves_bind_item. intros p Dp.
  assert (Pp : valid_port p = true)
    by (unfold port_ok in Pd; now rewrite Dp in Pd).
  invariant.
Qed.

Lemma preserves_handle_dialog_state (w : UiWorld) (id : Z) (text : string) :
  preserves (handle_dialog_state w id text).
Proof.
  pose proof (preserves_finish_add_server w id) as F.
  unfold handle_dialog_state. invariant.
Qed.

Lemma preserves_message_router (w : UiWorld) (user : option User)
      (text : string) :
  preserves (_message_router w user text).
Proof.
  assert (D : forall id, preserves (handle_dialog_state w id text))
    by (intros id; apply preserves_handle_dialog_state).
  assert (M : preserves (message_handler w user text)).
  { unfold message_handler, test_shutdown. invariant. }
  unfold _message_router, handle_test_confirmation. invariant.
Qed.

Lemma preserves_callback_query_handler (w : UiWorld) (user : option User)
      (data : string) :
  preserves (callback_query_handler w user data).
Proof.
  unfold callback_query_handler, start_add_server, list_servers,
         start_remove_server, confirm_remove_server.
  invariant.
  intros self P. unfold assign. cbn [snd].
  unfold ports_valid in *. cbn [database temp_server_data with_data].
  apply andb_prop in P. destruct P as [P1 P2]. rewrite P1. cbn.
  now apply (users_set_forallb _ port_ok).
Qed.

Lemma preserves_dispatch (w : UiWorld) (u : Update) (self : Bot) :
  ports_valid self = true -> ports_valid (snd (dispatch w u self)) = true.
Proof.
  intros P. unfold dispatch.
  assert (K : preserves
                (match u with
                 | StartCommand user => start_handler w user
                 | TextMessage user text => _message_router w user text
                 | CallbackQuery user data =>
                     callback_query_handler w user data
                 end)).
  { destruct u as [user | user text | user data].
    - unfold start_handler. invariant.
    - apply preserves_message_router.
    - apply preserves_callback_query_handler. }
  specialize (K self P).
  destruct (match u with
            | StartCommand user => start_handler w user
            | TextMessage user text => _message_router w user text
            | CallbackQuery user data => callback_query_handler w user data
            end self) as [[[a | e] t] self']; exact K.
Qed.

(** X27: the bot never records a port SSH cannot use.  If every port in
    the table and every port collected in a pending dialog lies between 1
    and 65535, the same holds after any sequence of updates, whoever sends
    them, whatever they contain and whatever the outside answers: the
    range test of the port step is the only way a port gets in. *)
Theorem X27_recorded_ports_stay_valid
        (self : Bot) (updates : list (UiWorld * Update)) :
  ports_valid self = true ->
  ports_valid (snd (session self updates)) = true.
Proof.
  revert self. induction updates as [ | [w u] rest IH ]; intros self P.
  - exact P.
  - cbn [session].
    pose proof (preserves_dispatch w u self P) as P1.
    destruct (dispatch w u self) as [t self1]. cbn [snd] in P1.
    specialize (IH self1 P1).
    now destruct (session self1 rest) as [ts self2].
Qed.

Lemma X27_recorded_ports_stay_valid_witness :
  ports_valid (snd (session fresh_bot add_nas_dialog)) = true.
Proof.
  exact (X27_recorded_ports_stay_valid fresh_bot add_nas_dialog eq_refl).
Defined.

End PortFacts.

Section ButtonFacts.

Import ServerBotUI.

Lemma drop_prefix_app (p s : string) : drop_prefix p (p ++ s) = Some s.
Proof.
  induction p as [ | a p IH ]; [ reflexivity | ].
  cbn. now rewrite Ascii.eqb_refl.
Qed.

Lemma replace_absent (fuel : nat) (old new s : string) :
  occurs old s = false -> replace_fuel fuel old new s = s.
Proof.
  revert s. induction fuel as [ | fuel IH ]; intros s H; [ reflexivity | ].
  cbn [replace_fuel]. destruct s as [ | c s ]; cbn [occurs] in H.
  - destruct (drop_prefix old ""); [ discriminate H | reflexivity ].
  - destruct (drop_prefix old (String c s)); [ discriminate H | ].
    now rewrite IH.
Qed.

(** X28: what a button of the removal menu removes.  The callback data of
    the button of a row is [remove_] followed by its name, and the handler
    gets the name back by deleting every [remove_] from the data.  For an
    authorized user whose query is answered: when the name is not the word
    [server] and does not itself contain [remove_], the button does to the
    table exactly what [remove_server] does for that name; the button of a
    row named [server] carries the data of the menu entry that opens the
    removal menu, and leaves the table as it was. *)
Theorem X28_remove_button_decoding
        (self : Bot) (w : UiWorld) (user : option User) (r : ServerRow) :
  is_authorized self user = true ->
  query_answer w = Ok tt ->
  (row_name r <> "server" ->
   occurs "remove_" (row_name r) = false ->
   database (snd (callback_query_handler w user (snd (remove_button r))
                                         self))
   = snd (DatabaseManager.remove_server (disk w) (database self)
                                        (row_name r)))
  /\ (row_name r = "server" ->
      database (snd (callback_query_handler w user (snd (remove_button r))
                                            self))
      = database self).
Proof.
  intros Hauth Hq.
  remember (callback_query_handler w user (snd (remove_button r)) self)
    as res eqn:R.
  unfold callback_query_handler, remove_button, ubind, fields, still, vret
    in R.
  cbn [fst snd] in R. rewrite Hauth, Hq in R. cbn [negb fst snd] in R.
  change ("remove_" ++ row_name r =? "add_server") with false in R.
  change ("remove_" ++ row_name r =? "list_servers") with false in R.
  change ("remove_" ++ row_name r =? "remove_server")
    with (row_name r =? "server") in R.
  cbv iota in R.
  split.
  - intros Hname Hocc.
    apply String.eqb_neq in Hname. rewrite Hname in R.
    unfold startswith in R. rewrite drop_prefix_app in R.
    unfold replace in R. cbn [replace_fuel] in R.
    rewrite drop_prefix_app in R.
    change ("" ++ ?x) with x in R.
    rewrite (replace_absent _ _ _ _ Hocc) in R.
    unfold confirm_remove_server, ubind, on_database, still, log_event, edit
      in R.
    destruct (DatabaseManager.remove_server (disk w) (database self)
                                            (row_name r))
      as [[success t] db]. cbn [fst snd] in R.
    destruct success; cbn [fst snd] in R.
    + destruct (edit_message_text w (Removed (row_name r)));
        subst res; reflexivity.
    + destruct (edit_message_text w (NotRemoved (row_name r)));
        subst res; reflexivity.
  - intros Hname. apply String.eqb_eq in Hname. rewrite Hname in R.
    unfold start_remove_server, ubind, fields, still, get_servers, edit, vret
      in R.
    cbn [fst snd] in R.
    destruct (DatabaseManager.get_servers (disk w) (database self))
      as [[ | r0 rows] | e]; cbn [fst snd] in R.
    + destruct (edit_message_text w NothingToRemove);
        subst res; reflexivity.
    + destruct (edit_message_text w _); subst res; reflexivity.
    + subst res; reflexivity.
Qed.

Lemma X28_remove_button_decoding_witness :
  database (snd (callback_query_handler
                   fair_weather (Some operator)
                   (snd (remove_button row_called_server)) stocked_bot))
  = database stocked_bot.
Proof.
  exact (proj2 (X28_remove_button_decoding
                  stocked_bot fair_weather (Some operator)
                  row_called_server eq_refl eq_refl)
               eq_refl).
Defined.

(** X29: a button of the main menu is never taken as an answer.  While a
    user is in a dialog other than the test confirmation, or in none, a
    text that is one of the five menu buttons leaves the collected answers
    and the table as they were; except for the test button, which may
    replace the pending dialog state by the request to confirm, it changes
    nothing in the bot at all. *)
Theorem X29_menu_buttons_are_not_answers
        (self : Bot) (w : UiWorld) (usr : User) (text : string) :
  is_menu_button text = true ->
  users_find (user_id usr) (user_states self) <> Some "confirming_test" ->
  temp_server_data (snd (_message_router w (Some usr) text self))
  = temp_server_data self
  /\ database (snd (_message_router w (Some usr) text self))
     = database self
  /\ ((text =? "🧪 Test Shutdown") = false ->
      snd (_message_router w (Some usr) text self) = self).
Proof.
  intros Hmenu Hstate.
  assert (M : _message_router w (Some usr) text self
              = message_handler w (Some usr) text self).
  { unfold _message_router, ubind, still, sender_id, fields, vret.
    cbn [fst snd].
    destruct (users_find (user_id usr) (user_states self)) as [st | ];
      cbn [fst snd].
    - destruct (st =? "confirming_test") eqn:E.
      + apply String.eqb_eq in E. subst st. now contradiction Hstate.
      + now destruct (message_handler w (Some usr) text self)
          as [[res t] self'].
    - now destruct (message_handler w (Some usr) text self)
        as [[res t] self']. }
  rewrite M. clear M Hstate.
  remember (message_handler w (Some usr) text self) as res eqn:R.
  unfold message_handler, ubind, fields, still, sender_id, vret, uret in R.
  cbn [fst snd] in R.
  destruct (negb (is_authorized self (Some usr))); cbn [fst snd] in R;
    [ subst res; repeat split | ].
  unfold is_menu_button in Hmenu.
  destruct (text =? "📊 Status");
    [ destruct (status_handler self w (Some usr)); subst res;
      repeat split | ].
  destruct (text =? "🖥️ Servers");
    [ destruct (servers_menu_handler self w (Some usr)); subst res;
      repeat split | ].
  destruct (text =? "📋 Logs");
    [ destruct (show_logs self w (Some usr)); subst res; repeat split | ].
  destruct (text =? "🧪 Test Shutdown").
  - unfold test_shutdown, ubind, fields, still, sender_id, vret, uret,
           get_servers, say, set_state, assign in R.
    cbn [fst snd] in R.
    destruct (negb (is_authorized self (Some usr))); cbn [fst snd] in R;
      [ subst res; repeat split; discriminate | ].
    destruct (DatabaseManager.get_servers (disk w) (database self))
      as [[ | r rows] | e]; cbn [fst snd] in R.
    + destruct (reply_text w NoServersToTest); subst res;
        repeat split; discriminate.
    + destruct (reply_text w TestWarning); cbn [fst snd] in R;
        subst res; repeat split; discriminate.
    + subst res; repeat split; discriminate.
  - destruct (text =? "⚙️ Settings"); [ | discriminate Hmenu ].
    destruct (show_settings self w (Some usr)); subst res; repeat split.
Qed.

Lemma X29_menu_buttons_are_not_answers_witness :
  snd (_message_router fair_weather (Some operator) "📊 Status"
                       at_name_step)
  = at_name_step.
Proof.
  exact (proj2 (proj2 (X29_menu_buttons_are_not_answers
                         at_name_step fair_weather operator "📊 Status"
                         eq_refl
                         (fun H : Some "adding_server_name"
                                  = Some "confirming_test" =>
                            eq_ind "adding_server_name"
                              (fun s => match s with
                                        | String "a" _ => True
                                        | _ => False
                                        end)
                              I "confirming_test"
                              (f_equal (fun o => match o with
                                                 | Some s => s
                                                 | None => ""
                                                 end) H))))
               eq_refl).
Defined.

Lemma remove_at_sign (fuel : nat) (s : string) :
  (String.length s < fuel)%nat ->
  occurs "@" (replace_fuel fuel "@" "" s) = false.
Proof.
  revert s. induction fuel as [ | fuel IH ]; intros s L; [ lia | ].
  destruct s as [ | c s ]; [ reflexivity | ].
  cbn [String.length] in L. cbn [replace_fuel drop_prefix].
  destruct (Ascii.eqb "@" c) eqn:E.
  - change ("" ++ ?x) with x. apply IH. lia.
  - cbn [occurs drop_prefix]. rewrite E. apply IH. lia.
Qed.

(** X30: the configured name is stored without any [@].  Whatever is
    configured, the name the bot compares with holds no [@]; a name
    configured without [@] is kept as it is, and a leading [@] makes no
    difference.  Hence nobody whose username holds an [@], and nobody
    without a username, passes [is_authorized]. *)
Theorem X30_configured_name_is_normalised
        (allowed : string) (pm : PowerMonitor) :
  occurs "@" (allowed_username (init allowed pm)) = false
  /\ (occurs "@" allowed = false ->
      allowed_username (init allowed pm) = allowed)
  /\ allowed_username (init ("@" ++ allowed) pm)
     = allowed_username (init allowed pm)
  /\ forall u, is_authorized (init allowed pm) (Some u) = true ->
               exists n, user_username u = Some n
                         /\ n = allowed_username (init allowed pm)
                         /\ occurs "@" n = false.
Proof.
  assert (A : occurs "@" (allowed_username (init allowed pm)) = false).
  { unfold init, replace. cbn [allowed_username].
    apply remove_at_sign. lia. }
  split; [ exact A | ].
  split; [ intros H; unfold init, replace; cbn [allowed_username];
           now apply replace_absent | ].
  split; [ reflexivity | ].
  intros u H. unfold is_authorized in H.
  destruct (user_username u) as [n | ]; [ | discriminate H ].
  apply String.eqb_eq in H. exists n. subst n. repeat split. exact A.
Qed.

End ButtonFacts.
